(** * Vibration report renderer: a shallow embedding and its properties

    The development embeds the two jsPDF report generators of the
    fault-detection dashboard:

    - [BearingReport]: the bearing report generator (component
      [BearingReportGenerator]: [generateFFTData], [getStatusSeverity],
      [getVelocityColor], [drawFFTChart], [generatePDFReport]);
    - [MachineReport]: the machine vibration report of
      [ChartsSection.jsx] (component [ReportGenerator]: mock bearing data,
      the vibration data table and the FFT chart pages);
    - [FFTModal]: the point placement of the canvas spectrum chart.

    and, around them: the data the canvas chart draws ([ModalData]) and
    the spectrum [MachineDetail] generates when a fetch fails
    ([DetailPage]); the velocity threshold charts of the two machine
    reports ([ThresholdChart], [ThresholdTable]) and their file names
    ([ReportNames]); the machine table that launches the machine report
    ([Pager]: its pagination); the dashboard ([Dashboard]: KPI cards,
    filter options, the rows of the table and their filter; [Api]: the
    request for the machines; [TrendCharts]: the customer series).

    JavaScript numbers are IEEE binary64 values, modelled by Rocq's
    primitive floats; loop counters and array indices are [nat] and are
    converted where they enter floating-point arithmetic.  Strings are
    sequences of code units, modelled by [string] (code units below 256);
    case conversion acts on the ASCII letters and leaves the other code
    units as they are, which neither makes nor unmakes one of the ASCII
    status tokens.  The jsPDF document is the sequence of API calls made
    on it. *)

From Stdlib Require Import Floats ZArith List String Ascii Bool Arith Lia.
From Stdlib Require Import DecimalString.
Import ListNotations.

Set Warnings "-inexact-float".
Local Open Scope string_scope.
Local Open Scope list_scope.

(* ================================================================== *)
(** ** JavaScript values *)

Module JS.

(** The values a field of a fetched JSON record can hold (objects and
    arrays apart, which no field read by the reports is expected to be). *)
Inductive value : Type :=
| VUndefined
| VNull
| VStr (s : string)
| VNum (n : float)
| VBool (b : bool).

Inductive exn : Type :=
| TypeError (msg : string).

Inductive result (A : Type) : Type :=
| Ok (a : A)
| Throw (e : exn).
Arguments Ok {A} a.
Arguments Throw {A} e.

(** ToBoolean. *)
Definition truthy (v : value) : bool :=
  match v with
  | VUndefined | VNull => false
  | VStr s => negb (String.eqb s "")
  | VNum n => negb ((n =? 0)%float || is_nan n)
  | VBool b => b
  end.

(** [a || b]. *)
Definition or_else (a b : value) : value := if truthy a then a else b.

(** A loop counter or array index used as a number. *)
Definition num (n : nat) : float := of_uint63 (Uint63.of_Z (Z.of_nat n)).

Definition is_upper (c : ascii) : bool :=
  let n := nat_of_ascii c in (65 <=? n)%nat && (n <=? 90)%nat.
Definition is_lower (c : ascii) : bool :=
  let n := nat_of_ascii c in (97 <=? n)%nat && (n <=? 122)%nat.
Definition is_digit (c : ascii) : bool :=
  let n := nat_of_ascii c in (48 <=? n)%nat && (n <=? 57)%nat.

Definition lower_char (c : ascii) : ascii :=
  if is_upper c then ascii_of_nat (nat_of_ascii c + 32) else c.
Definition upper_char (c : ascii) : ascii :=
  if is_lower c then ascii_of_nat (nat_of_ascii c - 32) else c.

Fixpoint map_chars (f : ascii -> ascii) (s : string) : string :=
  match s with
  | EmptyString => EmptyString
  | String c s' => String (f c) (map_chars f s')
  end.

Definition lowerCase (s : string) : string := map_chars lower_char s.
Definition upperCase (s : string) : string := map_chars upper_char s.

(** Method calls on a value that is not a string: the property lookup
    yields [undefined] (or fails on [undefined]/[null]) and the call
    throws a [TypeError]. *)
Definition toLowerCase (v : value) : result string :=
  match v with
  | VStr s => Ok (lowerCase s)
  | _ => Throw (TypeError "toLowerCase is not a function")
  end.

Definition toUpperCase (v : value) : result string :=
  match v with
  | VStr s => Ok (upperCase s)
  | _ => Throw (TypeError "toUpperCase is not a function")
  end.

(** [v.substring(0, n)]. *)
Definition substring0 (n : nat) (v : value) : result string :=
  match v with
  | VStr s => Ok (String.substring 0 n s)
  | _ => Throw (TypeError "substring is not a function")
  end.

(** Decimal rendering of a non-negative integer (template literals). *)
Definition nat_to_string (n : nat) : string :=
  NilZero.string_of_uint (Nat.to_uint n).

End JS.
Export JS.

(* ================================================================== *)
(** ** The jsPDF surface and the effects of a report run *)

Module Pdf.

Definition color : Type := (Z * Z * Z)%type.

Inductive textopt : Type :=
| NoOpt
| Align (a : string)
| Angle (deg : float).

(** One constructor per jsPDF method the generators call. *)
Inductive op : Type :=
| SetFillColor (c : color)
| SetDrawColor (c : color)
| SetTextColor (c : color)
| SetLineWidth (w : float)
| SetFontSize (n : nat)
| SetFont (family style : string)
| Rect (x y w h : float) (style : string)
| Line (x1 y1 x2 y2 : float)
| Text (t : value) (x y : float) (o : textopt)
| AddImage (img fmt : string) (x y w h : float)
| AddPage
| Save (fileName : string).

(** What a run reads from its environment: the successive results of
    [Math.random()], the number formatting and parsing built-ins, the two
    renderings of the current date, the page size reported by jsPDF and
    the company logo as [loadLogo] resolved it. *)
Record Env : Type := {
  rand : nat -> float;
  toFixed : nat -> float -> string;
  parseFloat : string -> float;
  numToString : float -> string;
  localeDate : string;
  isoDate : string;
  pageWidth : float;
  pageHeight : float;
  logo : option string
}.

(** ToString, as a template literal or [parseFloat] applies it. *)
Definition ToString (E : Env) (v : value) : string :=
  match v with
  | VUndefined => "undefined"
  | VNull => "null"
  | VStr s => s
  | VNum n => numToString E n
  | VBool true => "true"
  | VBool false => "false"
  end.

(** [array[i]]: [undefined] out of range. *)
Definition at_index (l : list value) (i : nat) : value := nth i l VUndefined.

(** A computation returns a value or throws, appends calls to the
    document and advances the count of random numbers drawn. *)
Record run (A : Type) : Type := {
  val : result A;
  out : list op;
  cnt : nat
}.
Arguments val {A} r.
Arguments out {A} r.
Arguments cnt {A} r.

Definition M (A : Type) : Type := nat -> run A.

Definition ret {A} (a : A) : M A :=
  fun c => {| val := Ok a; out := []; cnt := c |}.

Definition bind {A B} (m : M A) (f : A -> M B) : M B :=
  fun c =>
    let r := m c in
    match val r with
    | Ok a =>
        let r' := f a (cnt r) in
        {| val := val r'; out := out r ++ out r'; cnt := cnt r' |}
    | Throw e => {| val := Throw e; out := out r; cnt := cnt r |}
    end.

Definition tell (ops : list op) : M unit :=
  fun c => {| val := Ok tt; out := ops; cnt := c |}.

Definition lift {A} (r : result A) : M A :=
  fun c => {| val := r; out := []; cnt := c |}.

(** [Math.random()]. *)
Definition random (E : Env) : M float :=
  fun c => {| val := Ok (rand E c); out := []; cnt := S c |}.

(** [array.forEach((x, i) => ...)] with the variables the callback
    assigns to carried from one iteration to the next. *)
Fixpoint forEachFrom {A St} (i : nat) (l : list A) (s : St)
    (f : St -> A -> nat -> M St) : M St :=
  match l with
  | [] => ret s
  | x :: l' => bind (f s x i) (fun s' => forEachFrom (S i) l' s' f)
  end.

Definition forEach {A St} (l : list A) (s : St)
    (f : St -> A -> nat -> M St) : M St :=
  forEachFrom 0 l s f.

(** [m], started after [c] random draws, returns [a], makes the calls [o]
    and leaves the count at [c']. *)
Definition runs {A} (m : M A) (c : nat) (a : A) (o : list op) (c' : nat)
    : Prop :=
  m c = {| val := Ok a; out := o; cnt := c' |}.

End Pdf.
Export Pdf.

Declare Scope pdf_scope.
Delimit Scope pdf_scope with pdf.
Notation "x <- m ;; k" := (bind m (fun x => k))
  (at level 61, m at next level, right associativity) : pdf_scope.
Notation "m ;;; k" := (bind m (fun _ => k))
  (at level 61, right associativity) : pdf_scope.
Local Open Scope pdf_scope.

(* ================================================================== *)
(** ** Definitions shared by the two report generators

    [SEVERITY_COLORS], [getStatusSeverity], [getVelocityColor],
    [drawPageHeader], [drawPageFooter] and [drawFFTChart] have the same
    text in both components. *)

Module Renderer.

Local Open Scope float_scope.

(** The keys ['A'], ['B'], ['C'], ['D'] of [SEVERITY_COLORS]. *)
Inductive severity : Type := SevA | SevB | SevC | SevD.

Record severityInfo : Type := {
  bg : color;
  text : string;
  level : nat
}.

Definition SEVERITY_COLORS (s : severity) : severityInfo :=
  match s with
  | SevA => {| bg := (16, 185, 129)%Z; text := "Normal"; level := 1 |}
  | SevB => {| bg := (6, 182, 212)%Z; text := "Satisfactory"; level := 2 |}
  | SevC => {| bg := (245, 158, 11)%Z; text := "Alert"; level := 3 |}
  | SevD => {| bg := (239, 68, 68)%Z; text := "Unacceptable"; level := 4 |}
  end.

(** The chain of comparisons of [getStatusSeverity] on the lower-cased
    label. *)
Definition severityOf (s : string) : severity :=
  if String.eqb s "normal" then SevA
  else if String.eqb s "satisfactory" then SevB
  else if String.eqb s "alert" then SevC
  else if String.eqb s "unacceptable" || String.eqb s "unsatisfactory" then SevD
  else SevA.

Definition getStatusSeverity (status : value) : result severity :=
  match toLowerCase (or_else status (VStr "")) with
  | Ok s => Ok (severityOf s)
  | Throw e => Throw e
  end.

Definition getVelocityColor (E : Env) (vel : value) : color :=
  let v := parseFloat E (ToString E vel) in
  if 7.1 <? v then (239, 68, 68)%Z
  else if 4.5 <? v then (251, 146, 60)%Z
  else if 2.8 <? v then (245, 158, 11)%Z
  else (16, 185, 129)%Z.

Definition drawPageHeader (logo : option string) (machineName : value)
    (pageWidth margin : float) : list op :=
  [ SetFillColor (30, 41, 59)%Z;
    Rect 0 0 pageWidth 22 "F";
    SetTextColor (255, 255, 255)%Z;
    SetFontSize 14;
    SetFont "helvetica" "bold";
    Text (VStr "AAMS") margin 14 NoOpt ]
  ++ (if truthy machineName
      then [ SetFontSize 10;
             Text machineName (pageWidth / 2) 14 (Align "center") ]
      else [])
  ++ match logo with
     | Some img => [ AddImage img "JPEG" (pageWidth - margin - 25) 2 23 18 ]
     | None => []
     end.

Definition drawPageFooter (pageNum : nat) (pageWidth pageHeight margin : float)
    : list op :=
  [ SetFontSize 8;
    SetTextColor (79, 70, 229)%Z;
    Text (VStr "http://app.aams.io") margin (pageHeight - 8) NoOpt;
    SetTextColor (100, 100, 100)%Z;
    Text (VStr ("Page: " ++ nat_to_string pageNum)) (pageWidth - margin)
         (pageHeight - 8) (Align "right") ].

(** One sample of a spectrum: [{ freq, amplitude }]. *)
Record point : Type := {
  freq : float;
  amplitude : float
}.

(** [Math.max(...values)]: [-Infinity] on no argument, [NaN] as soon as
    one argument is. *)
Definition max2 (a b : float) : float :=
  if is_nan a || is_nan b then nan else if a <? b then b else a.

Definition Math_max (l : list float) : float := fold_left max2 l neg_infinity.

(** [Math.max(...fftData.map(d => d.amplitude)) || 1]. *)
Definition maxAmplitudeOf (fftData : list point) : float :=
  let m := Math_max (map amplitude fftData) in
  if truthy (VNum m) then m else 1.

(** The four lines [for (let i = 1; i < 5; i++)] draws and the nine of
    the loop up to 10. *)
Definition horizontalGrid (x y width height : float) : list op :=
  map (fun i => let gridY := y + (height / 5) * num i in
                Line x gridY (x + width) gridY)
      (seq 1 4).

Definition verticalGrid (x y width height : float) : list op :=
  map (fun i => let gridX := x + (width / 10) * num i in
                Line gridX y gridX (y + height))
      (seq 1 9).

(** The polyline: one segment per index [1 <= i < fftData.length]. *)
Definition segment (fftData : list point) (x y height scaleX scaleY : float)
    (i : nat) : op :=
  let d := {| freq := 0; amplitude := 0 |} in
  let x1 := x + num (i - 1) * scaleX in
  let y1 := y + height - 5 - amplitude (nth (i - 1) fftData d) * scaleY in
  let x2 := x + num i * scaleX in
  let y2 := y + height - 5 - amplitude (nth i fftData d) * scaleY in
  Line x1 y1 x2 y2.

Definition polyline (fftData : list point) (x y width height : float)
    (c : color) : list op :=
  let maxAmplitude := maxAmplitudeOf fftData in
  let scaleX := width / num (List.length fftData) in
  let scaleY := (height - 10) / maxAmplitude in
  [ SetDrawColor c; SetLineWidth 0.5 ]
  ++ map (segment fftData x y height scaleX scaleY)
         (seq 1 (List.length fftData - 1)).

(** [fftData] is [None] for a missing ([undefined] or [null]) series. *)
Definition drawFFTChart (fftData : option (list point))
    (x y width height : float) (title : string) (c : color) : list op :=
  [ SetFillColor (250, 250, 250)%Z;
    Rect x y width height "F";
    SetDrawColor (200, 200, 200)%Z;
    SetLineWidth 0.3;
    Rect x y width height "S";
    SetFontSize 9;
    SetFont "helvetica" "bold";
    SetTextColor (30, 41, 59)%Z;
    Text (VStr title) (x + 5) (y - 3) NoOpt;
    SetDrawColor (230, 230, 230)%Z;
    SetLineWidth 0.1 ]
  ++ horizontalGrid x y width height
  ++ verticalGrid x y width height
  ++ match fftData with
     | Some ((_ :: _) as data) => polyline data x y width height c
     | _ => []
     end
  ++ [ SetFontSize 7;
       SetTextColor (100, 100, 100)%Z;
       Text (VStr "Frequency (Hz)") (x + width / 2) (y + height + 5)
            (Align "center");
       Text (VStr "Vel") (x - 3) (y + height / 2) (Angle 90);
       SetFontSize 6;
       Text (VStr "0") x (y + height + 3) NoOpt;
       Text (VStr "500") (x + width / 2) (y + height + 3) (Align "center");
       Text (VStr "1000") (x + width) (y + height + 3) (Align "right") ].

(** The three sensing axes, in the order of the literal [['H', 'V', 'A']]. *)
Inductive axis : Type := AxisH | AxisV | AxisA.

Definition axes : list axis := [AxisH; AxisV; AxisA].

Definition axisName (a : axis) : string :=
  match a with AxisH => "H" | AxisV => "V" | AxisA => "A" end.

Definition chartColors (a : axis) : color :=
  match a with
  | AxisH => (59, 130, 246)%Z
  | AxisV => (16, 185, 129)%Z
  | AxisA => (245, 158, 11)%Z
  end.

End Renderer.
Export Renderer.

(* ================================================================== *)
(** ** Input records *)

Module Records.

(** A machine record as fetched; an absent field reads [VUndefined]. *)
Record Machine : Type := {
  m_name : value;
  m_machineName : value;
  m_statusName : value;
  m_status : value;
  m_machineId : value;
  m_id_ : value;        (* [_id] *)
  m_customerId : value;
  m_areaId : value;
  m_type : value;
  m_date : value
}.

Record Bearing : Type := {
  b_id_ : value;        (* [_id] *)
  b_bearingId : value;
  b_statusName : value;
  b_status : value
}.

End Records.
Export Records.

(* ================================================================== *)
(** ** The bearing report generator ([BearingReportGenerator]) *)

Module BearingReport.

Local Open Scope float_scope.

Section Generator.

Variable E : Env.

(** The body of the loop of [generateFFTData], [r] being the result of
    its call of [Math.random()]. *)
Definition fftSample (numPoints : nat) (amplitudeMultiplier : float) (i : nat)
    (r : float) : point :=
  let freq := (num i / num numPoints) * 1000 in
  let amplitude := r * 0.02 * amplitudeMultiplier in
  let amplitude := if abs (freq - 50) <? 5
                   then amplitude + 0.3 * amplitudeMultiplier else amplitude in
  let amplitude := if abs (freq - 100) <? 5
                   then amplitude + 0.15 * amplitudeMultiplier else amplitude in
  let amplitude := if abs (freq - 150) <? 5
                   then amplitude + 0.08 * amplitudeMultiplier else amplitude in
  let amplitude := if abs (freq - 180) <? 10
                   then amplitude + 0.05 * amplitudeMultiplier else amplitude in
  {| freq := freq; amplitude := amplitude |}.

Definition fftPoint (numPoints : nat) (amplitudeMultiplier : float) (i : nat)
    : M point :=
  r <- random E ;;
  ret (fftSample numPoints amplitudeMultiplier i r).

Definition generateFFTData (numPoints : nat) (amplitudeMultiplier : float)
    : M (list point) :=
  forEach (seq 0 numPoints) []
    (fun data i _ =>
       p <- fftPoint numPoints amplitudeMultiplier i ;;
       ret (data ++ [p])).

Definition margin : float := 12.
Definition contentWidth : float := pageWidth E - 2 * margin.
Definition rowHeight : float := 7.
Definition colWidths : list float := [60; 30; 30; 30; 30].
Definition tableHeaders : list value :=
  [VStr "Bearing ID"; VStr "Status"; VStr "Vel (mm/s)"; VStr "Acc (g)";
   VStr "Temp (C)"].

(** [machine.name || machine.machineName || 'Unknown Machine']. *)
Definition machineNameOf (m : Machine) : value :=
  or_else (or_else (m_name m) (m_machineName m)) (VStr "Unknown Machine").

(** [(machine.statusName || machine.status || 'normal').toLowerCase()]. *)
Definition statusOf (m : Machine) : result string :=
  toLowerCase (or_else (or_else (m_statusName m) (m_status m)) (VStr "normal")).

(** [(b.statusName || b.status || 'satisfactory').toLowerCase()]. *)
Definition bearingStatusOf (b : Bearing) : result string :=
  toLowerCase
    (or_else (or_else (b_statusName b) (b_status b)) (VStr "satisfactory")).

(** [isSingleBearing && bearing ? [bearing] : bearings]. *)
Definition bearingsToReportOf (isSingleBearing : bool)
    (bearing : option Bearing) (bearings : list Bearing) : list Bearing :=
  match isSingleBearing, bearing with
  | true, Some b => [b]
  | _, _ => bearings
  end.

Definition statusMultiplierOf (bearingStatus : string) : float :=
  if String.eqb bearingStatus "unacceptable" then 2.5
  else if String.eqb bearingStatus "alert" then 1.8
  else 1.0.

(** The character class [[a-zA-Z0-9()-]]. *)
Definition fileChar (c : ascii) : bool :=
  is_lower c || is_upper c || is_digit c
  || Ascii.eqb c "("%char || Ascii.eqb c ")"%char || Ascii.eqb c "-"%char.

(** [s.replace(/[^a-zA-Z0-9()-]/g, '_')]. *)
Definition sanitize (s : string) : string :=
  map_chars (fun c => if fileChar c then c else "_"%char) s.

Definition replaceUnsafe (v : value) : result string :=
  match v with
  | VStr s => Ok (sanitize s)
  | _ => Throw (TypeError "replace is not a function")
  end.

(** Title, status row and the machine details box of page 1. *)
Definition drawMachineDetails (m : Machine) (isSingleBearing : bool)
    (status : string) : M float :=
  let machineName := machineNameOf m in
  sev <- lift (getStatusSeverity (VStr status)) ;;
  let statusColor := SEVERITY_COLORS sev in
  tell (drawPageHeader (logo E) machineName (pageWidth E) margin) ;;;
  let yPos := 26 in
  tell [ SetTextColor (30, 41, 59)%Z;
         SetFontSize 14;
         SetFont "helvetica" "bold";
         Text (VStr (if isSingleBearing then "BEARING ANALYSIS REPORT"
                     else "MACHINE & BEARING REPORT"))
              (pageWidth E / 2) yPos (Align "center") ] ;;;
  let yPos := yPos + 10 in
  tell [ SetFontSize 10;
         SetFont "helvetica" "normal";
         SetTextColor (30, 41, 59)%Z;
         Text (VStr "Status: ") margin yPos NoOpt;
         SetTextColor (bg statusColor);
         SetFont "helvetica" "bold";
         Text (VStr (upperCase status)) (margin + 15) yPos NoOpt;
         SetTextColor (100, 100, 100)%Z;
         SetFont "helvetica" "normal";
         Text (VStr ("Report Date: " ++ localeDate E)) (pageWidth E - margin)
              yPos (Align "right") ] ;;;
  let yPos := yPos + 10 in
  tell [ SetFillColor (248, 250, 252)%Z;
         Rect margin yPos contentWidth 30 "F";
         SetDrawColor (226, 232, 240)%Z;
         Rect margin yPos contentWidth 30 "S" ] ;;;
  let details : list (string * value) :=
    [ ("Machine Name", machineName);
      ("Machine ID", or_else (or_else (m_machineId m) (m_id_ m)) (VStr "N/A"));
      ("Customer ID", or_else (m_customerId m) (VStr "N/A"));
      ("Area ID", or_else (m_areaId m) (VStr "N/A"));
      ("Type", or_else (m_type m) (VStr "OFFLINE"));
      ("Standard", VStr "ISO 10816-3") ] in
  let colWidth := contentWidth / 2 in
  forEach details tt
    (fun _ detail i =>
       let col := (i mod 2)%nat in
       let row := (i / 2)%nat in
       let x := margin + num col * colWidth + 5 in
       let y := yPos + 8 + num row * 8 in
       tell [ SetTextColor (100, 100, 100)%Z;
              SetFontSize 8;
              SetFont "helvetica" "normal";
              Text (VStr (fst detail ++ ":")) x y NoOpt;
              SetTextColor (30, 41, 59)%Z;
              SetFont "helvetica" "bold";
              Text (snd detail) (x + 30) y NoOpt ]) ;;;
  ret (yPos + 38).

(** The heading and the header row of the bearing table. *)
Definition drawTableHeader (bearingsToReport : list Bearing) (yPos : float)
    : M float :=
  tell [ SetFontSize 11;
         SetFont "helvetica" "bold";
         SetTextColor (30, 41, 59)%Z;
         Text (VStr ("Bearings (" ++ nat_to_string (List.length bearingsToReport)
                     ++ ")")) margin yPos NoOpt ] ;;;
  let yPos := yPos + 6 in
  tell [ SetFillColor (30, 41, 59)%Z ] ;;;
  forEach colWidths margin
    (fun tableX w i =>
       tell [ Rect tableX yPos w rowHeight "F";
              SetTextColor (255, 255, 255)%Z;
              SetFontSize 7;
              SetFont "helvetica" "bold";
              Text (at_index tableHeaders i) (tableX + 2) (yPos + 5) NoOpt ] ;;;
       ret (tableX + w)) ;;;
  ret (yPos + rowHeight).

(** The callback of [bearingsToReport.forEach((b, bIdx) => ...)] that
    draws one table row; the carried variable is [yPos]. *)
Definition drawTableRow (yPos : float) (b : Bearing) (bIdx : nat) : M float :=
  let bearingId :=
    or_else (or_else (b_id_ b) (b_bearingId b))
            (VStr ("Bearing-" ++ nat_to_string (bIdx + 1))) in
  bearingStatus <- lift (bearingStatusOf b) ;;
  r1 <- random E ;;
  let vel := toFixed E 2 (1.5 + r1 * 2) in
  r2 <- random E ;;
  let acc := toFixed E 3 (0.1 + r2 * 0.2) in
  r3 <- random E ;;
  let temp := toFixed E 1 (25 + r3 * 10) in
  idText <- lift (substring0 25 bearingId) ;;
  let rowData := [VStr idText; VStr bearingStatus; VStr vel; VStr acc; VStr temp] in
  let bgColor := if (bIdx mod 2 =? 0)%nat
                 then (255, 255, 255)%Z else (248, 250, 252)%Z in
  forEach colWidths margin
    (fun tableX w i =>
       tell [ SetFillColor bgColor;
              Rect tableX yPos w rowHeight "F";
              SetDrawColor (226, 232, 240)%Z;
              Rect tableX yPos w rowHeight "S" ] ;;;
       (if (i =? 2)%nat then
          tell [ SetTextColor (getVelocityColor E (at_index rowData i)) ]
        else if (i =? 1)%nat then
          sevColor <- lift (getStatusSeverity (VStr bearingStatus)) ;;
          tell [ SetTextColor (bg (SEVERITY_COLORS sevColor)) ]
        else
          tell [ SetTextColor (30, 41, 59)%Z ]) ;;;
       tell [ SetFontSize 7;
              SetFont "helvetica" "normal";
              Text (at_index rowData i) (tableX + 2) (yPos + 5) NoOpt ] ;;;
       ret (tableX + w)) ;;;
  ret (yPos + rowHeight).

Definition drawTableRows (bearingsToReport : list Bearing) (yPos : float)
    : M float :=
  forEach bearingsToReport yPos drawTableRow.

(** The variables the chart loop assigns to. *)
Record cursor : Type := {
  chartIndex : nat;
  pageNum : nat;
  yPos : float
}.

(** The callback of [['H', 'V', 'A'].forEach((axis) => ...)]: one chart
    panel.  [total] is [bearingsToReport.length * 3]. *)
Definition drawChartPanel (machineName bearingId : value)
    (statusMultiplier : float) (total : nat) (st : cursor) (ax : axis)
    : M cursor :=
  yPos' <- (if (chartIndex st mod 2 =? 0)%nat then
              tell ([ AddPage ]
                    ++ drawPageHeader (logo E) machineName (pageWidth E) margin
                    ++ [ SetTextColor (30, 41, 59)%Z; SetFontSize 9 ]) ;;;
              idText <- lift (substring0 40 bearingId) ;;
              tell [ Text (VStr ("Bearing: " ++ idText)) margin 28 NoOpt ] ;;;
              ret (28 + 8)
            else ret (yPos st)) ;;
  let chartTitle :=
    ("FFT Spectrum - Velocity > (" ++ axisName ax ++ "-Axis)")%string in
  let chartYPos := if (chartIndex st mod 2 =? 0)%nat then 45 else 145 in
  fftData <- generateFFTData 200 statusMultiplier ;;
  tell (drawFFTChart (Some fftData) (margin + 5) chartYPos (contentWidth - 10)
                     80 chartTitle (chartColors ax)) ;;;
  tell [ SetFontSize 7;
         SetTextColor (100, 100, 100)%Z;
         Text (VStr ("Date: " ++ isoDate E)) (margin + 5) (chartYPos + 90)
              NoOpt ] ;;;
  let chartIndex' := (chartIndex st + 1)%nat in
  if ((chartIndex' mod 2 =? 0) || (chartIndex' =? total))%nat then
    tell (drawPageFooter (pageNum st) (pageWidth E) (pageHeight E) margin) ;;;
    ret {| chartIndex := chartIndex'; pageNum := (pageNum st + 1)%nat;
           yPos := yPos' |}
  else
    ret {| chartIndex := chartIndex'; pageNum := pageNum st; yPos := yPos' |}.

(** The callback of [bearingsToReport.forEach((b) => ...)] of the chart
    pages. *)
Definition drawBearingCharts (machineName : value) (total : nat)
    (st : cursor) (b : Bearing) : M cursor :=
  let bearingId := or_else (or_else (b_id_ b) (b_bearingId b)) (VStr "Bearing") in
  bearingStatus <- lift (bearingStatusOf b) ;;
  let statusMultiplier := statusMultiplierOf bearingStatus in
  forEach axes st
    (fun st ax _ => drawChartPanel machineName bearingId statusMultiplier total st ax).

Definition drawChartPages (machineName : value)
    (bearingsToReport : list Bearing) (st : cursor) : M cursor :=
  forEach bearingsToReport st
    (fun st b _ =>
       drawBearingCharts machineName (List.length bearingsToReport * 3) st b).

(** [bearingName] of the file name. *)
Definition bearingNameOf (isSingleBearing : bool) (bearing : option Bearing)
    : result string :=
  match isSingleBearing, bearing with
  | true, Some b =>
      substring0 20 (or_else (or_else (b_id_ b) (b_bearingId b)) (VStr "bearing"))
  | _, _ => Ok "all_bearings"
  end.

Definition fileNameOf (machineName : value) (isSingleBearing : bool)
    (bearing : option Bearing) : result string :=
  match bearingNameOf isSingleBearing bearing with
  | Throw e => Throw e
  | Ok bearingName =>
      match replaceUnsafe machineName with
      | Throw e => Throw e
      | Ok safeName =>
          Ok ("Report_" ++ safeName ++ "_" ++ bearingName ++ "_" ++ isoDate E
              ++ ".pdf")%string
      end
  end.

(** The body of the [try] block, after [loadLogo] resolved. *)
Definition renderReport (m : Machine) (bearing : option Bearing)
    (bearings : list Bearing) (isSingleBearing : bool) : M unit :=
  let machineName := machineNameOf m in
  status <- lift (statusOf m) ;;
  let bearingsToReport := bearingsToReportOf isSingleBearing bearing bearings in
  let pageNum := 1%nat in
  yPos <- drawMachineDetails m isSingleBearing status ;;
  yPos <- drawTableHeader bearingsToReport yPos ;;
  yPos <- drawTableRows bearingsToReport yPos ;;
  tell (drawPageFooter pageNum (pageWidth E) (pageHeight E) margin) ;;;
  let pageNum := (pageNum + 1)%nat in
  drawChartPages machineName bearingsToReport
    {| chartIndex := 0%nat; pageNum := pageNum; yPos := yPos |} ;;;
  fileName <- lift (fileNameOf machineName isSingleBearing bearing) ;;
  tell [ Save fileName ].

(** How a click on the button ends: nothing happens without a machine;
    the document is saved; or the [catch] block logs the error and
    alerts, and the calls made so far are dropped with the document. *)
Inductive outcome : Type :=
| Skipped
| Saved (doc : list op)
| Alerted (e : exn) (partial : list op).

Definition generatePDFReport (machine : option Machine)
    (bearing : option Bearing) (bearings : list Bearing)
    (isSingleBearing : bool) : outcome :=
  match machine with
  | None => Skipped
  | Some m =>
      let r := renderReport m bearing bearings isSingleBearing 0%nat in
      match val r with
      | Ok _ => Saved (out r)
      | Throw e => Alerted e (out r)
      end
  end.

End Generator.

End BearingReport.

(* ================================================================== *)
(** ** The machine vibration report ([ReportGenerator] of
       [ChartsSection.jsx]): mock data, data table rows, chart pages *)

Module MachineReport.

Local Open Scope float_scope.

(** An object with the keys [H], [V] and [A]. *)
Record perAxis (T : Type) : Type := {
  onH : T;
  onV : T;
  onA : T
}.
Arguments onH {T} p.
Arguments onV {T} p.
Arguments onA {T} p.

Definition axisGet {T} (p : perAxis T) (a : axis) : T :=
  match a with AxisH => onH p | AxisV => onV p | AxisA => onA p end.

Record metric : Type := {
  vel : string;
  acc : string;
  env : string
}.

Record bearingData : Type := {
  bearingName : string;
  date : value;
  sr : Z;
  metrics : perAxis metric;
  fftData : perAxis (list point)
}.

Section Generator.

Variable E : Env.

(** The body of the loop of [generateFFTData], [r] being the result of
    its call of [Math.random()]. *)
Definition fftSample (numPoints : nat) (amplitudeMultiplier : float) (i : nat)
    (r : float) : point :=
  let freq := (num i / num numPoints) * 1000 in
  let amplitude := r * 0.02 * amplitudeMultiplier in
  let amplitude := if abs (freq - 50) <? 5
                   then amplitude + 0.3 * amplitudeMultiplier else amplitude in
  let amplitude := if abs (freq - 100) <? 5
                   then amplitude + 0.15 * amplitudeMultiplier else amplitude in
  let amplitude := if abs (freq - 150) <? 5
                   then amplitude + 0.08 * amplitudeMultiplier else amplitude in
  let amplitude := if abs (freq - 180) <? 10
                   then amplitude + 0.05 * amplitudeMultiplier else amplitude in
  let amplitude := if abs (freq - 360) <? 10
                   then amplitude + 0.03 * amplitudeMultiplier else amplitude in
  {| freq := freq; amplitude := amplitude |}.

Definition fftPoint (numPoints : nat) (amplitudeMultiplier : float) (i : nat)
    : M point :=
  r <- random E ;;
  ret (fftSample numPoints amplitudeMultiplier i r).

Definition generateFFTData (numPoints : nat) (amplitudeMultiplier : float)
    : M (list point) :=
  forEach (seq 0 numPoints) []
    (fun data i _ =>
       p <- fftPoint numPoints amplitudeMultiplier i ;;
       ret (data ++ [p])).

(** [machine.status === label]. *)
Definition statusIs (m : Machine) (label : string) : bool :=
  match m_status m with
  | VStr s => String.eqb s label
  | _ => false
  end.

Definition statusMultiplierOf (m : Machine) : float :=
  if statusIs m "unacceptable" then 2.5
  else if statusIs m "alert" then 1.8
  else if statusIs m "satisfactory" then 1.2
  else 1.0.

(** [{ vel: (baseVel + Math.random() * dv).toFixed(2), acc: ..., env: ... }]. *)
Definition mockMetric (baseVel baseAcc baseEnv dv da de : float) : M metric :=
  r1 <- random E ;;
  r2 <- random E ;;
  r3 <- random E ;;
  ret {| vel := toFixed E 2 (baseVel + r1 * dv);
         acc := toFixed E 3 (baseAcc + r2 * da);
         env := toFixed E 3 (baseEnv + r3 * de) |}.

Definition mockBearing (m : Machine) (bearingName : string) : M bearingData :=
  let date := or_else (m_date m) (VStr (isoDate E)) in
  let statusMultiplier := statusMultiplierOf m in
  r1 <- random E ;;
  let baseVel := (0.5 + r1 * 1.5) * statusMultiplier in
  r2 <- random E ;;
  let baseAcc := (0.1 + r2 * 0.3) * statusMultiplier in
  r3 <- random E ;;
  let baseEnv := (0.05 + r3 * 0.15) * statusMultiplier in
  mH <- mockMetric baseVel baseAcc baseEnv 0.5 0.1 0.05 ;;
  mV <- mockMetric baseVel baseAcc baseEnv 0.8 0.15 0.08 ;;
  mA <- mockMetric baseVel baseAcc baseEnv 0.3 0.08 0.03 ;;
  fH <- generateFFTData 200 statusMultiplier ;;
  fV <- generateFFTData 200 statusMultiplier ;;
  fA <- generateFFTData 200 statusMultiplier ;;
  ret {| bearingName := bearingName;
         date := date;
         sr := 20000%Z;
         metrics := {| onH := mH; onV := mV; onA := mA |};
         fftData := {| onH := fH; onV := fV; onA := fA |} |}.

Definition mockBearingNames : list string :=
  ["Motor DE"; "Motor NDE"; "Pump DE"; "Pump NDE"]%string.

Definition generateMockBearingData (m : Machine) : M (list bearingData) :=
  forEach mockBearingNames []
    (fun acc bearingName _ =>
       b <- mockBearing m bearingName ;;
       ret (acc ++ [b])).

Definition margin : float := 12.
Definition contentWidth : float := pageWidth E - 2 * margin.
Definition rowHeight : float := 7.
Definition colWidths : list float := [35; 25; 15; 28; 25; 25; 25].

(** The callback of [['H', 'V', 'A'].forEach((axis, aIdx) => ...)] of
    the data table: one row; the carried variable is [yPos]. *)
Definition drawDataRow (bearing : bearingData) (bIdx : nat)
    (yPos : float) (ax : axis) (aIdx : nat) : M float :=
  let metrics := axisGet (metrics bearing) ax in
  let rowData :=
    [ if (aIdx =? 0)%nat then VStr (bearingName bearing) else VStr "";
      if (aIdx =? 0)%nat then date bearing else VStr "";
      VStr (axisName ax);
      VStr (vel metrics);
      VStr (acc metrics);
      VStr (env metrics);
      VStr "-" ] in
  let bgColor := if (bIdx mod 2 =? 0)%nat
                 then (255, 255, 255)%Z else (248, 250, 252)%Z in
  forEach colWidths margin
    (fun tableX w i =>
       tell [ SetFillColor bgColor;
              Rect tableX yPos w rowHeight "F";
              SetDrawColor (226, 232, 240)%Z;
              Rect tableX yPos w rowHeight "S" ] ;;;
       (if (i =? 3)%nat then
          tell [ SetTextColor (getVelocityColor E (at_index rowData i)) ]
        else
          tell [ SetTextColor (30, 41, 59)%Z ]) ;;;
       tell [ SetFontSize 7;
              SetFont "helvetica" "normal";
              Text (at_index rowData i) (tableX + 2) (yPos + 5) NoOpt ] ;;;
       ret (tableX + w)) ;;;
  ret (yPos + rowHeight).

(** [bearingsData.forEach((bearing, bIdx) => ...)] of the data table. *)
Definition drawDataRows (bearingsData : list bearingData) (yPos : float)
    : M float :=
  forEach bearingsData yPos
    (fun yPos bearing bIdx =>
       forEach axes yPos (drawDataRow bearing bIdx)).

(** The variables the chart loop assigns to. *)
Record cursor : Type := {
  chartIndex : nat;
  pageNum : nat;
  yPos : float
}.

(** One chart panel; [total] is [bearingsData.length * 3]. *)
Definition drawChartPanel (m : Machine) (bearing : bearingData) (total : nat)
    (st : cursor) (ax : axis) : M cursor :=
  yPos' <- (if (chartIndex st mod 2 =? 0)%nat then
              tell ([ AddPage ]
                    ++ drawPageHeader (logo E)
                         (or_else (m_machineName m) (m_name m))
                         (pageWidth E) margin
                    ++ [ SetTextColor (30, 41, 59)%Z;
                         SetFontSize 9;
                         Text (VStr ("Area Name: "
                                     ++ ToString E (or_else (m_areaId m)
                                                            (VStr "N/A"))))
                              margin 28 NoOpt ]) ;;;
              ret (28 + 8)
            else ret (yPos st)) ;;
  let chartTitle :=
    ("FFT Series - " ++ bearingName bearing ++ " > Velocity > ("
     ++ axisName ax ++ "-Axis) > " ++ ToString E (date bearing))%string in
  let chartYPos := if (chartIndex st mod 2 =? 0)%nat then 45 else 145 in
  tell (drawFFTChart (Some (axisGet (fftData bearing) ax)) (margin + 5)
                     chartYPos (contentWidth - 10) 80 chartTitle
                     (chartColors ax)) ;;;
  tell [ SetFontSize 7;
         SetTextColor (100, 100, 100)%Z;
         Text (VStr ("Description: " ++ bearingName bearing ++ "-"
                     ++ axisName ax)) (margin + 5) (chartYPos + 90) NoOpt ] ;;;
  let chartIndex' := (chartIndex st + 1)%nat in
  if ((chartIndex' mod 2 =? 0) || (chartIndex' =? total))%nat then
    tell (drawPageFooter (pageNum st) (pageWidth E) (pageHeight E) margin) ;;;
    ret {| chartIndex := chartIndex'; pageNum := (pageNum st + 1)%nat;
           yPos := yPos' |}
  else
    ret {| chartIndex := chartIndex'; pageNum := pageNum st; yPos := yPos' |}.

Definition drawChartPages (m : Machine) (bearingsData : list bearingData)
    (st : cursor) : M cursor :=
  forEach bearingsData st
    (fun st bearing _ =>
       forEach axes st
         (fun st ax _ =>
            drawChartPanel m bearing (List.length bearingsData * 3) st ax)).

End Generator.

End MachineReport.

(* ================================================================== *)
(** ** The canvas spectrum chart ([FFTChartModal]): point placement *)

Module FFTModal.

Local Open Scope float_scope.

Record sample : Type := {
  frequency : float;
  amplitude : float
}.

(** [n || 0]. *)
Definition or_zero (n : float) : float := if truthy (VNum n) then n else 0.

(** [Math.max(...data.map(d => d.frequency || 0), 1000)]. *)
Definition maxFreqOf (data : list sample) : float :=
  Math_max (map (fun d => or_zero (frequency d)) data ++ [1000]).

(** [Math.max(...data.map(d => d.amplitude || 0), 0.5)]. *)
Definition maxAmplitudeOf (data : list sample) : float :=
  Math_max (map (fun d => or_zero (amplitude d)) data ++ [0.5]).

(** The coordinates passed to [moveTo] / [lineTo] for one sample. *)
Definition place (data : list sample) (left top chartWidth chartHeight : float)
    (p : sample) : float * float :=
  (left + (frequency p / maxFreqOf data) * chartWidth,
   top + chartHeight - (amplitude p / maxAmplitudeOf data) * chartHeight).

End FFTModal.

(* ================================================================== *)
(** ** Observations on a document and the specification's vocabulary *)

Module Observe.

Local Open Scope float_scope.

Definition isLine (o : op) : bool :=
  match o with Line _ _ _ _ => true | _ => false end.

(** A line whose two ends have the same ordinate / the same abscissa. *)
Definition isHorizontalLine (o : op) : bool :=
  match o with Line _ y1 _ y2 => y1 =? y2 | _ => false end.

Definition isVerticalLine (o : op) : bool :=
  match o with Line x1 _ x2 _ => x1 =? x2 | _ => false end.

Definition isAddPage (o : op) : bool :=
  match o with AddPage => true | _ => false end.

(** The pages a sequence of calls adds to the document. *)
Definition pagesAdded (ops : list op) : nat := List.length (filter isAddPage ops).

(** A table row starts with the bordered cell of the first column, drawn
    at the left margin (12 in both generators). *)
Definition isRowStart (o : op) : bool :=
  match o with
  | Rect x _ _ _ style => (x =? 12) && String.eqb style "S"
  | _ => false
  end.

Definition rowsDrawn (ops : list op) : nat := List.length (filter isRowStart ops).

(** The (bearing, axis) pairs in the order of the nested loops. *)
Definition panels {T} (bs : list T) : list (T * axis) :=
  flat_map (fun b => map (pair b) axes) bs.

(** Consecutive panels two by two: the content of the gallery pages. *)
Fixpoint pairUp {T} (l : list T) : list (list T) :=
  match l with
  | [] => []
  | [a] => [[a]]
  | a :: b :: r => [a; b] :: pairUp r
  end.

(** What [drawFFTChart] draws before the series and after it. *)
Definition chartFrame (x y width height : float) (title : string) : list op :=
  [ SetFillColor (250, 250, 250)%Z;
    Rect x y width height "F";
    SetDrawColor (200, 200, 200)%Z;
    SetLineWidth 0.3;
    Rect x y width height "S";
    SetFontSize 9;
    SetFont "helvetica" "bold";
    SetTextColor (30, 41, 59)%Z;
    Text (VStr title) (x + 5) (y - 3) NoOpt;
    SetDrawColor (230, 230, 230)%Z;
    SetLineWidth 0.1 ].

Definition chartLabels (x y width height : float) : list op :=
  [ SetFontSize 7;
    SetTextColor (100, 100, 100)%Z;
    Text (VStr "Frequency (Hz)") (x + width / 2) (y + height + 5)
         (Align "center");
    Text (VStr "Vel") (x - 3) (y + height / 2) (Angle 90);
    SetFontSize 6;
    Text (VStr "0") x (y + height + 3) NoOpt;
    Text (VStr "500") (x + width / 2) (y + height + 3) (Align "center");
    Text (VStr "1000") (x + width) (y + height + 3) (Align "right") ].

(** The abscissa and the ordinate [drawFFTChart] gives the [i]-th sample
    of a series. *)
Definition pointX (fftData : list point) (x width : float) (i : nat) : float :=
  x + num i * (width / num (List.length fftData)).

Definition pointY (fftData : list point) (y height : float) (i : nat) : float :=
  y + height - 5
  - amplitude (nth i fftData {| freq := 0; amplitude := 0 |})
    * ((height - 10) / maxAmplitudeOf fftData).

(** A field that is a string or reads as absent. *)
Definition stringOrFalsy (v : value) : bool :=
  match v with
  | VStr _ => true
  | _ => negb (truthy v)
  end.

Definition wfBearing (b : Bearing) : bool :=
  stringOrFalsy (b_id_ b) && stringOrFalsy (b_bearingId b)
  && stringOrFalsy (b_statusName b) && stringOrFalsy (b_status b).

Definition wfMachine (m : Machine) : bool :=
  stringOrFalsy (m_name m) && stringOrFalsy (m_machineName m)
  && stringOrFalsy (m_statusName m) && stringOrFalsy (m_status m)
  && stringOrFalsy (m_machineId m) && stringOrFalsy (m_id_ m)
  && stringOrFalsy (m_customerId m) && stringOrFalsy (m_areaId m)
  && stringOrFalsy (m_type m).

Definition wfOptBearing (b : option Bearing) : bool :=
  match b with Some b => wfBearing b | None => true end.

(** The document writes the value [v] somewhere. *)
Definition shows (doc : list op) (v : value) : Prop :=
  exists x y o, In (Text v x y o) doc.

(** The values of the machine details box of the bearing report, each
    field or its default. *)
Definition detailsShown (m : Machine) (doc : list op) : Prop :=
  shows doc (BearingReport.machineNameOf m)
  /\ shows doc (or_else (or_else (m_machineId m) (m_id_ m)) (VStr "N/A"))
  /\ shows doc (or_else (m_customerId m) (VStr "N/A"))
  /\ shows doc (or_else (m_areaId m) (VStr "N/A"))
  /\ shows doc (or_else (m_type m) (VStr "OFFLINE")).

End Observe.
Export Observe.

(** The formulas of the specification, in its words. *)
Module Spec.

Local Open Scope float_scope.

(** [screenX = originX + (freq / maxFreq) * width]. *)
Definition screenX (originX width maxFreq f : float) : float :=
  originX + (f / maxFreq) * width.

(** [screenY = originY + height - (amplitude / maxAmplitude) * height]. *)
Definition screenY (originY height maxAmplitude a : float) : float :=
  originY + height - (a / maxAmplitude) * height.

(** A name with the characters outside [[a-zA-Z0-9()-]] removed. *)
Fixpoint stripUnsafe (s : string) : string :=
  match s with
  | EmptyString => EmptyString
  | String c s' =>
      if BearingReport.fileChar c then String c (stripUnsafe s')
      else stripUnsafe s'
  end.

Definition fileNameWith (safeName bearingScope isoDate : string) : string :=
  ("Report_" ++ safeName ++ "_" ++ bearingScope ++ "_" ++ isoDate ++ ".pdf")%string.

End Spec.

(** The layout of the chart gallery, page by page. *)
Module Layout.

Local Open Scope float_scope.

(** The documents of consecutive pages, numbered from [pn]. *)
Fixpoint pagesFrom {T} (page : nat -> list T -> list op) (pn : nat)
    (chunks : list (list T)) : list op :=
  match chunks with
  | [] => []
  | ch :: r => page pn ch ++ pagesFrom page (S pn) r
  end.

Section Machine.

Variable E : Env.
Variable m : Machine.

(** What opens a gallery page of the machine report. *)
Definition machinePageHead : list op :=
  [ AddPage ]
  ++ drawPageHeader (logo E) (or_else (m_machineName m) (m_name m))
       (pageWidth E) MachineReport.margin
  ++ [ SetTextColor (30, 41, 59)%Z;
       SetFontSize 9;
       Text (VStr ("Area Name: "
                   ++ ToString E (or_else (m_areaId m) (VStr "N/A"))))
            MachineReport.margin 28 NoOpt ].

(** One chart panel with its caption, at ordinate [chartYPos]. *)
Definition machinePanel (p : MachineReport.bearingData * axis)
    (chartYPos : float) : list op :=
  let bearing := fst p in
  let ax := snd p in
  drawFFTChart (Some (MachineReport.axisGet (MachineReport.fftData bearing) ax))
    (MachineReport.margin + 5) chartYPos (MachineReport.contentWidth E - 10) 80
    ("FFT Series - " ++ MachineReport.bearingName bearing ++ " > Velocity > ("
     ++ axisName ax ++ "-Axis) > " ++ ToString E (MachineReport.date bearing))
  (chartColors ax)
  ++ [ SetFontSize 7;
       SetTextColor (100, 100, 100)%Z;
       Text (VStr ("Description: " ++ MachineReport.bearingName bearing ++ "-"
                   ++ axisName ax))
            (MachineReport.margin + 5) (chartYPos + 90) NoOpt ].

(** A gallery page: its opening, the first panel at 45, the second, if
    any, at 145, and the footer with the page number. *)
Definition machinePage (pn : nat)
    (chunk : list (MachineReport.bearingData * axis)) : list op :=
  match chunk with
  | [p1] =>
      machinePageHead ++ machinePanel p1 45
      ++ drawPageFooter pn (pageWidth E) (pageHeight E) MachineReport.margin
  | [p1; p2] =>
      machinePageHead ++ machinePanel p1 45 ++ machinePanel p2 145
      ++ drawPageFooter pn (pageWidth E) (pageHeight E) MachineReport.margin
  | _ => []
  end.

End Machine.

(** The documents of consecutive pages of the bearing report, numbered
    from [pn]; each panel draws 200 random numbers, counted from [c]. *)
Fixpoint pagesDrawing {T} (page : nat -> nat -> list T -> list op)
    (pn c : nat) (chunks : list (list T)) : list op :=
  match chunks with
  | [] => []
  | ch :: r =>
      page pn c ch ++ pagesDrawing page (S pn) (c + 200 * List.length ch) r
  end.

Section Bearing.

Variable E : Env.
Variable machineName : value.

(** The series [generateFFTData(200, multiplier)] returns when [c]
    random numbers were drawn before. *)
Definition seriesAt (multiplier : float) (c : nat) : list point :=
  map (fun i => BearingReport.fftSample 200 multiplier i (rand E (c + i)))
      (seq 0 200).

Definition bearingIdOf (b : Bearing) : value :=
  or_else (or_else (b_id_ b) (b_bearingId b)) (VStr "Bearing").

(** The label and the status of a bearing whose fields are strings or
    absent. *)
Definition labelOf (b : Bearing) : string :=
  match substring0 40 (bearingIdOf b) with Ok s => s | Throw _ => "" end.

Definition statusStringOf (b : Bearing) : string :=
  match BearingReport.bearingStatusOf b with Ok s => s | Throw _ => "" end.

Definition bearingPageHead (p : Bearing * axis) : list op :=
  [ AddPage ]
  ++ drawPageHeader (logo E) machineName (pageWidth E) BearingReport.margin
  ++ [ SetTextColor (30, 41, 59)%Z;
       SetFontSize 9;
       Text (VStr ("Bearing: " ++ labelOf (fst p))) BearingReport.margin 28
            NoOpt ].

Definition bearingPanel (p : Bearing * axis) (c : nat) (chartYPos : float)
    : list op :=
  drawFFTChart
    (Some (seriesAt (BearingReport.statusMultiplierOf (statusStringOf (fst p)))
                    c))
    (BearingReport.margin + 5) chartYPos (BearingReport.contentWidth E - 10) 80
    ("FFT Spectrum - Velocity > (" ++ axisName (snd p) ++ "-Axis)")
    (chartColors (snd p))
  ++ [ SetFontSize 7;
       SetTextColor (100, 100, 100)%Z;
       Text (VStr ("Date: " ++ isoDate E)) (BearingReport.margin + 5)
            (chartYPos + 90) NoOpt ].

Definition bearingPage (pn c : nat) (chunk : list (Bearing * axis)) : list op :=
  match chunk with
  | [p1] =>
      bearingPageHead p1 ++ bearingPanel p1 c 45
      ++ drawPageFooter pn (pageWidth E) (pageHeight E) BearingReport.margin
  | [p1; p2] =>
      bearingPageHead p1 ++ bearingPanel p1 c 45
      ++ bearingPanel p2 (c + 200) 145
      ++ drawPageFooter pn (pageWidth E) (pageHeight E) BearingReport.margin
  | _ => []
  end.

End Bearing.

End Layout.

(** Concrete inputs used to exercise the statements. *)
Module Demo.

Local Open Scope float_scope.

(** An environment in which [parseFloat] reads the number [parsed]. *)
Definition envReading (parsed : float) : Env :=
  {| rand := fun _ => 0.5;
     toFixed := fun _ _ => "2.50";
     parseFloat := fun _ => parsed;
     numToString := fun _ => "0";
     localeDate := "6/1/2024";
     isoDate := "2024-06-01";
     pageWidth := 210;
     pageHeight := 297;
     logo := None |}.

Definition env : Env := envReading 2.5.

Definition machineWith (name status : value) : Machine :=
  {| m_name := name;
     m_machineName := VUndefined;
     m_statusName := VUndefined;
     m_status := status;
     m_machineId := VStr "M1";
     m_id_ := VUndefined;
     m_customerId := VUndefined;
     m_areaId := VUndefined;
     m_type := VUndefined;
     m_date := VUndefined |}.

(** A record that holds only an id. *)
Definition machineOnlyId : Machine := machineWith VUndefined VUndefined.

Definition pump : Machine := machineWith (VStr "Pump-01/X") VUndefined.

Definition bearingWith (id status : value) : Bearing :=
  {| b_id_ := id;
     b_bearingId := VUndefined;
     b_statusName := VUndefined;
     b_status := status |}.

Definition bearingBare : Bearing := bearingWith VUndefined VUndefined.

Definition twoBearings : list Bearing :=
  [ bearingWith (VStr "B1") (VStr "alert"); bearingWith (VStr "B2") VUndefined ].

Definition flatSeries : list point :=
  [ {| freq := 0; amplitude := 1 |}; {| freq := 500; amplitude := 1 |} ].

Definition motorDE : MachineReport.bearingData :=
  {| MachineReport.bearingName := "Motor DE";
     MachineReport.date := VStr "2024-06-01";
     MachineReport.sr := 20000%Z;
     MachineReport.metrics :=
       {| MachineReport.onH := {| MachineReport.vel := "1.20";
                                  MachineReport.acc := "0.200";
                                  MachineReport.env := "0.100" |};
          MachineReport.onV := {| MachineReport.vel := "5.00";
                                  MachineReport.acc := "0.250";
                                  MachineReport.env := "0.120" |};
          MachineReport.onA := {| MachineReport.vel := "0.90";
                                  MachineReport.acc := "0.150";
                                  MachineReport.env := "0.080" |} |};
     MachineReport.fftData :=
       {| MachineReport.onH := flatSeries;
          MachineReport.onV := flatSeries;
          MachineReport.onA := [] |} |}.

(** The cursor at the start of the gallery of the bearing report. *)
Definition galleryStart : BearingReport.cursor :=
  {| BearingReport.chartIndex := 0%nat;
     BearingReport.pageNum := 2%nat;
     BearingReport.yPos := 111 |}.

End Demo.

(* ================================================================== *)
(** ** Further observations on a document *)

Module Calls.

Definition isSave (o : op) : bool :=
  match o with Save _ => true | _ => false end.

Definition notSave (o : op) : bool := negb (isSave o).

(** The number of times the document was saved. *)
Definition saves (ops : list op) : nat := List.length (filter isSave ops).

(** The text of a page label: a right-aligned text that starts with
    "Page: ". *)
Definition pageLabelOf (o : op) : option string :=
  match o with
  | Text t _ _ (Align a) =>
      if String.eqb a "right" then
        match t with
        | VStr s => if String.prefix "Page: " s then Some s else None
        | _ => None
        end
      else None
  | _ => None
  end.

Definition pageLabels (ops : list op) : list string :=
  flat_map (fun o => match pageLabelOf o with Some s => [s] | None => [] end)
           ops.

(** A call that draws on the current page: it neither adds a page, nor
    saves, nor writes a page label. *)
Definition drawsContent (o : op) : bool :=
  match o with
  | AddPage | Save _ => false
  | _ => match pageLabelOf o with Some _ => false | None => true end
  end.

(** Every call the computation makes satisfies [p], whether it returns
    or throws. *)
Definition emits {A} (p : op -> bool) (m : M A) : Prop :=
  forall c, forallb p (out (m c)) = true.

(** The computation saves once, as its last call, when it returns, and
    not at all when it throws. *)
Definition savesLast {A} (m : M A) : Prop :=
  forall c,
    match val (m c) with
    | Ok _ =>
        exists o fileName,
          out (m c) = o ++ [ Save fileName ] /\ saves o = 0%nat
    | Throw _ => saves (out (m c)) = 0%nat
    end.

(** Every character of the string satisfies [p]. *)
Fixpoint allChars (p : ascii -> bool) (s : string) : bool :=
  match s with
  | EmptyString => true
  | String c s' => p c && allChars p s'
  end.

(** The characters a sanitized name is made of. *)
Definition nameChar (c : ascii) : bool :=
  BearingReport.fileChar c || Ascii.eqb c "_"%char.

End Calls.
Export Calls.

(* ================================================================== *)
(** ** The velocity threshold chart of the three-page machine report
       ([ReportGenerator], "Draw simplified ISO 10816-3 chart") *)

Module ThresholdChart.

Local Open Scope float_scope.

(** The keys of [colors]. *)
Inductive zone : Type := Green | Yellow | Orange | Red.

Definition colors (z : zone) : color :=
  match z with
  | Green => (16, 185, 129)%Z
  | Yellow => (245, 158, 11)%Z
  | Orange => (251, 146, 60)%Z
  | Red => (239, 68, 68)%Z
  end.

Definition velocityLevels : list float :=
  [11; 7.1; 4.5; 3.5; 2.8; 2.3; 1.4; 0.71].

Record group : Type := {
  name : string;
  thresholds : list float
}.

Definition groups : list group :=
  [ {| name := "Group 4"; thresholds := [1.4; 2.8; 4.5] |};
    {| name := "Group 3"; thresholds := [2.3; 4.5; 7.1] |};
    {| name := "Group 2"; thresholds := [2.8; 4.5; 7.1] |};
    {| name := "Group 1"; thresholds := [3.5; 7.1; 11] |} ].

(** [groups[g]], for [g] in range. *)
Definition groupAt (g : nat) : group :=
  nth g groups {| name := ""; thresholds := [] |}.

(** [group.thresholds[k]]: [undefined] out of range, which a comparison
    reads as [NaN]. *)
Definition threshold (g : group) (k : nat) : float := nth k (thresholds g) nan.

(** The chain of comparisons that picks the colour of the cells of
    group [g] in the row of velocity [vel]; row [row] is drawn at
    [chartY + row * cellHeight], its label [velocityLevels[row]] beside
    it. *)
Definition zoneOf (g : group) (vel : float) : zone :=
  if vel <=? threshold g 0 then Green
  else if vel <=? threshold g 1 then Yellow
  else if vel <=? threshold g 2 then Orange
  else Red.

(** [velocityLevels[row]]. *)
Definition levelAt (row : nat) : float := nth row velocityLevels nan.

(** How severe a zone is. *)
Definition rank (z : zone) : nat :=
  match z with Green => 0 | Yellow => 1 | Orange => 2 | Red => 3 end.

End ThresholdChart.

(* ================================================================== *)
(** ** The velocity threshold chart of the machine vibration report
       ([ReportGenerator] of [ChartsSection.jsx]): a table of colours *)

Module ThresholdTable.

Local Open Scope float_scope.

Definition velocityLevels : list float :=
  [11; 7.1; 4.5; 3.5; 2.8; 2.3; 1.4; 0.71].

Definition groupColors : list (list color) :=
  [ [ (16,185,129); (16,185,129); (245,158,11); (245,158,11);
      (251,146,60); (239,68,68); (239,68,68); (239,68,68) ];
    [ (16,185,129); (16,185,129); (16,185,129); (245,158,11);
      (245,158,11); (251,146,60); (239,68,68); (239,68,68) ];
    [ (16,185,129); (16,185,129); (245,158,11); (245,158,11);
      (251,146,60); (251,146,60); (239,68,68); (239,68,68) ];
    [ (16,185,129); (16,185,129); (16,185,129); (245,158,11);
      (245,158,11); (251,146,60); (251,146,60); (239,68,68) ];
    [ (16,185,129); (16,185,129); (16,185,129); (245,158,11);
      (245,158,11); (251,146,60); (239,68,68); (239,68,68) ];
    [ (16,185,129); (16,185,129); (16,185,129); (16,185,129);
      (245,158,11); (245,158,11); (251,146,60); (239,68,68) ];
    [ (16,185,129); (16,185,129); (16,185,129); (16,185,129);
      (245,158,11); (245,158,11); (251,146,60); (239,68,68) ];
    [ (16,185,129); (16,185,129); (16,185,129); (16,185,129);
      (16,185,129); (245,158,11); (245,158,11); (251,146,60) ] ]%Z.

(** [groupColors[col][row]], for indices in range: the colour of the
    cell drawn at [(chartX + col * cellWidth, chartY + row * cellHeight)];
    the label [velocityLevels[row]] is written beside that row. *)
Definition cellColor (col row : nat) : color :=
  nth row (nth col groupColors []) (0, 0, 0)%Z.

(** The zone a colour of the chart stands for. *)
Definition zoneOfColor (c : color) : option ThresholdChart.zone :=
  let '(r, g, b) := c in
  if ((r =? 16) && (g =? 185) && (b =? 129))%Z then Some ThresholdChart.Green
  else if ((r =? 245) && (g =? 158) && (b =? 11))%Z
       then Some ThresholdChart.Yellow
  else if ((r =? 251) && (g =? 146) && (b =? 60))%Z
       then Some ThresholdChart.Orange
  else if ((r =? 239) && (g =? 68) && (b =? 68))%Z then Some ThresholdChart.Red
  else None.

Definition rankOfColor (c : color) : nat :=
  match zoneOfColor c with Some z => ThresholdChart.rank z | None => 0 end.

End ThresholdTable.

(* ================================================================== *)
(** ** The canvas spectrum chart ([FFTChartModal]): the data it draws *)

Module ModalData.

Local Open Scope float_scope.

(** What the [fftData] property of the [fftData] prop holds: nothing
    (or a falsy value), an array of samples, or another truthy value. *)
Inductive field : Type :=
| FieldFalsy
| FieldArray (l : list FFTModal.sample)
| FieldOther.

(** The [fftData] prop: an array of samples, an object, or anything
    else ([null], [undefined], a primitive). *)
Inductive prop : Type :=
| PropArray (l : list FFTModal.sample)
| PropObject (fftData : field)
| PropOther.

(** The data read from the prop, before the fallback. *)
Definition selectData (p : prop) : list FFTModal.sample :=
  match p with
  | PropObject (FieldArray l) => l
  | PropObject FieldOther => []
  | PropObject FieldFalsy => []
  | PropArray l => l
  | PropOther => []
  end.

(** The body of the loop that generates the fallback data, [r] being
    the result of its call of [Math.random()]. *)
Definition mockSample (i : nat) (r : float) : FFTModal.sample :=
  let freq := (num i / 200) * 1000 in
  let amplitude := r * 0.02 in
  let amplitude := if abs (freq - 50) <? 5 then amplitude + 0.3 else amplitude in
  let amplitude := if abs (freq - 100) <? 5 then amplitude + 0.15 else amplitude in
  let amplitude := if abs (freq - 150) <? 5 then amplitude + 0.08 else amplitude in
  let amplitude := if abs (freq - 180) <? 10 then amplitude + 0.05 else amplitude in
  {| FFTModal.frequency := freq; FFTModal.amplitude := amplitude |}.

(** The data the chart draws. *)
Definition chartData (E : Env) (p : prop) : M (list FFTModal.sample) :=
  let data := selectData p in
  if (List.length data =? 0)%nat then
    forEach (seq 0 200) data
      (fun data i _ =>
         r <- random E ;;
         ret (data ++ [ mockSample i r ]))
  else ret data.

End ModalData.

(* ================================================================== *)
(** ** The machine page ([MachineDetail]): the spectrum shown when the
       fetch of a bearing's data fails *)

Module DetailPage.

Local Open Scope float_scope.

(** The body of the loop of [generateMockFFTData], [r] being the result
    of its call of [Math.random()]. *)
Definition mockSample (i : nat) (r : float) : FFTModal.sample :=
  let freq := (num i / 200) * 1000 in
  let amplitude := r * 0.02 in
  let amplitude := if abs (freq - 50) <? 5 then amplitude + 0.3 else amplitude in
  let amplitude := if abs (freq - 100) <? 5 then amplitude + 0.15 else amplitude in
  let amplitude := if abs (freq - 150) <? 5 then amplitude + 0.08 else amplitude in
  {| FFTModal.frequency := freq; FFTModal.amplitude := amplitude |}.

(** [generateMockFFTData()]: the object [{ fftData: data, axis }] as the
    chart reads it. *)
Definition generateMockFFTData (E : Env) : M ModalData.prop :=
  data <- forEach (seq 0 200) []
            (fun data i _ =>
               r <- random E ;;
               ret (data ++ [ mockSample i r ])) ;;
  ret (ModalData.PropObject (ModalData.FieldArray data)).

End DetailPage.

(* ================================================================== *)
(** ** The trend charts ([ChartsSection]): the customer series *)

Module TrendCharts.

Definition CUSTOMER_COLORS : list string :=
  [ "#3b82f6"; "#8b5cf6"; "#06b6d4"; "#10b981"; "#f59e0b";
    "#ef4444"; "#ec4899"; "#6366f1"; "#14b8a6"; "#f97316" ].

(** An item of the trend data: its own properties, in the order of
    [Object.keys]. *)
Definition item : Type := list (string * value).

(** [if (key !== 'date') keys.add(key)], the set kept in insertion
    order. *)
Definition addKey (keys : list string) (key : string) : list string :=
  if negb (String.eqb key "date") then
    if existsb (String.eqb key) keys then keys else keys ++ [key]
  else keys.

(** [customerKeys]; [None] is a missing ([null]) prop. *)
Definition customerKeys (customerTrendData : option (list item)) : list string :=
  match customerTrendData with
  | None => []
  | Some [] => []
  | Some items =>
      fold_left (fun keys it => fold_left addKey (map fst it) keys) items []
  end.

(** [CUSTOMER_COLORS[index % CUSTOMER_COLORS.length]]. *)
Definition colorOf (index : nat) : option string :=
  nth_error CUSTOMER_COLORS (index mod List.length CUSTOMER_COLORS).

(** The legend label:
    [value.length > 12 ? value.substring(0, 8) + '...' : value]. *)
Definition legendLabel (value : string) : string :=
  if (12 <? String.length value)%nat
  then (String.substring 0 8 value ++ "...")%string
  else value.

End TrendCharts.

(* ================================================================== *)
(** ** File names of the machine reports *)

Module ReportNames.

(** The character class [[a-zA-Z0-9]] of the three-page report. *)
Definition alnum (c : ascii) : bool := is_lower c || is_upper c || is_digit c.

(** [s.replace(/[^a-zA-Z0-9]/g, '_')]. *)
Definition sanitizeStrict (s : string) : string :=
  map_chars (fun c => if alnum c then c else "_"%char) s.

(** [machine.machineName || machine.machineId || 'Machine']. *)
Definition nameOf (m : Machine) : value :=
  or_else (or_else (m_machineName m) (m_machineId m)) (VStr "Machine").

(** The file name of the machine vibration report
    ([ChartsSection.jsx]). *)
Definition vibrationReportName (E : Env) (m : Machine) : result string :=
  match BearingReport.replaceUnsafe (nameOf m) with
  | Ok safe => Ok ("Report_" ++ safe ++ "_" ++ isoDate E ++ ".pdf")%string
  | Throw e => Throw e
  end.

(** The file name of the three-page report. *)
Definition threePageReportName (E : Env) (m : Machine) : result string :=
  match nameOf m with
  | VStr s =>
      Ok ("Report_" ++ sanitizeStrict s ++ "_" ++ isoDate E ++ ".pdf")%string
  | _ => Throw (TypeError "replace is not a function")
  end.

End ReportNames.

(* ================================================================== *)
(** ** The machine table ([MachinesTable]): pagination *)

Module Pager.

Local Open Scope Z_scope.

Definition ROWS_PER_PAGE : Z := 10.

(** [Math.ceil(filteredData.length / ROWS_PER_PAGE)]: the quotient of a
    length by 10 is rounded to a number strictly between the two
    nearest integers unless it is one, so the result is the ceiling of
    the exact quotient. *)
Definition totalPages (len : nat) : Z :=
  (Z.of_nat len + (ROWS_PER_PAGE - 1)) / ROWS_PER_PAGE.

Definition startIndex (currentPage : Z) : Z := (currentPage - 1) * ROWS_PER_PAGE.
Definition endIndex (currentPage : Z) : Z := startIndex currentPage + ROWS_PER_PAGE.

(** [array.slice(start, end)]: a negative index counts from the end,
    and both are clamped to the array. *)
Definition slice {A} (l : list A) (s e : Z) : list A :=
  let n := Z.of_nat (List.length l) in
  let k := if s <? 0 then Z.max (n + s) 0 else Z.min s n in
  let f := if e <? 0 then Z.max (n + e) 0 else Z.min e n in
  firstn (Z.to_nat (f - k)) (skipn (Z.to_nat k) l).

Definition currentData {A} (filteredData : list A) (currentPage : Z) : list A :=
  slice filteredData (startIndex currentPage) (endIndex currentPage).

Definition handlePrevPage (prev : Z) : Z := Z.max (prev - 1) 1.
Definition handleNextPage (totalPages prev : Z) : Z := Z.min (prev + 1) totalPages.

(** The number the [i]-th page button shows and sets. *)
Definition pageNum (totalPages currentPage : Z) (i : nat) : Z :=
  if totalPages <=? 5 then Z.of_nat i + 1
  else if currentPage <=? 3 then Z.of_nat i + 1
  else if currentPage >=? totalPages - 2 then totalPages - 4 + Z.of_nat i
  else currentPage - 2 + Z.of_nat i.

(** [Array.from({ length: Math.min(totalPages, 5) }, (_, i) => ...)]. *)
Definition pageButtons (totalPages currentPage : Z) : list Z :=
  map (pageNum totalPages currentPage) (seq 0 (Z.to_nat (Z.min totalPages 5))).

(** What the user can click in the footer of the table. *)
Inductive action : Type :=
| Previous
| Next
| Button (i : nat).

(** The [disabled] attributes; a page button exists for [i] below the
    number of buttons. *)
Definition enabled (totalPages currentPage : Z) (a : action) : bool :=
  match a with
  | Previous => negb (currentPage =? 1)
  | Next => negb ((currentPage =? totalPages) || (totalPages =? 0))
  | Button i => (i <? List.length (pageButtons totalPages currentPage))%nat
  end.

Definition click (totalPages currentPage : Z) (a : action) : Z :=
  match a with
  | Previous => handlePrevPage currentPage
  | Next => handleNextPage totalPages currentPage
  | Button i => pageNum totalPages currentPage i
  end.

End Pager.

(* ================================================================== *)
(** ** The dashboard: the data derived from the fetched machines
       ([calculateKpiFromMachines], [extractFilterOptions]), the rows of
       the machine table ([fetchMachinesData]) and their filter
       ([MachinesTable]) *)

Module Dashboard.

(** A machine as the API returns it; an absent field reads
    [VUndefined]. *)
Record RawMachine : Type := {
  r_id_ : value;        (* [_id] *)
  r_machineId : value;
  r_customerId : value;
  r_name : value;
  r_machineName : value;
  r_statusName : value;
  r_status : value;
  r_type : value;
  r_machineType : value;
  r_areaId : value;
  r_subAreaId : value;
  r_dataUpdatedTime : value
}.

(** A row of the machine table. *)
Record Row : Type := {
  id : value;
  customerId : value;
  machineName : value;
  machineId : value;
  status : value;
  type : value;
  areaId : value;
  subareaId : value;
  date : value
}.

Definition rbind {A B} (r : result A) (f : A -> result B) : result B :=
  match r with
  | Ok a => f a
  | Throw e => Throw e
  end.

(** [a === b] on the values of a record. *)
Definition strictEq (a b : value) : bool :=
  match a, b with
  | VUndefined, VUndefined => true
  | VNull, VNull => true
  | VStr s, VStr t => String.eqb s t
  | VNum n, VNum k => (n =? k)%float
  | VBool x, VBool y => Bool.eqb x y
  | _, _ => false
  end.

(** The equality of [Set]: [===], except that [NaN] equals itself. *)
Definition sameValueZero (a b : value) : bool :=
  match a, b with
  | VNum n, VNum k => (n =? k)%float || (is_nan n && is_nan k)
  | _, _ => strictEq a b
  end.

(** *** [calculateKpiFromMachines] *)

Record kpi : Type := {
  totalMachines : nat;
  normal : nat;
  satisfactory : nat;
  alert : nat;
  unacceptable : nat
}.

(** [(machine.statusName || machine.status || fallback).toLowerCase()]. *)
Definition statusLabel (fallback : string) (m : RawMachine) : result string :=
  toLowerCase (or_else (or_else (r_statusName m) (r_status m)) (VStr fallback)).

(** The chain of tests of the loop body. *)
Definition tally (k : kpi) (status : string) : kpi :=
  if String.eqb status "normal" then
    {| totalMachines := totalMachines k; normal := S (normal k);
       satisfactory := satisfactory k; alert := alert k;
       unacceptable := unacceptable k |}
  else if String.eqb status "satisfactory" then
    {| totalMachines := totalMachines k; normal := normal k;
       satisfactory := S (satisfactory k); alert := alert k;
       unacceptable := unacceptable k |}
  else if String.eqb status "alert" then
    {| totalMachines := totalMachines k; normal := normal k;
       satisfactory := satisfactory k; alert := S (alert k);
       unacceptable := unacceptable k |}
  else if String.eqb status "unacceptable" || String.eqb status "unsatisfactory"
  then
    {| totalMachines := totalMachines k; normal := normal k;
       satisfactory := satisfactory k; alert := alert k;
       unacceptable := S (unacceptable k) |}
  else k.

(** [machines.forEach(machine => ...)] on the counters. *)
Fixpoint tallyAll (machines : list RawMachine) (k : kpi) : result kpi :=
  match machines with
  | [] => Ok k
  | m :: rest => rbind (statusLabel "" m) (fun s => tallyAll rest (tally k s))
  end.

Definition calculateKpiFromMachines (machines : list RawMachine) : result kpi :=
  tallyAll machines
    {| totalMachines := List.length machines; normal := 0; satisfactory := 0;
       alert := 0; unacceptable := 0 |}.

(** *** [extractFilterOptions] *)

(** [set.add(v)], the set kept in insertion order. *)
Definition setAdd (s : list value) (v : value) : list value :=
  if existsb (sameValueZero v) s then s else s ++ [v].

(** [if (id && id !== 'N/A') set.add(id)]. *)
Definition addOption (s : list value) (v : value) : list value :=
  if truthy v && negb (strictEq v (VStr "N/A")) then setAdd s v else s.

(** What the loop [machines.forEach(machine => ...)] adds to the set
    [s] of the identifiers read by [field]. *)
Definition collect (field : RawMachine -> value) (machines : list RawMachine)
    (s : list value) : list value :=
  fold_left (fun s m => addOption s (field m)) machines s.

Definition areaOptions (machines : list RawMachine) : list value :=
  collect r_areaId machines [VStr "All"].

Definition customerOptions (machines : list RawMachine) : list value :=
  collect r_customerId machines [VStr "All"].

(** *** The rows of the table ([fetchMachinesData]) *)

(** [s.split('T')[0]]: what stands before the first ['T']. *)
Fixpoint beforeT (s : string) : string :=
  match s with
  | EmptyString => EmptyString
  | String c s' => if Ascii.eqb c "T"%char then EmptyString
                   else String c (beforeT s')
  end.

Definition splitT0 (v : value) : result string :=
  match v with
  | VStr s => Ok (beforeT s)
  | _ => Throw (TypeError "split is not a function")
  end.

(** The callback of [machines.map((machine, index) => ...)]. *)
Definition transform (machine : RawMachine) (index : nat) : result Row :=
  rbind (statusLabel "normal" machine) (fun status =>
  rbind (if truthy (r_dataUpdatedTime machine)
         then rbind (splitT0 (r_dataUpdatedTime machine)) (fun d => Ok (VStr d))
         else Ok (VStr "N/A")) (fun date =>
  Ok {| id := or_else (or_else (r_id_ machine) (r_machineId machine))
                      (VStr ("machine-" ++ nat_to_string index));
        customerId := or_else (r_customerId machine) (VStr "N/A");
        machineName := or_else (or_else (r_name machine) (r_machineName machine))
                               (VStr "Unknown");
        machineId := or_else (or_else (r_machineId machine) (r_id_ machine))
                             (VStr "N/A");
        status := VStr status;
        type := or_else (or_else (r_type machine) (r_machineType machine))
                        (VStr "OFFLINE");
        areaId := or_else (r_areaId machine) (VStr "N/A");
        subareaId := or_else (r_subAreaId machine) (VStr "N/A");
        date := date |})).

Fixpoint transformFrom (index : nat) (machines : list RawMachine)
    : result (list Row) :=
  match machines with
  | [] => Ok []
  | m :: rest =>
      rbind (transform m index) (fun row =>
      rbind (transformFrom (S index) rest) (fun rows => Ok (row :: rows)))
  end.

Definition transformedData (machines : list RawMachine) : result (list Row) :=
  transformFrom 0 machines.

(** *** The filter of the table ([filteredData]) *)

Record Filters : Type := {
  f_areaId : value;
  f_status : value;
  f_customerId : value;
  f_fromDate : value;
  f_toDate : value;
  f_searchField : value;
  f_searchQuery : value
}.

(** The built-ins the filter calls: [trim] and [includes] of strings,
    and the comparison [a < b] of two values. *)
Record Builtins : Type := {
  trim : string -> string;
  includes : string -> string -> bool;
  lessThan : value -> value -> bool
}.

Section Filter.

Variable B : Builtins.

(** [(v || '').toLowerCase()]. *)
Definition lowered (v : value) : result string :=
  toLowerCase (or_else v (VStr "")).

Definition normalise (s : string) : string :=
  if String.eqb s "unsatisfactory" then "unacceptable" else s.

(** [filter && filter !== 'All' && field !== filter]. *)
Definition excludes (filter field : value) : bool :=
  truthy filter && negb (strictEq filter (VStr "All"))
  && negb (strictEq field filter).

Definition trimOf (v : value) : result string :=
  match v with
  | VStr s => Ok (trim B s)
  | _ => Throw (TypeError "trim is not a function")
  end.

(** The search block: [Ok false] where the callback returns [false],
    [Ok true] where it goes on to [return true]. *)
Definition searchKeeps (filters : Filters) (machine : Row) : result bool :=
  if truthy (f_searchQuery filters) then
    rbind (trimOf (f_searchQuery filters)) (fun trimmed =>
    if negb (String.eqb trimmed "") then
      rbind (toLowerCase (f_searchQuery filters)) (fun lower =>
      let query := trim B lower in
      let searchField := or_else (f_searchField filters) (VStr "machineName") in
      if strictEq searchField (VStr "autoDetect") then
        rbind (lowered (machineName machine)) (fun name =>
        rbind (lowered (machineId machine)) (fun mid =>
        rbind (lowered (customerId machine)) (fun cust =>
        rbind (lowered (areaId machine)) (fun area =>
        Ok (negb (negb (includes B name query) && negb (includes B mid query)
                  && negb (includes B cust query)
                  && negb (includes B area query)))))))
      else
        rbind (if strictEq searchField (VStr "machineName")
               then lowered (machineName machine)
               else if strictEq searchField (VStr "machineId")
               then lowered (machineId machine)
               else if strictEq searchField (VStr "customerId")
               then lowered (customerId machine)
               else if strictEq searchField (VStr "areaId")
               then lowered (areaId machine)
               else lowered (machineName machine)) (fun fieldValue =>
        Ok (includes B fieldValue query)))
    else Ok true)
  else Ok true.

(** The callback of [data.filter(machine => ...)]. *)
Definition keeps (filters : Filters) (machine : Row) : result bool :=
  rbind (lowered (status machine)) (fun machineStatus =>
  rbind (lowered (f_status filters)) (fun filterStatus =>
  let machineStatus := normalise machineStatus in
  let filterStatus := normalise filterStatus in
  if excludes (f_areaId filters) (areaId machine) then Ok false
  else if truthy (f_status filters)
          && negb (strictEq (f_status filters) (VStr "All"))
          && negb (String.eqb machineStatus filterStatus) then Ok false
  else if excludes (f_customerId filters) (customerId machine) then Ok false
  else if truthy (f_fromDate filters) && truthy (date machine)
          && lessThan B (date machine) (f_fromDate filters) then Ok false
  else if truthy (f_toDate filters) && truthy (date machine)
          && lessThan B (f_toDate filters) (date machine) then Ok false
  else searchKeeps filters machine)).

Fixpoint filteredData (filters : Filters) (data : list Row)
    : result (list Row) :=
  match data with
  | [] => Ok []
  | machine :: rest =>
      rbind (keeps filters machine) (fun keep =>
      rbind (filteredData filters rest) (fun kept =>
      Ok (if keep then machine :: kept else kept)))
  end.

End Filter.

(** The filters that select a status and nothing else. *)
Definition statusOnly (label : string) : Filters :=
  {| f_areaId := VStr "All";
     f_status := VStr label;
     f_customerId := VStr "All";
     f_fromDate := VUndefined;
     f_toDate := VUndefined;
     f_searchField := VUndefined;
     f_searchQuery := VUndefined |}.

(** The status of a raw machine is a string or reads as absent. *)
Definition wfStatus (m : RawMachine) : bool :=
  stringOrFalsy (r_statusName m) && stringOrFalsy (r_status m).

(** ... and so does the time of its last update. *)
Definition wfRaw (m : RawMachine) : bool :=
  wfStatus m && stringOrFalsy (r_dataUpdatedTime m).

(** The label the KPI reads, for a machine whose status is a string or
    absent. *)
Definition labelOf (m : RawMachine) : string :=
  match statusLabel "" m with Ok s => s | Throw _ => "" end.

Definition labelIs (token : string) (m : RawMachine) : bool :=
  String.eqb (labelOf m) token.

(** The number of machines whose label the classifier of the reports
    puts at severity [sev]. *)
Definition countSeverity (sev : severity) (machines : list RawMachine) : nat :=
  List.length
    (filter (fun m => match severityOf (labelOf m), sev with
                      | SevA, SevA | SevB, SevB | SevC, SevC | SevD, SevD => true
                      | _, _ => false
                      end) machines).

(** A machine without a status: neither [statusName] nor [status]. *)
Definition noStatus (m : RawMachine) : bool :=
  negb (truthy (or_else (r_statusName m) (r_status m))).

(** The machines whose label is none of the five the KPI knows. *)
Definition unrecognised (m : RawMachine) : bool :=
  let s := labelOf m in
  negb (String.eqb s "normal" || String.eqb s "satisfactory"
        || String.eqb s "alert" || String.eqb s "unacceptable"
        || String.eqb s "unsatisfactory").

End Dashboard.

(* ================================================================== *)
(** ** The request for the machines ([fetchMachines], and the filters
       [fetchMachinesData] passes to it) *)

Module Api.

(** The [filters] argument of [fetchMachines]; an absent field reads
    [VUndefined]. *)
Record Query : Type := {
  q_date_from : value;
  q_fromDate : value;
  q_date_to : value;
  q_toDate : value;
  q_customerId : value;
  q_areaId : value;
  q_status : value;
  q_machineType : value
}.

(** [if (v && v !== 'All') params.append(key, v)]. *)
Definition appendUnlessAll (key : string) (v : value) : list (string * value) :=
  if truthy v && negb (Dashboard.strictEq v (VStr "All")) then [(key, v)] else [].

(** The parameters appended to the query, in order. *)
Definition fetchMachinesParams (filters : Query) : list (string * value) :=
  (if truthy (or_else (q_date_from filters) (q_fromDate filters))
   then [("date_from", or_else (q_date_from filters) (q_fromDate filters))]
   else [])
  ++ (if truthy (or_else (q_date_to filters) (q_toDate filters))
      then [("date_to", or_else (q_date_to filters) (q_toDate filters))]
      else [])
  ++ appendUnlessAll "customerId" (q_customerId filters)
  ++ appendUnlessAll "areaId" (q_areaId filters)
  ++ appendUnlessAll "status" (q_status filters)
  ++ (if truthy (q_machineType filters)
      then [("machineType", q_machineType filters)]
      else []).

(** The endpoint fetched; [toString] is [URLSearchParams.toString]. *)
Definition endpoint (toString : list (string * value) -> string)
    (filters : Query) : string :=
  let queryString := toString (fetchMachinesParams filters) in
  if negb (String.eqb queryString "") then "/machines?" ++ queryString
  else "/machines".

(** [apiFilters] of [fetchMachinesData]: the dates, and the customer,
    the area and the status when they are not 'All'. *)
Definition apiFilters (filters : Dashboard.Filters) : Query :=
  let pick (v : value) :=
    if truthy v && negb (Dashboard.strictEq v (VStr "All")) then v
    else VUndefined in
  {| q_date_from := Dashboard.f_fromDate filters;
     q_fromDate := VUndefined;
     q_date_to := Dashboard.f_toDate filters;
     q_toDate := VUndefined;
     q_customerId := pick (Dashboard.f_customerId filters);
     q_areaId := pick (Dashboard.f_areaId filters);
     q_status := pick (Dashboard.f_status filters);
     q_machineType := VUndefined |}.

(** The keys of a query are among [keys], in their order. *)
Fixpoint inOrder (keys : list string) (l : list string) : bool :=
  match l, keys with
  | [], _ => true
  | _ :: _, [] => false
  | x :: l', k :: keys' =>
      if String.eqb x k then inOrder keys' l' else inOrder keys' l
  end.

End Api.

(* ================================================================== *)
(** ** Headings of the gallery pages *)

Module Headings.

(** The heading of a gallery page of the bearing report: a text without
    options that starts with "Bearing: ". *)
Definition headingOf (o : op) : option string :=
  match o with
  | Text t _ _ NoOpt =>
      match t with
      | VStr s => if String.prefix "Bearing: " s then Some s else None
      | _ => None
      end
  | _ => None
  end.

Definition headings (ops : list op) : list string :=
  flat_map (fun o => match headingOf o with Some s => [s] | None => [] end) ops.

(** The bearing of the first panel of a page. *)
Definition firstBearing (chunk : list (Bearing * axis)) : option Bearing :=
  match chunk with
  | p :: _ => Some (fst p)
  | [] => None
  end.

Definition headingFor (chunk : list (Bearing * axis)) : list string :=
  match firstBearing chunk with
  | Some b => [ ("Bearing: " ++ Layout.labelOf b)%string ]
  | None => []
  end.

End Headings.

(** Concrete inputs of the dashboard, used to exercise the statements. *)
Module Samples.

Definition rawWith (statusName status : value) : Dashboard.RawMachine :=
  {| Dashboard.r_id_ := VStr "m1";
     Dashboard.r_machineId := VUndefined;
     Dashboard.r_customerId := VStr "ACME";
     Dashboard.r_name := VStr "Pump";
     Dashboard.r_machineName := VUndefined;
     Dashboard.r_statusName := statusName;
     Dashboard.r_status := status;
     Dashboard.r_type := VUndefined;
     Dashboard.r_machineType := VUndefined;
     Dashboard.r_areaId := VStr "N/A";
     Dashboard.r_subAreaId := VUndefined;
     Dashboard.r_dataUpdatedTime := VStr "2024-06-01T10:00:00" |}.

(** Four machines: "Alert", "UNSATISFACTORY", no status, "Critical". *)
Definition fleet : list Dashboard.RawMachine :=
  [ rawWith (VStr "Alert") VUndefined;
    rawWith VUndefined (VStr "UNSATISFACTORY");
    rawWith VUndefined VNull;
    rawWith (VStr "Critical") VUndefined ].

(** Built-ins that keep every string and order no two values. *)
Definition builtins : Dashboard.Builtins :=
  {| Dashboard.trim := fun s => s;
     Dashboard.includes := fun _ _ => true;
     Dashboard.lessThan := fun _ _ => false |}.

End Samples.

(* ================================================================== *)
(** * Properties *)

(** ** Severity classifier *)

Section Classifier.

Local Open Scope float_scope.

Lemma or_else_empty (s : string) : or_else (VStr s) (VStr "") = VStr s.
Proof.
  unfold or_else; simpl.
  destruct (String.eqb_spec s ""); simpl; congruence.
Qed.

Lemma getStatusSeverity_string (s : string) :
  getStatusSeverity (VStr s) = Ok (severityOf (lowerCase s)).
Proof.
  unfold getStatusSeverity. rewrite or_else_empty. reflexivity.
Qed.

Lemma severityOf_other (s : string) :
  s <> "normal" -> s <> "satisfactory" -> s <> "alert" ->
  s <> "unacceptable" -> s <> "unsatisfactory" ->
  severityOf s = SevA.
Proof.
  intros H1 H2 H3 H4 H5. unfold severityOf.
  repeat match goal with
         | |- context [String.eqb s ?t] =>
             destruct (String.eqb_spec s t); [congruence|]
         end.
  reflexivity.
Qed.

(** C1: on every status label, in any letter case, [getStatusSeverity]
    returns one severity: "normal" gives A (level 1), "satisfactory" B
    (level 2), "alert" C (level 3), "unacceptable" and "unsatisfactory"
    D (level 4); every other string, the empty string, [undefined] and
    [null] give A (level 1). *)
Theorem getStatusSeverity_classifies :
  forall s : string,
    (lowerCase s = "normal" -> getStatusSeverity (VStr s) = Ok SevA) /\
    (lowerCase s = "satisfactory" -> getStatusSeverity (VStr s) = Ok SevB) /\
    (lowerCase s = "alert" -> getStatusSeverity (VStr s) = Ok SevC) /\
    (lowerCase s = "unacceptable" \/ lowerCase s = "unsatisfactory" ->
     getStatusSeverity (VStr s) = Ok SevD) /\
    (lowerCase s <> "normal" -> lowerCase s <> "satisfactory" ->
     lowerCase s <> "alert" -> lowerCase s <> "unacceptable" ->
     lowerCase s <> "unsatisfactory" ->
     getStatusSeverity (VStr s) = Ok SevA) /\
    getStatusSeverity (VStr "") = Ok SevA /\
    getStatusSeverity VUndefined = Ok SevA /\
    getStatusSeverity VNull = Ok SevA /\
    level (SEVERITY_COLORS SevA) = 1%nat /\
    level (SEVERITY_COLORS SevB) = 2%nat /\
    level (SEVERITY_COLORS SevC) = 3%nat /\
    level (SEVERITY_COLORS SevD) = 4%nat.
Proof.
  intro s. rewrite getStatusSeverity_string.
  split; [intros ->; reflexivity|].
  split; [intros ->; reflexivity|].
  split; [intros ->; reflexivity|].
  split; [intros [-> | ->]; reflexivity|].
  split; [intros; f_equal; now apply severityOf_other|].
  repeat (split; [reflexivity|]). reflexivity.
Qed.

(** The labels of one run, in several letter cases. *)
Lemma getStatusSeverity_classifies_witness :
  getStatusSeverity (VStr "NORMAL") = Ok SevA /\
  getStatusSeverity (VStr "Satisfactory") = Ok SevB /\
  getStatusSeverity (VStr "aLeRt") = Ok SevC /\
  getStatusSeverity (VStr "UNACCEPTABLE") = Ok SevD /\
  getStatusSeverity (VStr "Unsatisfactory") = Ok SevD /\
  getStatusSeverity (VStr "critical") = Ok SevA.
Proof.
  split; [apply (getStatusSeverity_classifies "NORMAL"); reflexivity|].
  split; [apply (getStatusSeverity_classifies "Satisfactory"); reflexivity|].
  split; [apply (getStatusSeverity_classifies "aLeRt"); reflexivity|].
  split; [apply (getStatusSeverity_classifies "UNACCEPTABLE"); left; reflexivity|].
  split; [apply (getStatusSeverity_classifies "Unsatisfactory"); right; reflexivity|].
  apply (getStatusSeverity_classifies "critical"); discriminate.
Defined.

End Classifier.

(** ** Velocity colours *)

Section VelocityColor.

Local Open Scope float_scope.

Lemma SFcompare_antisym (x y : spec_float) :
  SFcompare y x = option_map CompOpp (SFcompare x y).
Proof.
  destruct x as [sx|sx| |sx mx ex], y as [sy|sy| |sy my ey]; simpl;
    try reflexivity;
    try (destruct sx; reflexivity); try (destruct sy; reflexivity);
    try (destruct sx, sy; reflexivity).
  destruct sx, sy; simpl; try reflexivity;
    rewrite (Z.compare_antisym ey ex); destruct (ey ?= ex)%Z; simpl;
    try reflexivity;
    rewrite (Pos.compare_cont_antisym mx my Eq); simpl;
    destruct (Pos.compare_cont Eq my mx); reflexivity.
Qed.

Ltac cmp_cases :=
  repeat match goal with
  | H : context [Pos.compare_cont Eq ?a ?b] |- _ =>
      rewrite (Pos.compare_cont_spec a b Eq) in H; simpl in H
  | |- context [Pos.compare_cont Eq ?a ?b] =>
      rewrite (Pos.compare_cont_spec a b Eq); simpl
  end;
  repeat match goal with
  | H : context [(?a ?= ?b)%Z] |- _ =>
      destruct (Z.compare_spec a b); simpl in H
  | |- context [(?a ?= ?b)%Z] =>
      destruct (Z.compare_spec a b); simpl
  | H : context [(?a ?= ?b)%positive] |- _ =>
      destruct (Pos.compare_spec a b); simpl in H
  | |- context [(?a ?= ?b)%positive] =>
      destruct (Pos.compare_spec a b); simpl
  end.

Lemma SFcompare_lt_le_trans (x y z : spec_float) :
  SFcompare x y = Some Lt ->
  (SFcompare y z = Some Lt \/ SFcompare y z = Some Eq) ->
  SFcompare x z = Some Lt.
Proof.
  destruct x as [sx|sx| |sx mx ex], y as [sy|sy| |sy my ey],
           z as [sz|sz| |sz mz ez]; simpl;
    try (intros; discriminate); try (intros _ [?|?]; discriminate);
    repeat match goal with s : bool |- _ => destruct s end; simpl;
    try (intros; discriminate); try (intros _ [?|?]; discriminate);
    try (intros; reflexivity);
    try (intros ? [?|?]; discriminate).
  all: intros H1 [H2|H2]; cmp_cases; try discriminate; try reflexivity;
    try lia.
Qed.

(** [v <= c] excludes [c < v], on all binary64 values. *)
Lemma leb_not_ltb (v c : float) : (v <=? c) = true -> (c <? v) = false.
Proof.
  rewrite leb_spec, ltb_spec. unfold SFleb, SFltb.
  rewrite (SFcompare_antisym (Prim2SF v) (Prim2SF c)).
  destruct (SFcompare (Prim2SF v) (Prim2SF c)) as [[]|]; simpl; congruence.
Qed.

(** [a < v] and [v <= b] give [a < b]. *)
Lemma ltb_leb_trans (a v b : float) :
  (a <? v) = true -> (v <=? b) = true -> (a <? b) = true.
Proof.
  rewrite !ltb_spec, leb_spec. unfold SFleb, SFltb.
  intros H1 H2.
  rewrite (SFcompare_lt_le_trans (Prim2SF a) (Prim2SF v) (Prim2SF b));
    [reflexivity| |].
  - destruct (SFcompare (Prim2SF a) (Prim2SF v)) as [[]|];
      try discriminate; reflexivity.
  - destruct (SFcompare (Prim2SF v) (Prim2SF b)) as [[]|];
      try discriminate; auto.
Qed.

(** A velocity at most [b] is not above a threshold [a >= b]. *)
Lemma leb_below (a v b : float) :
  (a <? b) = false -> (v <=? b) = true -> (a <? v) = false.
Proof.
  intros Hab Hv. destruct (a <? v) eqn:Hav; [|reflexivity].
  rewrite (ltb_leb_trans a v b Hav Hv) in Hab. discriminate.
Qed.

(** C4 (as the code has it): the velocity [v] read from a table cell is
    coloured (239,68,68) when [v > 7.1], (251,146,60) when
    [4.5 < v <= 7.1], (245,158,11) when [2.8 < v <= 4.5] and
    (16,185,129) when [v <= 2.8].  The first and the last are the colours
    of severity levels 4 and 1; the third is the colour of level 3, and
    the second is the colour of no severity level. *)
Theorem getVelocityColor_bands :
  forall (E : Env) (vel : value),
    let v := parseFloat E (ToString E vel) in
    ((7.1 <? v) = true -> getVelocityColor E vel = (239, 68, 68)%Z) /\
    ((4.5 <? v) = true -> (v <=? 7.1) = true ->
     getVelocityColor E vel = (251, 146, 60)%Z) /\
    ((2.8 <? v) = true -> (v <=? 4.5) = true ->
     getVelocityColor E vel = (245, 158, 11)%Z) /\
    ((v <=? 2.8) = true -> getVelocityColor E vel = (16, 185, 129)%Z) /\
    bg (SEVERITY_COLORS SevD) = (239, 68, 68)%Z /\
    bg (SEVERITY_COLORS SevC) = (245, 158, 11)%Z /\
    bg (SEVERITY_COLORS SevA) = (16, 185, 129)%Z /\
    (forall s, bg (SEVERITY_COLORS s) = (251, 146, 60)%Z -> False).
Proof.
  intros E vel v. unfold getVelocityColor. fold v.
  split; [intros ->; reflexivity|].
  split; [intros H1 H2; rewrite (leb_not_ltb _ _ H2), H1; reflexivity|].
  split.
  { intros H1 H2.
    rewrite (leb_below 7.1 v 4.5 eq_refl H2), (leb_not_ltb _ _ H2), H1.
    reflexivity. }
  split.
  { intros H.
    rewrite (leb_below 7.1 v 2.8 eq_refl H), (leb_below 4.5 v 2.8 eq_refl H),
      (leb_not_ltb _ _ H).
    reflexivity. }
  repeat (split; [reflexivity|]).
  intros [] H; discriminate H.
Qed.

(** One reading in each band. *)
Lemma getVelocityColor_bands_witness :
  getVelocityColor (Demo.envReading 9) (VStr "9.00") = (239, 68, 68)%Z /\
  getVelocityColor (Demo.envReading 5) (VStr "5.00") = (251, 146, 60)%Z /\
  getVelocityColor (Demo.envReading 3) (VStr "3.00") = (245, 158, 11)%Z /\
  getVelocityColor (Demo.envReading 1) (VStr "1.00") = (16, 185, 129)%Z.
Proof.
  split; [apply (getVelocityColor_bands (Demo.envReading 9) (VStr "9.00"));
          reflexivity|].
  split; [apply (getVelocityColor_bands (Demo.envReading 5) (VStr "5.00"));
          reflexivity|].
  split; [apply (getVelocityColor_bands (Demo.envReading 3) (VStr "3.00"));
          reflexivity|].
  apply (getVelocityColor_bands (Demo.envReading 1) (VStr "1.00")); reflexivity.
Defined.

(** C4, as stated, fails at 5 mm/s and at 3 mm/s: the colour of a reading
    in the third band is not the colour of severity level 3, and the
    colour of a reading in the second band is not that of level 2. *)
Lemma getVelocityColor_not_canonical :
  (4.5 <? 5) = true /\ (5 <=? 7.1) = true /\
  getVelocityColor (Demo.envReading 5) (VStr "5.00") = (251, 146, 60)%Z /\
  bg (SEVERITY_COLORS SevC) = (245, 158, 11)%Z /\
  (251, 146, 60)%Z <> (245, 158, 11)%Z /\
  (2.8 <? 3) = true /\ (3 <=? 4.5) = true /\
  getVelocityColor (Demo.envReading 3) (VStr "3.00") = (245, 158, 11)%Z /\
  bg (SEVERITY_COLORS SevB) = (6, 182, 212)%Z /\
  (245, 158, 11)%Z <> (6, 182, 212)%Z.
Proof.
  repeat (split; [first [reflexivity | discriminate]|]). discriminate.
Qed.

End VelocityColor.

(** ** Spectrum chart renderer *)

Section SpectrumChart.

Local Open Scope float_scope.

(** C5 (as the code has it): on an empty or missing series
    [drawFFTChart] is defined (no call can fail before or after the
    guarded block), draws the background panel, the border, the title,
    4 horizontal and 9 vertical grid lines, which cut the panel into 5
    rows and 10 columns, and the axis and tick labels; it draws no other
    line, so no segment of a polyline. *)
Theorem drawFFTChart_empty_series :
  forall (x y width height : float) (title : string) (c : color),
    drawFFTChart None x y width height title c
    = chartFrame x y width height title
      ++ horizontalGrid x y width height
      ++ verticalGrid x y width height
      ++ chartLabels x y width height
    /\ drawFFTChart (Some []) x y width height title c
       = drawFFTChart None x y width height title c
    /\ filter isLine (drawFFTChart (Some []) x y width height title c)
       = horizontalGrid x y width height ++ verticalGrid x y width height
    /\ List.length (horizontalGrid x y width height) = 4%nat
    /\ List.length (verticalGrid x y width height) = 9%nat.
Proof.
  intros. repeat (split; [reflexivity|]). reflexivity.
Qed.

(** C5, as stated, fails on the panel of a gallery page (origin (17,45),
    176 by 80): an empty series leaves 13 lines on the page, 4 of them
    horizontal and 9 vertical, not 5 and 10. *)
Lemma drawFFTChart_empty_grid_count :
  List.length (filter isHorizontalLine
                 (drawFFTChart (Some []) 17 45 176 80 "t" (59, 130, 246)%Z))
  = 4%nat
  /\ List.length (filter isVerticalLine
                    (drawFFTChart (Some []) 17 45 176 80 "t" (59, 130, 246)%Z))
     = 9%nat
  /\ List.length (filter isLine
                    (drawFFTChart (Some []) 17 45 176 80 "t" (59, 130, 246)%Z))
     = 13%nat
  /\ 4%nat <> 5%nat /\ 9%nat <> 10%nat.
Proof.
  repeat (split; [first [reflexivity | discriminate]|]). discriminate.
Qed.

Lemma maxAmplitudeOf_nonzero (fftData : list point) :
  (maxAmplitudeOf fftData =? 0) = false.
Proof.
  unfold maxAmplitudeOf, truthy.
  destruct (Math_max (map Renderer.amplitude fftData) =? 0) eqn:Hz; simpl;
    [reflexivity|].
  destruct (is_nan (Math_max (map Renderer.amplitude fftData))); simpl;
    [reflexivity | exact Hz].
Qed.

(** C3 (as the code has it): for a non-empty series of [n] samples the
    polyline joins consecutive samples, the [i]-th sample standing at
    [screenX = originX + i * (width / n)] and
    [screenY = originY + height - 5 - amplitude * ((height - 10) / maxAmplitude)],
    where [maxAmplitude] is the largest amplitude of that series, taken
    as 1 when it is 0, and so never 0. *)
Theorem drawFFTChart_point_placement :
  forall (fftData : list point) (x y width height : float) (title : string)
         (c : color),
    fftData <> [] ->
    drawFFTChart (Some fftData) x y width height title c
    = chartFrame x y width height title
      ++ horizontalGrid x y width height
      ++ verticalGrid x y width height
      ++ polyline fftData x y width height c
      ++ chartLabels x y width height
    /\ polyline fftData x y width height c
       = [ SetDrawColor c; SetLineWidth 0.5 ]
         ++ map (fun i => Line (pointX fftData x width (i - 1))
                               (pointY fftData y height (i - 1))
                               (pointX fftData x width i)
                               (pointY fftData y height i))
                (seq 1 (List.length fftData - 1))
    /\ (maxAmplitudeOf fftData =? 0) = false
    /\ ((Math_max (map Renderer.amplitude fftData) =? 0) = true ->
        maxAmplitudeOf fftData = 1)
    /\ (truthy (VNum (Math_max (map Renderer.amplitude fftData))) = true ->
        maxAmplitudeOf fftData = Math_max (map Renderer.amplitude fftData)).
Proof.
  intros fftData x y width height title c Hne.
  split.
  { destruct fftData as [|p l]; [congruence|]. reflexivity. }
  split; [reflexivity|].
  split; [apply maxAmplitudeOf_nonzero|].
  unfold maxAmplitudeOf, truthy.
  split.
  - intros ->. reflexivity.
  - intros ->. reflexivity.
Qed.

Lemma drawFFTChart_point_placement_witness :
  polyline Demo.flatSeries 0 0 100 80 (59, 130, 246)%Z
  = [ SetDrawColor (59, 130, 246)%Z; SetLineWidth 0.5; Line 0 5 50 5 ].
Proof.
  assert (Hne : Demo.flatSeries <> []) by discriminate.
  destruct (drawFFTChart_point_placement Demo.flatSeries 0 0 100 80 "t"
              (59, 130, 246)%Z Hne) as [_ [H _]].
  rewrite H. reflexivity.
Defined.

(** C3, as stated, fails on the series (0 Hz, 1), (500 Hz, 1) drawn in
    a 100 by 80 panel at the origin: the specification's formulas put
    the second sample at (50, 0); the segment drawn ends at (50, 5). *)
Lemma drawFFTChart_not_spec_placement :
  maxAmplitudeOf Demo.flatSeries = 1
  /\ Spec.screenX 0 100 1000 500 = 50
  /\ Spec.screenY 0 80 (maxAmplitudeOf Demo.flatSeries) 1 = 0
  /\ filter isLine (polyline Demo.flatSeries 0 0 100 80 (59, 130, 246)%Z)
     = [ Line 0 5 50 5 ]
  /\ (5 =? 0) = false.
Proof.
  repeat (split; [reflexivity|]). reflexivity.
Qed.

End SpectrumChart.

(** ** Running a computation *)

Section Running.

Lemma runs_ret {T} (a : T) (c : nat) : runs (ret a) c a [] c.
Proof. reflexivity. Qed.

Lemma runs_tell (ops : list op) (c : nat) : runs (tell ops) c tt ops c.
Proof. reflexivity. Qed.

Lemma runs_lift {T} (a : T) (c : nat) : runs (lift (Ok a)) c a [] c.
Proof. reflexivity. Qed.

Lemma runs_random (E : Env) (c : nat) : runs (random E) c (rand E c) [] (S c).
Proof. reflexivity. Qed.

Lemma runs_bind {T U} (m : M T) (f : T -> M U) (c c1 c2 : nat) (a : T) (b : U)
    (o1 o2 : list op) :
  runs m c a o1 c1 -> runs (f a) c1 b o2 c2 ->
  runs (bind m f) c b (o1 ++ o2) c2.
Proof.
  unfold runs, bind. intros -> H2. cbn [val out cnt]. rewrite H2. reflexivity.
Qed.

Lemma runs_conv {T} (m : M T) (c c1 c2 : nat) (a1 a2 : T) (o1 o2 : list op) :
  runs m c a1 o1 c1 -> a1 = a2 -> o1 = o2 -> c1 = c2 -> runs m c a2 o2 c2.
Proof. intros H -> -> ->. exact H. Qed.

(** A loop over three nested items is the loop over the flat list of
    (item, axis) pairs. *)
Lemma forEach_axes_flat {T St} (g : St -> T -> axis -> M St) :
  forall (bs : list T) (i j : nat) (st : St) (c : nat),
    forEachFrom i bs st
      (fun st b _ => forEach axes st (fun st ax _ => g st b ax)) c
    = forEachFrom j (panels bs) st (fun st p _ => g st (fst p) (snd p)) c.
Proof.
  induction bs as [|b bs IH]; intros i j st c; [reflexivity|].
  change (panels (b :: bs))
    with ((b, AxisH) :: (b, AxisV) :: (b, AxisA) :: panels bs).
  set (F := fun (st : St) (b : T) (_ : nat) =>
              forEach axes st (fun st ax _ => g st b ax)) in *.
  set (G := fun (st : St) (p : T * axis) (_ : nat) => g st (fst p) (snd p))
    in *.
  cbn [forEachFrom].
  unfold F at 1. unfold G at 1 2 3. unfold forEach, axes.
  cbn [forEachFrom fst snd].
  unfold bind. cbn [val out cnt ret].
  destruct (g st b AxisH c) as [[s1|e1] o1 c1]; cbn [val out cnt];
    [|reflexivity].
  destruct (g s1 b AxisV c1) as [[s2|e2] o2 c2]; cbn [val out cnt];
    [|reflexivity].
  destruct (g s2 b AxisA c2) as [[s3|e3] o3 c3]; cbn [val out cnt];
    [|reflexivity].
  rewrite (IH (S i) (S (S (S j))) s3 c3).
  destruct (forEachFrom (S (S (S j))) (panels bs) s3 G c3) as [v o' c'].
  cbn [val out cnt].
  rewrite !app_nil_r, <- !app_assoc. destruct v; reflexivity.
Qed.

End Running.

(** ** Chart gallery of the machine report *)

Section MachineGallery.

Local Open Scope float_scope.

Lemma even_succ (n : nat) :
  (n mod 2 =? 0)%nat = true -> ((n + 1) mod 2 =? 0)%nat = false.
Proof.
  intros H. apply Nat.eqb_eq in H. apply Nat.eqb_neq.
  pose proof (Nat.div_mod_eq n 2). pose proof (Nat.div_mod_eq (n + 1) 2).
  lia.
Qed.

Lemma odd_succ (n : nat) :
  (n mod 2 =? 0)%nat = false -> ((n + 1) mod 2 =? 0)%nat = true.
Proof.
  intros H. apply Nat.eqb_neq in H. apply Nat.eqb_eq.
  pose proof (Nat.div_mod_eq n 2). pose proof (Nat.div_mod_eq (n + 1) 2).
  pose proof (Nat.mod_upper_bound n 2). pose proof (Nat.mod_upper_bound (n + 1) 2).
  lia.
Qed.

Variable E : Env.
Variable m : Machine.
Variable total : nat.

Lemma machine_panel_first (st : MachineReport.cursor)
    (p : MachineReport.bearingData * axis) (c : nat) :
  (MachineReport.chartIndex st mod 2 =? 0)%nat = true ->
  (MachineReport.chartIndex st + 1 =? total)%nat = false ->
  MachineReport.drawChartPanel E m (fst p) total st (snd p) c
  = {| val := Ok {| MachineReport.chartIndex :=
                      (MachineReport.chartIndex st + 1)%nat;
                    MachineReport.pageNum := MachineReport.pageNum st;
                    MachineReport.yPos := 28 + 8 |};
       out := Layout.machinePageHead E m ++ Layout.machinePanel E p 45;
       cnt := c |}.
Proof.
  intros Heven Hlast. destruct p as [b ax].
  unfold MachineReport.drawChartPanel.
  rewrite Heven, (even_succ _ Heven), Hlast.
  cbn [orb bind tell ret val out cnt fst snd].
  unfold Layout.machinePageHead, Layout.machinePanel. cbn [fst snd].
  rewrite !app_nil_r. reflexivity.
Qed.

Lemma machine_panel_alone (st : MachineReport.cursor)
    (p : MachineReport.bearingData * axis) (c : nat) :
  (MachineReport.chartIndex st mod 2 =? 0)%nat = true ->
  (MachineReport.chartIndex st + 1 =? total)%nat = true ->
  MachineReport.drawChartPanel E m (fst p) total st (snd p) c
  = {| val := Ok {| MachineReport.chartIndex :=
                      (MachineReport.chartIndex st + 1)%nat;
                    MachineReport.pageNum := (MachineReport.pageNum st + 1)%nat;
                    MachineReport.yPos := 28 + 8 |};
       out := Layout.machinePage E m (MachineReport.pageNum st) [p];
       cnt := c |}.
Proof.
  intros Heven Hlast. destruct p as [b ax].
  unfold MachineReport.drawChartPanel.
  rewrite Heven, (even_succ _ Heven), Hlast.
  cbn [orb bind tell ret val out cnt fst snd].
  unfold Layout.machinePage, Layout.machinePageHead, Layout.machinePanel.
  cbn [fst snd].
  rewrite !app_nil_r, <- !app_assoc. reflexivity.
Qed.

Lemma machine_panel_second (st : MachineReport.cursor)
    (p : MachineReport.bearingData * axis) (c : nat) :
  (MachineReport.chartIndex st mod 2 =? 0)%nat = false ->
  MachineReport.drawChartPanel E m (fst p) total st (snd p) c
  = {| val := Ok {| MachineReport.chartIndex :=
                      (MachineReport.chartIndex st + 1)%nat;
                    MachineReport.pageNum := (MachineReport.pageNum st + 1)%nat;
                    MachineReport.yPos := MachineReport.yPos st |};
       out := Layout.machinePanel E p 145
              ++ drawPageFooter (MachineReport.pageNum st) (pageWidth E)
                   (pageHeight E) MachineReport.margin;
       cnt := c |}.
Proof.
  intros Hodd. destruct p as [b ax].
  unfold MachineReport.drawChartPanel.
  rewrite Hodd, (odd_succ _ Hodd).
  cbn [orb bind tell ret val out cnt fst snd].
  unfold Layout.machinePanel. cbn [fst snd].
  rewrite !app_nil_r, <- !app_assoc. reflexivity.
Qed.

(** Lists two elements at a time. *)
Lemma pair_ind {T} (P : list T -> Prop) :
  P [] -> (forall a, P [a]) -> (forall a b l, P l -> P (a :: b :: l)) ->
  forall l, P l.
Proof.
  intros H0 H1 H2 l.
  enough (H : P l /\ forall a, P (a :: l)) by apply H.
  induction l as [|x l [IHl IHx]]; split; auto.
Qed.

(** The loop over the flat list of panels, from an even chart index,
    lays the panels out two to a page. *)
Lemma machine_gallery_flat :
  forall (l : list (MachineReport.bearingData * axis)) (i : nat)
         (st : MachineReport.cursor) (c : nat),
    (MachineReport.chartIndex st mod 2 =? 0)%nat = true ->
    (MachineReport.chartIndex st + List.length l)%nat = total ->
    exists st',
      forEachFrom i l st
        (fun st p _ => MachineReport.drawChartPanel E m (fst p) total st (snd p))
        c
      = {| val := Ok st';
           out := Layout.pagesFrom (Layout.machinePage E m)
                    (MachineReport.pageNum st) (pairUp l);
           cnt := c |}.
Proof.
  intros l. induction l as [|a|a b l IH] using pair_ind;
    intros i st c Heven Hlen.
  - exists st. reflexivity.
  - exists {| MachineReport.chartIndex := (MachineReport.chartIndex st + 1)%nat;
              MachineReport.pageNum := (MachineReport.pageNum st + 1)%nat;
              MachineReport.yPos := 28 + 8 |}.
    cbn [forEachFrom pairUp Layout.pagesFrom]. unfold bind.
    rewrite machine_panel_alone;
      [|assumption|apply Nat.eqb_eq; cbn [List.length] in Hlen; lia].
    cbn [val out cnt ret]. rewrite !app_nil_r. reflexivity.
  - cbn [forEachFrom pairUp Layout.pagesFrom]. unfold bind at 1.
    rewrite machine_panel_first;
      [|assumption|apply Nat.eqb_neq; cbn [List.length] in Hlen; lia].
    cbn [val out cnt]. unfold bind.
    rewrite machine_panel_second;
      [|cbn [MachineReport.chartIndex]; apply even_succ; assumption].
    cbn [val out cnt MachineReport.chartIndex MachineReport.pageNum
         MachineReport.yPos].
    edestruct (IH (S (S i))
                 {| MachineReport.chartIndex :=
                      (MachineReport.chartIndex st + 1 + 1)%nat;
                    MachineReport.pageNum := (MachineReport.pageNum st + 1)%nat;
                    MachineReport.yPos := 28 + 8 |} c) as [st' Hrun].
    + cbn [MachineReport.chartIndex]. apply odd_succ, even_succ. assumption.
    + cbn [MachineReport.chartIndex List.length] in *. lia.
    + exists st'. rewrite Hrun.
      cbn [val out cnt MachineReport.pageNum].
      replace (MachineReport.pageNum st + 1)%nat
        with (S (MachineReport.pageNum st)) by lia.
      unfold Layout.machinePage. rewrite <- !app_assoc. reflexivity.
Qed.

End MachineGallery.

(** ** Synthetic spectra *)

Section Synthetic.

Local Open Scope float_scope.

Variable E : Env.

Lemma bearing_samples_from (n : nat) (mult : float) :
  forall (len k : nat) (acc : list point) (c j : nat),
    forEachFrom j (seq k len) acc
      (fun data i _ =>
         p <- BearingReport.fftPoint E n mult i ;; ret (data ++ [p])) c
    = {| val := Ok (acc ++ map (fun i => BearingReport.fftSample n mult i
                                            (rand E (c + (i - k))))
                               (seq k len));
         out := [];
         cnt := (c + len)%nat |}.
Proof.
  induction len as [|len IH]; intros k acc c j.
  - cbn. rewrite app_nil_r, Nat.add_0_r. reflexivity.
  - cbn [seq forEachFrom]. unfold bind at 1.
    cbn [BearingReport.fftPoint bind random ret val out cnt].
    rewrite IH. cbn [val out cnt app map].
    rewrite <- app_assoc. cbn [app].
    rewrite Nat.sub_diag, Nat.add_0_r.
    f_equal; [|lia].
    do 3 f_equal.
    apply map_ext_in. intros i Hi. apply in_seq in Hi.
    do 2 f_equal. lia.
Qed.

Lemma bearing_generateFFTData_run (n : nat) (mult : float) (c : nat) :
  BearingReport.generateFFTData E n mult c
  = {| val := Ok (map (fun i => BearingReport.fftSample n mult i
                                  (rand E (c + i)))
                      (seq 0 n));
       out := [];
       cnt := (c + n)%nat |}.
Proof.
  unfold BearingReport.generateFFTData, forEach.
  rewrite bearing_samples_from. cbn [app].
  do 2 f_equal. apply map_ext. intros i. rewrite Nat.sub_0_r. reflexivity.
Qed.

Lemma bearing_series_run (mult : float) (c : nat) :
  runs (BearingReport.generateFFTData E 200 mult) c
       (Layout.seriesAt E mult c) [] (c + 200)%nat.
Proof. apply bearing_generateFFTData_run. Qed.

Lemma machine_samples_from (n : nat) (mult : float) :
  forall (len k : nat) (acc : list point) (c j : nat),
    forEachFrom j (seq k len) acc
      (fun data i _ =>
         p <- MachineReport.fftPoint E n mult i ;; ret (data ++ [p])) c
    = {| val := Ok (acc ++ map (fun i => MachineReport.fftSample n mult i
                                            (rand E (c + (i - k))))
                               (seq k len));
         out := [];
         cnt := (c + len)%nat |}.
Proof.
  induction len as [|len IH]; intros k acc c j.
  - cbn. rewrite app_nil_r, Nat.add_0_r. reflexivity.
  - cbn [seq forEachFrom]. unfold bind at 1.
    cbn [MachineReport.fftPoint bind random ret val out cnt].
    rewrite IH. cbn [val out cnt app map].
    rewrite <- app_assoc. cbn [app].
    rewrite Nat.sub_diag, Nat.add_0_r.
    f_equal; [|lia].
    do 3 f_equal.
    apply map_ext_in. intros i Hi. apply in_seq in Hi.
    do 2 f_equal. lia.
Qed.

Lemma machine_generateFFTData_run (n : nat) (mult : float) (c : nat) :
  MachineReport.generateFFTData E n mult c
  = {| val := Ok (map (fun i => MachineReport.fftSample n mult i
                                  (rand E (c + i)))
                      (seq 0 n));
       out := [];
       cnt := (c + n)%nat |}.
Proof.
  unfold MachineReport.generateFFTData, forEach.
  rewrite machine_samples_from. cbn [app].
  do 2 f_equal. apply map_ext. intros i. rewrite Nat.sub_0_r. reflexivity.
Qed.

End Synthetic.

Section SyntheticPeaks.

Local Open Scope float_scope.

(** C8 (evaluation): [generateFFTData(200, k)] of the bearing report
    returns 200 samples 5 Hz apart from 0 Hz, each a random base
    [Math.random() * 0.02 * k]; it adds the peaks [0.3 k], [0.15 k],
    [0.08 k] and [0.05 k] at 50, 100, 150 and 180 Hz, and nothing at
    360 Hz, where the generator of the machine report adds [0.03 k].
    The multiplier [k] of the bearing report is 2.5 for the label
    "unacceptable", 1.8 for "alert" and 1 otherwise, also for
    "unsatisfactory", which the classifier ranks at level 4. *)
Theorem bearing_generateFFTData_peaks :
  forall (E : Env) (k : float) (c : nat),
    val (BearingReport.generateFFTData E 200 k c)
    = Ok (map (fun i => BearingReport.fftSample 200 k i (rand E (c + i)))
              (seq 0 200))
    /\ (forall r,
         BearingReport.fftSample 200 k 10 r
         = {| freq := 50; amplitude := r * 0.02 * k + 0.3 * k |}
         /\ BearingReport.fftSample 200 k 20 r
            = {| freq := 100; amplitude := r * 0.02 * k + 0.15 * k |}
         /\ BearingReport.fftSample 200 k 30 r
            = {| freq := 150; amplitude := r * 0.02 * k + 0.08 * k |}
         /\ BearingReport.fftSample 200 k 36 r
            = {| freq := 180; amplitude := r * 0.02 * k + 0.05 * k |}
         /\ BearingReport.fftSample 200 k 72 r
            = {| freq := 360; amplitude := r * 0.02 * k |}
         /\ MachineReport.fftSample 200 k 72 r
            = {| freq := 360; amplitude := r * 0.02 * k + 0.03 * k |})
    /\ BearingReport.statusMultiplierOf "unacceptable" = 2.5
    /\ BearingReport.statusMultiplierOf "alert" = 1.8
    /\ BearingReport.statusMultiplierOf "normal" = 1
    /\ BearingReport.statusMultiplierOf "unsatisfactory" = 1
    /\ severityOf "unsatisfactory" = SevD.
Proof.
  intros E k c. split.
  { rewrite bearing_generateFFTData_run. reflexivity. }
  split.
  { intros r. repeat (split; [reflexivity|]). reflexivity. }
  repeat (split; [reflexivity|]). reflexivity.
Qed.

End SyntheticPeaks.

(** ** Proof automation *)

Create HintDb runs discriminated.

#[export] Hint Resolve runs_ret runs_tell runs_lift runs_random
  bearing_series_run : runs.

(** Runs a straight-line computation, collecting its calls. *)
Ltac run_all :=
  lazymatch goal with
  | |- runs (bind _ _) _ _ _ _ => eapply runs_bind; [run_all | cbv beta; run_all]
  | |- runs (ret _) _ _ _ _ => apply runs_ret
  | |- runs (tell _) _ _ _ _ => apply runs_tell
  | |- runs (lift (Ok _)) _ _ _ _ => apply runs_lift
  | |- runs (random _) _ _ _ _ => apply runs_random
  | |- runs (lift (getStatusSeverity (VStr _))) _ _ _ _ =>
      rewrite getStatusSeverity_string; apply runs_lift
  | |- runs (if ?b then _ else _) _ _ _ _ => fail "undecided test" b
  | |- _ => solve [eauto with runs]
  end.

(** Finds a call in a sequence built from explicit pieces. *)
Ltac find_in :=
  lazymatch goal with
  | |- In _ (_ :: _) => first [apply in_eq | apply in_cons; find_in]
  | |- In _ (_ ++ _) => apply in_or_app; first [left; find_in | right; find_in]
  end.

(** ** Records whose fields are strings or absent *)

Section WellFormed.

Lemma truthy_string (a : value) :
  stringOrFalsy a = true -> truthy a = true -> exists s, a = VStr s.
Proof.
  destruct a; intros Ha Ht; try (eexists; reflexivity);
    unfold stringOrFalsy in Ha; rewrite Ht in Ha; discriminate.
Qed.

Lemma or_else_string (a b : value) :
  stringOrFalsy a = true -> (exists s, b = VStr s) ->
  exists s, or_else a b = VStr s.
Proof.
  intros Ha Hb. unfold or_else.
  destruct (truthy a) eqn:Ht; [|assumption].
  apply truthy_string; assumption.
Qed.

Lemma or_else_stringOrFalsy (a b : value) :
  stringOrFalsy a = true -> stringOrFalsy b = true ->
  stringOrFalsy (or_else a b) = true.
Proof.
  intros Ha Hb. unfold or_else. destruct (truthy a); assumption.
Qed.

Lemma wfBearing_fields (b : Bearing) :
  wfBearing b = true ->
  stringOrFalsy (b_id_ b) = true /\ stringOrFalsy (b_bearingId b) = true
  /\ stringOrFalsy (b_statusName b) = true /\ stringOrFalsy (b_status b) = true.
Proof.
  unfold wfBearing. intros H.
  repeat (apply andb_prop in H; destruct H as [H ?]). auto.
Qed.

(** The identifier of a well-formed bearing, whatever the fallback. *)
Lemma wfBearing_id (b : Bearing) (fallback : string) :
  wfBearing b = true ->
  exists s, or_else (or_else (b_id_ b) (b_bearingId b)) (VStr fallback) = VStr s.
Proof.
  intros H. apply wfBearing_fields in H. destruct H as [H1 [H2 _]].
  apply or_else_string; [|eauto].
  apply or_else_stringOrFalsy; assumption.
Qed.

Lemma wfBearing_status (b : Bearing) :
  wfBearing b = true ->
  BearingReport.bearingStatusOf b = Ok (Layout.statusStringOf b).
Proof.
  intros H. apply wfBearing_fields in H. destruct H as [_ [_ [H1 H2]]].
  unfold Layout.statusStringOf, BearingReport.bearingStatusOf.
  destruct (or_else_string
              (or_else (b_statusName b) (b_status b)) (VStr "satisfactory"))
    as [s Hs]; [apply or_else_stringOrFalsy; assumption|eauto|].
  rewrite Hs. reflexivity.
Qed.

Lemma wfBearing_label (b : Bearing) :
  wfBearing b = true ->
  substring0 40 (Layout.bearingIdOf b) = Ok (Layout.labelOf b).
Proof.
  intros H. destruct (wfBearing_id b "Bearing" H) as [s Hs].
  unfold Layout.labelOf, Layout.bearingIdOf. rewrite Hs. reflexivity.
Qed.

End WellFormed.

(** ** Chart gallery of the bearing report *)

Section BearingGallery.

Local Open Scope float_scope.

Variable E : Env.
Variable machineName : value.
Variable total : nat.

Lemma bearing_panel_first (st : BearingReport.cursor) (p : Bearing * axis)
    (c : nat) :
  wfBearing (fst p) = true ->
  (BearingReport.chartIndex st mod 2 =? 0)%nat = true ->
  (BearingReport.chartIndex st + 1 =? total)%nat = false ->
  runs (BearingReport.drawChartPanel E machineName (Layout.bearingIdOf (fst p))
          (BearingReport.statusMultiplierOf (Layout.statusStringOf (fst p)))
          total st (snd p))
       c
       {| BearingReport.chartIndex := (BearingReport.chartIndex st + 1)%nat;
          BearingReport.pageNum := BearingReport.pageNum st;
          BearingReport.yPos := 28 + 8 |}
       (Layout.bearingPageHead E machineName p ++ Layout.bearingPanel E p c 45)
       (c + 200)%nat.
Proof.
  intros Hwf Heven Hlast.
  unfold BearingReport.drawChartPanel.
  rewrite Heven, (even_succ _ Heven), Hlast, (wfBearing_label _ Hwf).
  cbn [orb].
  eapply runs_conv; [run_all|reflexivity| |reflexivity].
  unfold Layout.bearingPageHead, Layout.bearingPanel.
  rewrite !app_nil_r, <- !app_assoc. cbn [app]. reflexivity.
Qed.

Lemma bearing_panel_alone (st : BearingReport.cursor) (p : Bearing * axis)
    (c : nat) :
  wfBearing (fst p) = true ->
  (BearingReport.chartIndex st mod 2 =? 0)%nat = true ->
  (BearingReport.chartIndex st + 1 =? total)%nat = true ->
  runs (BearingReport.drawChartPanel E machineName (Layout.bearingIdOf (fst p))
          (BearingReport.statusMultiplierOf (Layout.statusStringOf (fst p)))
          total st (snd p))
       c
       {| BearingReport.chartIndex := (BearingReport.chartIndex st + 1)%nat;
          BearingReport.pageNum := (BearingReport.pageNum st + 1)%nat;
          BearingReport.yPos := 28 + 8 |}
       (Layout.bearingPage E machineName (BearingReport.pageNum st) c [p])
       (c + 200)%nat.
Proof.
  intros Hwf Heven Hlast.
  unfold BearingReport.drawChartPanel.
  rewrite Heven, (even_succ _ Heven), Hlast, (wfBearing_label _ Hwf).
  cbn [orb].
  eapply runs_conv; [run_all|reflexivity| |reflexivity].
  unfold Layout.bearingPage, Layout.bearingPageHead, Layout.bearingPanel.
  rewrite !app_nil_r, <- !app_assoc. cbn [app]. reflexivity.
Qed.

Lemma bearing_panel_second (st : BearingReport.cursor) (p : Bearing * axis)
    (c : nat) :
  (BearingReport.chartIndex st mod 2 =? 0)%nat = false ->
  runs (BearingReport.drawChartPanel E machineName (Layout.bearingIdOf (fst p))
          (BearingReport.statusMultiplierOf (Layout.statusStringOf (fst p)))
          total st (snd p))
       c
       {| BearingReport.chartIndex := (BearingReport.chartIndex st + 1)%nat;
          BearingReport.pageNum := (BearingReport.pageNum st + 1)%nat;
          BearingReport.yPos := BearingReport.yPos st |}
       (Layout.bearingPanel E p c 145
        ++ drawPageFooter (BearingReport.pageNum st) (pageWidth E)
             (pageHeight E) BearingReport.margin)
       (c + 200)%nat.
Proof.
  intros Hodd.
  unfold BearingReport.drawChartPanel.
  rewrite Hodd, (odd_succ _ Hodd).
  cbn [orb].
  eapply runs_conv; [run_all|reflexivity| |reflexivity].
  unfold Layout.bearingPanel.
  rewrite !app_nil_r, <- !app_assoc. reflexivity.
Qed.

Lemma bearing_gallery_flat :
  forall (l : list (Bearing * axis)) (i : nat) (st : BearingReport.cursor)
         (c : nat),
    Forall (fun p => wfBearing (fst p) = true) l ->
    (BearingReport.chartIndex st mod 2 =? 0)%nat = true ->
    (BearingReport.chartIndex st + List.length l)%nat = total ->
    exists st',
      runs (forEachFrom i l st
              (fun st p _ =>
                 BearingReport.drawChartPanel E machineName
                   (Layout.bearingIdOf (fst p))
                   (BearingReport.statusMultiplierOf
                      (Layout.statusStringOf (fst p)))
                   total st (snd p)))
           c st'
           (Layout.pagesDrawing (Layout.bearingPage E machineName)
              (BearingReport.pageNum st) c (pairUp l))
           (c + 200 * List.length l)%nat.
Proof.
  intros l. induction l as [|a|a b l IH] using pair_ind;
    intros i st c Hwf Heven Hlen.
  - exists st. cbn [forEachFrom pairUp Layout.pagesDrawing List.length].
    rewrite Nat.mul_0_r, Nat.add_0_r. apply runs_ret.
  - eexists. cbn [forEachFrom pairUp Layout.pagesDrawing].
    eapply runs_conv;
      [eapply runs_bind;
       [apply bearing_panel_alone;
        [exact (Forall_inv Hwf)|assumption
        |apply Nat.eqb_eq; cbn [List.length] in Hlen; lia]
       |apply runs_ret]
      |reflexivity
      |rewrite !app_nil_r; reflexivity
      |cbn [List.length]; lia].
  - pose proof (Forall_inv Hwf) as Hwa.
    pose proof (Forall_inv (Forall_inv_tail Hwf)) as Hwb.
    pose proof (Forall_inv_tail (Forall_inv_tail Hwf)) as Hwl.
    edestruct (IH (S (S i))
                 {| BearingReport.chartIndex :=
                      (BearingReport.chartIndex st + 1 + 1)%nat;
                    BearingReport.pageNum := (BearingReport.pageNum st + 1)%nat;
                    BearingReport.yPos := 28 + 8 |} (c + 200 + 200)%nat)
      as [st' Hrun].
    + assumption.
    + cbn [BearingReport.chartIndex]. apply odd_succ, even_succ. assumption.
    + cbn [BearingReport.chartIndex List.length] in *. lia.
    + exists st'. cbn [forEachFrom pairUp Layout.pagesDrawing].
      eapply runs_conv;
        [eapply runs_bind;
         [apply bearing_panel_first;
          [assumption|assumption
          |apply Nat.eqb_neq; cbn [List.length] in Hlen; lia]
         |eapply runs_bind;
          [apply bearing_panel_second; cbn [BearingReport.chartIndex];
           apply even_succ; assumption
          |exact Hrun]]
        |reflexivity| |cbn [List.length]; lia].
      cbn [BearingReport.pageNum List.length].
      replace (BearingReport.pageNum st + 1)%nat
        with (S (BearingReport.pageNum st)) by lia.
      replace (c + 200 * 2)%nat with (c + 200 + 200)%nat by lia.
      unfold Layout.bearingPage. rewrite <- !app_assoc. reflexivity.
Qed.

End BearingGallery.

(** ** Pages of the gallery *)

Section Pagination.

Local Open Scope float_scope.

Lemma panels_length {T} (bs : list T) :
  List.length (panels bs) = (3 * List.length bs)%nat.
Proof.
  induction bs as [|b bs IH]; [reflexivity|].
  change (panels (b :: bs))
    with ((b, AxisH) :: (b, AxisV) :: (b, AxisA) :: panels bs).
  cbn [List.length]. rewrite IH. lia.
Qed.

Lemma pairUp_length {T} (l : list T) :
  List.length (pairUp l) = ((List.length l + 1) / 2)%nat.
Proof.
  induction l as [|a|a b l IH] using pair_ind; [reflexivity|reflexivity|].
  cbn [pairUp List.length]. rewrite IH.
  replace (S (S (List.length l)) + 1)%nat
    with ((List.length l + 1) + 1 * 2)%nat by lia.
  rewrite Nat.div_add by lia. lia.
Qed.

(** Page [k], counted from 0, holds the panels at the positions [2k]
    and [2k + 1], counted from 0: the two panels, or the one panel, that
    follow the first [2k]. *)
Lemma pairUp_nth {T} (l : list T) :
  forall k, (2 * k < List.length l)%nat ->
            nth_error (pairUp l) k = Some (firstn 2 (skipn (2 * k) l)).
Proof.
  induction l as [|a|a b l IH] using pair_ind; intros k Hk.
  - cbn in Hk. lia.
  - cbn in Hk. assert (k = 0)%nat by lia. subst k. reflexivity.
  - destruct k as [|k]; [reflexivity|].
    replace (2 * S k)%nat with (S (S (2 * k))) by lia.
    cbn [pairUp nth_error skipn]. apply IH.
    cbn [List.length] in Hk. lia.
Qed.

Lemma pagesAdded_app (a b : list op) :
  pagesAdded (a ++ b) = (pagesAdded a + pagesAdded b)%nat.
Proof. unfold pagesAdded. rewrite filter_app, length_app. reflexivity. Qed.

Lemma filter_map_none {T} (p : op -> bool) (f : T -> op) (l : list T) :
  (forall i, p (f i) = false) -> filter p (map f l) = [].
Proof.
  intros Hf. induction l as [|a l IH]; cbn; [reflexivity|].
  rewrite Hf. exact IH.
Qed.

Lemma pagesAdded_header (logo : option string) (machineName : value)
    (w mg : float) :
  pagesAdded (drawPageHeader logo machineName w mg) = 0%nat.
Proof.
  unfold drawPageHeader. destruct (truthy machineName), logo; reflexivity.
Qed.

Lemma pagesAdded_chart (d : option (list point)) (x y w h : float)
    (title : string) (c : color) :
  pagesAdded (drawFFTChart d x y w h title c) = 0%nat.
Proof.
  unfold drawFFTChart. rewrite !pagesAdded_app.
  assert (Hd : pagesAdded
                 match d with
                 | Some ((_ :: _) as data) => polyline data x y w h c
                 | _ => []
                 end = 0%nat).
  { destruct d as [[|p l]|]; try reflexivity.
    unfold polyline. rewrite pagesAdded_app. unfold pagesAdded at 2.
    rewrite filter_map_none; [reflexivity|]. intros i. reflexivity. }
  rewrite Hd. reflexivity.
Qed.

Lemma pagesAdded_machinePage (E : Env) (m : Machine) (pn : nat)
    (p1 : MachineReport.bearingData * axis)
    (rest : list (MachineReport.bearingData * axis)) :
  (List.length rest <= 1)%nat ->
  pagesAdded (Layout.machinePage E m pn (p1 :: rest)) = 1%nat.
Proof.
  intros Hrest.
  destruct rest as [|p2 [|p3 rest]]; [| |cbn in Hrest; lia];
    unfold Layout.machinePage, Layout.machinePageHead, Layout.machinePanel;
    rewrite !pagesAdded_app, !pagesAdded_chart, pagesAdded_header; reflexivity.
Qed.

Lemma pagesAdded_bearingPage (E : Env) (machineName : value) (pn c : nat)
    (p1 : Bearing * axis) (rest : list (Bearing * axis)) :
  (List.length rest <= 1)%nat ->
  pagesAdded (Layout.bearingPage E machineName pn c (p1 :: rest)) = 1%nat.
Proof.
  intros Hrest.
  destruct rest as [|p2 [|p3 rest]]; [| |cbn in Hrest; lia];
    unfold Layout.bearingPage, Layout.bearingPageHead, Layout.bearingPanel;
    rewrite !pagesAdded_app, !pagesAdded_chart, pagesAdded_header; reflexivity.
Qed.

Lemma pagesAdded_machine_pages (E : Env) (m : Machine)
    (l : list (MachineReport.bearingData * axis)) :
  forall pn,
    pagesAdded (Layout.pagesFrom (Layout.machinePage E m) pn (pairUp l))
    = List.length (pairUp l).
Proof.
  induction l as [|a|a b l IH] using pair_ind; intros pn; [reflexivity| |];
    cbn [pairUp Layout.pagesFrom List.length];
    rewrite pagesAdded_app, pagesAdded_machinePage by (cbn; lia).
  - reflexivity.
  - rewrite IH. reflexivity.
Qed.

Lemma pagesAdded_bearing_pages (E : Env) (machineName : value)
    (l : list (Bearing * axis)) :
  forall pn c,
    pagesAdded (Layout.pagesDrawing (Layout.bearingPage E machineName) pn c
                  (pairUp l))
    = List.length (pairUp l).
Proof.
  induction l as [|a|a b l IH] using pair_ind; intros pn c; [reflexivity| |];
    cbn [pairUp Layout.pagesDrawing];
    rewrite pagesAdded_app, pagesAdded_bearingPage by (cbn; lia).
  - reflexivity.
  - rewrite IH. reflexivity.
Qed.

Lemma bind_lift_ok {T U} (a : T) (f : T -> M U) (c : nat) :
  bind (lift (Ok a)) f c = f a c.
Proof.
  unfold bind, lift. cbn [val out cnt app]. destruct (f a c); reflexivity.
Qed.

Lemma forEachFrom_ext {T St} (f f' : St -> T -> nat -> M St) (l : list T) :
  (forall s x i c, In x l -> f s x i c = f' s x i c) ->
  forall i s c, forEachFrom i l s f c = forEachFrom i l s f' c.
Proof.
  induction l as [|x l IH]; intros Hf i s c; [reflexivity|].
  cbn [forEachFrom]. unfold bind.
  rewrite (Hf s x i c (or_introl eq_refl)).
  destruct (f' s x i c) as [[s'|e] o c']; cbn [val out cnt]; [|reflexivity].
  rewrite IH; [reflexivity|].
  intros. apply Hf. right. assumption.
Qed.

(** The chart pages of the bearing report as one loop over the panels. *)
Lemma bearing_drawChartPages_flat (E : Env) (machineName : value)
    (bs : list Bearing) (st : BearingReport.cursor) (c : nat) :
  Forall (fun b => wfBearing b = true) bs ->
  BearingReport.drawChartPages E machineName bs st c
  = forEachFrom 0 (panels bs) st
      (fun st p _ =>
         BearingReport.drawChartPanel E machineName
           (Layout.bearingIdOf (fst p))
           (BearingReport.statusMultiplierOf (Layout.statusStringOf (fst p)))
           (List.length bs * 3) st (snd p))
      c.
Proof.
  intros Hwf. unfold BearingReport.drawChartPages, forEach.
  rewrite <- (forEach_axes_flat
                (fun st b ax =>
                   BearingReport.drawChartPanel E machineName
                     (Layout.bearingIdOf b)
                     (BearingReport.statusMultiplierOf (Layout.statusStringOf b))
                     (List.length bs * 3) st ax) bs 0 0 st c).
  apply forEachFrom_ext. intros s b i c' Hin.
  unfold BearingReport.drawBearingCharts.
  rewrite Forall_forall in Hwf.
  rewrite (wfBearing_status b (Hwf b Hin)).
  rewrite bind_lift_ok. reflexivity.
Qed.

End Pagination.

(** ** Gallery pagination *)

Section GalleryPagination.

Local Open Scope float_scope.

(** C2: over a bearing list of length B both generators draw the
    N = 3 B chart panels, bearings in the outer loop and the axes H, V, A
    in the inner one; a page is added exactly before the panels of even
    index (counted from 0), so the gallery is the sequence of the pages
    of [pairUp (panels bearings)]: it adds ceil(N / 2) pages, and page
    [k + 1] holds the panels at positions [2k + 1] and [2k + 2] (counted
    from 1), the last one only the first of them when N is odd.  For
    the bearing report the bearings' fields are strings or absent. *)
Theorem gallery_pagination :
  forall (E : Env) (m : Machine)
         (bearingsData : list MachineReport.bearingData)
         (machineName : value) (bearings : list Bearing)
         (pn : nat) (y : float) (c : nat),
    Forall (fun b => wfBearing b = true) bearings ->
    let rM := MachineReport.drawChartPages E m bearingsData
                {| MachineReport.chartIndex := 0%nat;
                   MachineReport.pageNum := pn;
                   MachineReport.yPos := y |} c in
    let rB := BearingReport.drawChartPages E machineName bearings
                {| BearingReport.chartIndex := 0%nat;
                   BearingReport.pageNum := pn;
                   BearingReport.yPos := y |} c in
    (exists st, val rM = Ok st)
    /\ out rM = Layout.pagesFrom (Layout.machinePage E m) pn
                  (pairUp (panels bearingsData))
    /\ pagesAdded (out rM) = ((3 * List.length bearingsData + 1) / 2)%nat
    /\ (forall k, (2 * k < 3 * List.length bearingsData)%nat ->
                  nth_error (pairUp (panels bearingsData)) k
                  = Some (firstn 2 (skipn (2 * k) (panels bearingsData))))
    /\ (exists st, val rB = Ok st)
    /\ out rB = Layout.pagesDrawing (Layout.bearingPage E machineName) pn c
                  (pairUp (panels bearings))
    /\ pagesAdded (out rB) = ((3 * List.length bearings + 1) / 2)%nat
    /\ (forall k, (2 * k < 3 * List.length bearings)%nat ->
                  nth_error (pairUp (panels bearings)) k
                  = Some (firstn 2 (skipn (2 * k) (panels bearings)))).
Proof.
  intros E m bearingsData machineName bearings pn y c Hwf rM rB.
  assert (HM : exists st,
             rM = {| val := Ok st;
                     out := Layout.pagesFrom (Layout.machinePage E m) pn
                              (pairUp (panels bearingsData));
                     cnt := c |}).
  { subst rM. unfold MachineReport.drawChartPages, forEach.
    rewrite (forEach_axes_flat
               (fun st b ax =>
                  MachineReport.drawChartPanel E m b
                    (List.length bearingsData * 3) st ax) bearingsData 0%nat
               0%nat).
    apply (machine_gallery_flat E m (List.length bearingsData * 3)%nat
             (panels bearingsData) 0%nat
             {| MachineReport.chartIndex := 0%nat;
                MachineReport.pageNum := pn;
                MachineReport.yPos := y |} c).
    - reflexivity.
    - cbn [MachineReport.chartIndex]. rewrite panels_length. lia. }
  assert (HB : exists st,
             rB = {| val := Ok st;
                     out := Layout.pagesDrawing
                              (Layout.bearingPage E machineName) pn c
                              (pairUp (panels bearings));
                     cnt := (c + 200 * List.length (panels bearings))%nat |}).
  { subst rB. rewrite bearing_drawChartPages_flat by assumption.
    apply (bearing_gallery_flat E machineName (List.length bearings * 3)%nat
             (panels bearings) 0%nat
             {| BearingReport.chartIndex := 0%nat;
                BearingReport.pageNum := pn;
                BearingReport.yPos := y |} c).
    - apply Forall_forall. intros [b ax] Hin.
      unfold panels in Hin. apply in_flat_map in Hin.
      destruct Hin as [b' [Hb' Hin]].
      apply in_map_iff in Hin. destruct Hin as [ax' [Heq _]].
      inversion Heq; subst. cbn [fst].
      rewrite Forall_forall in Hwf. auto.
    - reflexivity.
    - cbn [BearingReport.chartIndex]. rewrite panels_length. lia. }
  destruct HM as [stM ->]. destruct HB as [stB ->]. cbn [val out cnt].
  split; [eauto|]. split; [reflexivity|].
  split; [rewrite pagesAdded_machine_pages, pairUp_length, panels_length;
          reflexivity|].
  split; [intros k Hk; apply pairUp_nth; rewrite panels_length; exact Hk|].
  split; [eauto|]. split; [reflexivity|].
  split; [rewrite pagesAdded_bearing_pages, pairUp_length, panels_length;
          reflexivity|].
  intros k Hk. apply pairUp_nth. rewrite panels_length. exact Hk.
Qed.

(** Two bearings (six panels) fill three pages in the bearing report,
    one bearing (three panels) two pages in the machine report. *)
Lemma gallery_pagination_witness :
  pagesAdded (out (BearingReport.drawChartPages Demo.env (VStr "Pump-01/X")
                     Demo.twoBearings Demo.galleryStart 0%nat)) = 3%nat
  /\ pagesAdded (out (MachineReport.drawChartPages Demo.env Demo.pump
                        [Demo.motorDE]
                        {| MachineReport.chartIndex := 0%nat;
                           MachineReport.pageNum := 2%nat;
                           MachineReport.yPos := 111 |} 0%nat)) = 2%nat.
Proof.
  assert (Hwf : Forall (fun b => wfBearing b = true) Demo.twoBearings)
    by (repeat constructor).
  pose proof (gallery_pagination Demo.env Demo.pump [Demo.motorDE]
                (VStr "Pump-01/X") Demo.twoBearings 2%nat 111 0%nat Hwf) as H.
  cbv zeta in H.
  destruct H as [_ [_ [HM [_ [_ [_ [HB _]]]]]]].
  split; [exact HB | exact HM].
Defined.

End GalleryPagination.

(** ** Data tables *)

Section DataTables.

Local Open Scope float_scope.

Lemma rowsDrawn_app (a b : list op) :
  rowsDrawn (a ++ b) = (rowsDrawn a + rowsDrawn b)%nat.
Proof. unfold rowsDrawn. rewrite filter_app, length_app. reflexivity. Qed.

(** A loop whose every iteration runs and draws [k] rows draws [k] rows
    per item. *)
Lemma forEachFrom_rows {T St} (k : nat) (f : St -> T -> nat -> M St)
    (l : list T) :
  (forall s x i c, In x l ->
     exists s' o c', runs (f s x i) c s' o c' /\ rowsDrawn o = k) ->
  forall i s c,
    exists s' o c',
      runs (forEachFrom i l s f) c s' o c'
      /\ rowsDrawn o = (k * List.length l)%nat.
Proof.
  induction l as [|x l IH]; intros Hf i s c.
  - exists s, [], c. split; [apply runs_ret|]. cbn. lia.
  - destruct (Hf s x i c (or_introl eq_refl)) as [s1 [o1 [c1 [H1 K1]]]].
    destruct (IH (fun s x i c H => Hf s x i c (or_intror H)) (S i) s1 c1)
      as [s2 [o2 [c2 [H2 K2]]]].
    exists s2, (o1 ++ o2), c2. split.
    + cbn [forEachFrom]. eapply runs_bind; eassumption.
    + rewrite rowsDrawn_app, K1, K2. cbn [List.length]. lia.
Qed.

Lemma machine_row_run (E : Env) (bearing : MachineReport.bearingData)
    (bIdx : nat) (yPos : float) (ax : axis) (aIdx : nat) (c : nat) :
  exists o,
    runs (MachineReport.drawDataRow E bearing bIdx yPos ax aIdx) c
         (yPos + MachineReport.rowHeight) o c
    /\ rowsDrawn o = 1%nat.
Proof.
  eexists. split.
  - unfold MachineReport.drawDataRow, forEach, MachineReport.colWidths.
    cbn [forEachFrom Nat.eqb]. run_all.
  - reflexivity.
Qed.

Lemma bearing_row_run (E : Env) (b : Bearing) (bIdx : nat) (yPos : float)
    (c : nat) :
  wfBearing b = true ->
  exists o,
    runs (BearingReport.drawTableRow E yPos b bIdx) c
         (yPos + BearingReport.rowHeight) o (S (S (S c)))
    /\ rowsDrawn o = 1%nat.
Proof.
  intros Hwf.
  destruct (wfBearing_id b ("Bearing-" ++ nat_to_string (bIdx + 1)) Hwf)
    as [s Hs].
  unfold BearingReport.drawTableRow.
  rewrite (wfBearing_status b Hwf), Hs.
  cbn [substring0].
  eexists. split.
  - unfold forEach, BearingReport.colWidths.
    cbn [forEachFrom Nat.eqb]. run_all.
  - reflexivity.
Qed.

Lemma machine_series_run (E : Env) (mult : float) (c : nat) :
  runs (MachineReport.generateFFTData E 200 mult) c
       (map (fun i => MachineReport.fftSample 200 mult i (rand E (c + i)))
            (seq 0 200))
       [] (c + 200)%nat.
Proof. apply machine_generateFFTData_run. Qed.

#[local] Hint Resolve machine_series_run : runs.

Lemma mockBearing_run (E : Env) (m : Machine) (name : string) (c : nat) :
  exists b, runs (MachineReport.mockBearing E m name) c b [] (c + 612)%nat.
Proof.
  eexists. unfold MachineReport.mockBearing, MachineReport.mockMetric.
  eapply runs_conv; [run_all|reflexivity|reflexivity|lia].
Qed.

Lemma mockBearings_run (E : Env) (m : Machine) (l : list string) :
  forall (acc : list MachineReport.bearingData) (i c : nat),
    exists bd c',
      runs (forEachFrom i l acc
              (fun acc bearingName _ =>
                 b <- MachineReport.mockBearing E m bearingName ;;
                 ret (acc ++ [b]))) c bd [] c'
      /\ List.length bd = (List.length acc + List.length l)%nat.
Proof.
  induction l as [|name l IH]; intros acc i c.
  - exists acc, c. split; [apply runs_ret|]. cbn. lia.
  - destruct (mockBearing_run E m name c) as [b Hb].
    destruct (IH (acc ++ [b]) (S i) (c + 612)%nat) as [bd [c' [Hrun Hlen]]].
    exists bd, c'. split.
    + cbn [forEachFrom].
      eapply runs_conv;
        [eapply runs_bind;
         [eapply runs_bind; [exact Hb|apply runs_ret]|exact Hrun]
        |reflexivity|reflexivity|reflexivity].
    + rewrite Hlen, length_app. cbn [List.length]. lia.
Qed.

(** C6 (as the code has it): the data table of the machine vibration
    report has one row per (bearing, axis) pair of its bearing data,
    3 rows per bearing, so 6 rows for a list of 2 bearings; the data it
    is run on is the mock data of four bearings, which gives 12 rows.
    The table of the bearing report has one row per bearing (bearings
    whose fields are strings or absent). *)
Theorem data_table_rows :
  forall (E : Env) (m : Machine)
         (bearingsData : list MachineReport.bearingData)
         (bearings : list Bearing) (yPos : float) (c : nat),
    Forall (fun b => wfBearing b = true) bearings ->
    (exists y' o c',
        runs (MachineReport.drawDataRows E bearingsData yPos) c y' o c'
        /\ rowsDrawn o = (3 * List.length bearingsData)%nat)
    /\ (exists bd c',
          runs (MachineReport.generateMockBearingData E m) c bd [] c'
          /\ List.length bd = 4%nat)
    /\ (exists y' o c',
          runs (BearingReport.drawTableRows E bearings yPos) c y' o c'
          /\ rowsDrawn o = List.length bearings).
Proof.
  intros E m bearingsData bearings yPos c Hwf.
  split; [|split].
  - destruct (forEachFrom_rows 3
                (fun yPos bearing bIdx =>
                   forEach axes yPos (MachineReport.drawDataRow E bearing bIdx))
                bearingsData) with (i := 0%nat) (s := yPos) (c := c)
      as [y' [o [c' [Hrun Hrows]]]].
    + intros s x i c0 _.
      destruct (machine_row_run E x i s AxisH 0 c0) as [o1 [R1 K1]].
      destruct (machine_row_run E x i (s + MachineReport.rowHeight) AxisV 1 c0)
        as [o2 [R2 K2]].
      destruct (machine_row_run E x i
                  (s + MachineReport.rowHeight + MachineReport.rowHeight)
                  AxisA 2 c0) as [o3 [R3 K3]].
      exists (s + MachineReport.rowHeight + MachineReport.rowHeight
              + MachineReport.rowHeight), (o1 ++ o2 ++ o3 ++ []), c0.
      split.
      * unfold forEach, axes. cbn [forEachFrom].
        repeat (eapply runs_bind; [eassumption|]). apply runs_ret.
      * rewrite !rowsDrawn_app, K1, K2, K3. reflexivity.
    + exists y', o, c'. split; [exact Hrun|]. rewrite Hrows. lia.
  - destruct (mockBearings_run E m MachineReport.mockBearingNames [] 0 c)
      as [bd [c' [Hrun Hlen]]].
    exists bd, c'. split; [exact Hrun|exact Hlen].
  - destruct (forEachFrom_rows 1 (BearingReport.drawTableRow E) bearings)
      with (i := 0%nat) (s := yPos) (c := c) as [y' [o [c' [Hrun Hrows]]]].
    + intros s x i c0 Hin. rewrite Forall_forall in Hwf.
      destruct (bearing_row_run E x i s c0 (Hwf x Hin)) as [o1 [R1 K1]].
      eauto.
    + exists y', o, c'. split; [exact Hrun|]. rewrite Hrows. lia.
Qed.

End DataTables.

Section DataTableExamples.

Local Open Scope float_scope.

Lemma data_table_rows_witness :
  (exists y' o c',
      runs (MachineReport.drawDataRows Demo.env [Demo.motorDE; Demo.motorDE] 42)
           0%nat y' o c'
      /\ rowsDrawn o = 6%nat)
  /\ (exists y' o c',
        runs (BearingReport.drawTableRows Demo.env Demo.twoBearings 97)
             0%nat y' o c'
        /\ rowsDrawn o = 2%nat).
Proof.
  assert (Hwf : Forall (fun b => wfBearing b = true) Demo.twoBearings)
    by (repeat constructor).
  destruct (data_table_rows Demo.env Demo.pump [Demo.motorDE; Demo.motorDE]
              Demo.twoBearings 42 0%nat Hwf) as [HM _].
  destruct (data_table_rows Demo.env Demo.pump [Demo.motorDE; Demo.motorDE]
              Demo.twoBearings 97 0%nat Hwf) as [_ [_ HB]].
  split; [exact HM | exact HB].
Defined.

(** C6, as stated, fails on the bearing report of a machine with two
    bearings, in whole-machine mode: its table has 2 rows, not 6. *)
Lemma bearing_table_two_rows :
  BearingReport.bearingsToReportOf false None Demo.twoBearings
  = Demo.twoBearings
  /\ rowsDrawn (out (BearingReport.drawTableRows Demo.env
                       (BearingReport.bearingsToReportOf false None
                          Demo.twoBearings) 97 0%nat)) = 2%nat
  /\ 2%nat <> 6%nat.
Proof.
  split; [reflexivity|]. split; [reflexivity|discriminate].
Qed.

End DataTableExamples.

(** ** Default status of machines and bearings *)

Section DefaultStatus.

Lemma lower_char_idem (c : ascii) : lower_char (lower_char c) = lower_char c.
Proof. destruct c as [[] [] [] [] [] [] [] []]; reflexivity. Qed.

Lemma lowerCase_idem (s : string) : lowerCase (lowerCase s) = lowerCase s.
Proof.
  induction s as [|c s IH]; [reflexivity|].
  cbn [lowerCase map_chars] in *. rewrite lower_char_idem.
  unfold lowerCase in IH. rewrite IH. reflexivity.
Qed.

Lemma or_else_falsy (a b : value) : truthy a = false -> or_else a b = b.
Proof. unfold or_else. intros ->. reflexivity. Qed.

Lemma or_else_truthy (a b : value) : truthy a = true -> or_else a b = a.
Proof. unfold or_else. intros ->. reflexivity. Qed.

(** C9 (as the code has it): [getStatusSeverity] gives each machine and
    each bearing one severity, and level 1 to an unrecognised label,
    for machines and for bearings.  A missing or empty label counts as
    "normal", level 1, for a machine; for a bearing of the bearing
    report it counts as "satisfactory", level 2, in the table and in the
    chart pages. *)
Theorem status_defaults :
  forall (m : Machine) (b : Bearing),
    (truthy (m_statusName m) = false -> truthy (m_status m) = false ->
     BearingReport.statusOf m = Ok "normal"
     /\ getStatusSeverity (VStr "normal") = Ok SevA
     /\ getStatusSeverity (m_status m) = Ok SevA)
    /\ (truthy (b_statusName b) = false -> truthy (b_status b) = false ->
        BearingReport.bearingStatusOf b = Ok "satisfactory"
        /\ getStatusSeverity (VStr "satisfactory") = Ok SevB
        /\ level (SEVERITY_COLORS SevB) = 2)
    /\ (forall s,
          s <> "" ->
          lowerCase s <> "normal" -> lowerCase s <> "satisfactory" ->
          lowerCase s <> "alert" -> lowerCase s <> "unacceptable" ->
          lowerCase s <> "unsatisfactory" ->
          (m_statusName m = VStr s ->
           BearingReport.statusOf m = Ok (lowerCase s))
          /\ (b_statusName b = VStr s ->
              BearingReport.bearingStatusOf b = Ok (lowerCase s))
          /\ getStatusSeverity (VStr (lowerCase s)) = Ok SevA
          /\ level (SEVERITY_COLORS SevA) = 1).
Proof.
  intros m b. split; [|split].
  - intros H1 H2. unfold BearingReport.statusOf.
    rewrite (or_else_falsy _ _ H1), (or_else_falsy _ _ H2).
    split; [reflexivity|]. split; [reflexivity|].
    unfold getStatusSeverity. rewrite (or_else_falsy _ _ H2). reflexivity.
  - intros H1 H2. unfold BearingReport.bearingStatusOf.
    rewrite (or_else_falsy _ _ H1), (or_else_falsy _ _ H2).
    repeat (split; [reflexivity|]). reflexivity.
  - intros s Hne N1 N2 N3 N4 N5.
    assert (Ht : truthy (VStr s) = true).
    { cbn. destruct (String.eqb_spec s ""); [contradiction|reflexivity]. }
    split; [|split; [|split]].
    + intros Hs. unfold BearingReport.statusOf. rewrite Hs.
      rewrite (or_else_truthy (VStr s) _ Ht), (or_else_truthy (VStr s) _ Ht).
      reflexivity.
    + intros Hs. unfold BearingReport.bearingStatusOf. rewrite Hs.
      rewrite (or_else_truthy (VStr s) _ Ht), (or_else_truthy (VStr s) _ Ht).
      reflexivity.
    + rewrite getStatusSeverity_string, lowerCase_idem.
      f_equal. apply severityOf_other; assumption.
    + reflexivity.
Qed.

(** A machine and a bearing without a status, and with the label
    "Critical". *)
Lemma status_defaults_witness :
  BearingReport.statusOf Demo.machineOnlyId = Ok "normal"
  /\ BearingReport.bearingStatusOf Demo.bearingBare = Ok "satisfactory"
  /\ BearingReport.bearingStatusOf (Demo.bearingWith (VStr "B1") VUndefined)
     = Ok "satisfactory"
  /\ getStatusSeverity (VStr (lowerCase "Critical")) = Ok SevA.
Proof.
  split; [apply (status_defaults Demo.machineOnlyId Demo.bearingBare);
          reflexivity|].
  split; [apply (status_defaults Demo.machineOnlyId Demo.bearingBare);
          reflexivity|].
  split; [apply (status_defaults Demo.machineOnlyId
                   (Demo.bearingWith (VStr "B1") VUndefined)); reflexivity|].
  destruct (status_defaults Demo.machineOnlyId Demo.bearingBare)
    as [_ [_ H]].
  apply (H "Critical"); discriminate.
Defined.

(** C9, as stated, fails on a bearing without a status: the bearing
    report classifies it at level 2, not level 1. *)
Lemma bearing_without_status_is_level_2 :
  b_statusName Demo.bearingBare = VUndefined
  /\ b_status Demo.bearingBare = VUndefined
  /\ BearingReport.bearingStatusOf Demo.bearingBare = Ok "satisfactory"
  /\ getStatusSeverity (VStr "satisfactory") = Ok SevB
  /\ level (SEVERITY_COLORS SevB) = 2
  /\ 2 <> 1.
Proof.
  repeat (split; [reflexivity|]). discriminate.
Qed.

End DefaultStatus.

(** ** A whole run of the bearing report *)

Section WholeReport.

Local Open Scope float_scope.

Variable E : Env.

Lemma wfMachine_name (m : Machine) :
  wfMachine m = true -> exists s, BearingReport.machineNameOf m = VStr s.
Proof.
  unfold wfMachine. intros H.
  repeat (apply andb_prop in H; destruct H as [H ?]).
  unfold BearingReport.machineNameOf.
  apply or_else_string; [|eauto].
  apply or_else_stringOrFalsy; assumption.
Qed.

Lemma wfMachine_status (m : Machine) :
  wfMachine m = true -> exists s, BearingReport.statusOf m = Ok s.
Proof.
  unfold wfMachine. intros H.
  repeat (apply andb_prop in H; destruct H as [H ?]).
  unfold BearingReport.statusOf.
  destruct (or_else_string (or_else (m_statusName m) (m_status m))
              (VStr "normal")) as [s Hs];
    [apply or_else_stringOrFalsy; assumption|eauto|].
  rewrite Hs. eexists. reflexivity.
Qed.

Lemma wf_bearingName (isSingleBearing : bool) (bearing : option Bearing) :
  wfOptBearing bearing = true ->
  exists scope, BearingReport.bearingNameOf isSingleBearing bearing = Ok scope.
Proof.
  intros Hwf. unfold BearingReport.bearingNameOf.
  destruct isSingleBearing, bearing as [b|]; try (eexists; reflexivity).
  destruct (wfBearing_id b "bearing" Hwf) as [s Hs]. rewrite Hs.
  eexists. reflexivity.
Qed.

Lemma wf_bearingsToReport (isSingleBearing : bool) (bearing : option Bearing)
    (bearings : list Bearing) :
  wfOptBearing bearing = true ->
  Forall (fun b => wfBearing b = true) bearings ->
  Forall (fun b => wfBearing b = true)
         (BearingReport.bearingsToReportOf isSingleBearing bearing bearings).
Proof.
  intros Hb Hbs. unfold BearingReport.bearingsToReportOf.
  destruct isSingleBearing, bearing as [b|]; try assumption.
  constructor; [exact Hb|constructor].
Qed.

Lemma shows_app_l (a b : list op) (v : value) : shows a v -> shows (a ++ b) v.
Proof.
  intros [x [y [o H]]]. exists x, y, o. apply in_or_app. left. exact H.
Qed.

Lemma machineDetails_run (m : Machine) (isSingleBearing : bool)
    (status : string) (c : nat) :
  exists y o,
    runs (BearingReport.drawMachineDetails E m isSingleBearing status) c y o c
    /\ detailsShown m o.
Proof.
  do 2 eexists. split.
  - unfold BearingReport.drawMachineDetails, forEach.
    cbv zeta. cbn [forEachFrom]. run_all.
  - unfold detailsShown, shows. cbn [fst snd].
    repeat split; do 3 eexists; find_in.
Qed.

Lemma tableHeader_run (bs : list Bearing) (yPos : float) (c : nat) :
  exists y o, runs (BearingReport.drawTableHeader bs yPos) c y o c.
Proof.
  do 2 eexists.
  unfold BearingReport.drawTableHeader, forEach, BearingReport.colWidths.
  cbv zeta. cbn [forEachFrom]. run_all.
Qed.

Lemma tableRows_run (bs : list Bearing) (yPos : float) (c : nat) :
  Forall (fun b => wfBearing b = true) bs ->
  exists y o c', runs (BearingReport.drawTableRows E bs yPos) c y o c'.
Proof.
  intros Hwf.
  destruct (forEachFrom_rows 1 (BearingReport.drawTableRow E) bs)
    with (i := 0%nat) (s := yPos) (c := c) as [y' [o [c' [Hrun _]]]].
  - intros s x i c0 Hin. rewrite Forall_forall in Hwf.
    destruct (bearing_row_run E x i s c0 (Hwf x Hin)) as [o1 [R1 K1]].
    eauto.
  - eauto.
Qed.

Lemma chartPages_run (machineName : value) (bs : list Bearing)
    (pn : nat) (y : float) (c : nat) :
  Forall (fun b => wfBearing b = true) bs ->
  exists st o c',
    runs (BearingReport.drawChartPages E machineName bs
            {| BearingReport.chartIndex := 0;
               BearingReport.pageNum := pn;
               BearingReport.yPos := y |}) c st o c'.
Proof.
  intros Hwf. unfold runs.
  rewrite bearing_drawChartPages_flat by assumption.
  destruct (bearing_gallery_flat E machineName (List.length bs * 3)%nat
              (panels bs) 0%nat
              {| BearingReport.chartIndex := 0%nat;
                 BearingReport.pageNum := pn;
                 BearingReport.yPos := y |} c) as [st' Hrun].
  - apply Forall_forall. intros [b ax] Hin.
    unfold panels in Hin. apply in_flat_map in Hin.
    destruct Hin as [b' [Hb' Hin]].
    apply in_map_iff in Hin. destruct Hin as [ax' [Heq _]].
    inversion Heq; subst. cbn [fst].
    rewrite Forall_forall in Hwf. auto.
  - reflexivity.
  - cbn [BearingReport.chartIndex]. rewrite panels_length. lia.
  - eauto.
Qed.

(** A run on well-formed records reaches [pdf.save] with the file name
    [fileNameOf] computes. *)
Lemma renderReport_run (m : Machine) (bearing : option Bearing)
    (bearings : list Bearing) (isSingleBearing : bool) (c : nat) :
  wfMachine m = true ->
  wfOptBearing bearing = true ->
  Forall (fun b => wfBearing b = true) bearings ->
  exists o c' name scope,
    runs (BearingReport.renderReport E m bearing bearings isSingleBearing) c tt
         (o ++ [ Save (Spec.fileNameWith (BearingReport.sanitize name) scope
                         (isoDate E)) ]) c'
    /\ BearingReport.machineNameOf m = VStr name
    /\ BearingReport.bearingNameOf isSingleBearing bearing = Ok scope
    /\ detailsShown m o.
Proof.
  intros Hm Hb Hbs.
  destruct (wfMachine_name m Hm) as [name Hname].
  destruct (wfMachine_status m Hm) as [status Hstatus].
  destruct (wf_bearingName isSingleBearing bearing Hb) as [scope Hscope].
  pose proof (wf_bearingsToReport isSingleBearing bearing bearings Hb Hbs)
    as Hwf.
  set (bs := BearingReport.bearingsToReportOf isSingleBearing bearing bearings)
    in *.
  destruct (machineDetails_run m isSingleBearing status c)
    as [y1 [o1 [R1 S1]]].
  destruct (tableHeader_run bs y1 c) as [y2 [o2 R2]].
  destruct (tableRows_run bs y2 c Hwf) as [y3 [o3 [c3 R3]]].
  destruct (chartPages_run (VStr name) bs (1 + 1) y3 c3 Hwf)
    as [st [o4 [c4 R4]]].
  exists (o1 ++ o2 ++ o3
          ++ drawPageFooter 1 (pageWidth E) (pageHeight E) BearingReport.margin
          ++ o4), c4, name, scope.
  split; [|split; [assumption|split; [assumption|]]].
  2: { destruct S1 as [S1 [S2 [S3 [S4 S5]]]].
       repeat split; apply shows_app_l; assumption. }
  unfold BearingReport.renderReport. rewrite Hstatus. cbv zeta. fold bs.
  unfold BearingReport.fileNameOf. rewrite Hscope, Hname.
  cbn [BearingReport.replaceUnsafe].
  eapply runs_conv; [run_all|reflexivity| |reflexivity].
  unfold Spec.fileNameWith.
  cbn [app]. rewrite <- !app_assoc. reflexivity.
Qed.

End WholeReport.

(** ** File name and completion *)

Section FileName.

Local Open Scope float_scope.

Lemma sanitize_length (s : string) :
  String.length (BearingReport.sanitize s) = String.length s.
Proof.
  induction s as [|c s IH]; [reflexivity|].
  cbn [BearingReport.sanitize map_chars String.length] in *.
  unfold BearingReport.sanitize in IH. rewrite IH. reflexivity.
Qed.

Lemma sanitize_get (s : string) :
  forall i c,
    String.get i s = Some c ->
    String.get i (BearingReport.sanitize s)
    = Some (if BearingReport.fileChar c then c else "_"%char).
Proof.
  induction s as [|a s IH]; intros i c H; [discriminate|].
  destruct i as [|i]; cbn [BearingReport.sanitize map_chars String.get] in *.
  - inversion H; subst. reflexivity.
  - apply IH. exact H.
Qed.

Lemma saved_report (E : Env) (m : Machine) (bearing : option Bearing)
    (bearings : list Bearing) (isSingleBearing : bool) (o : list op)
    (c' : nat) (fileName : string) :
  runs (BearingReport.renderReport E m bearing bearings isSingleBearing) 0 tt
       (o ++ [ Save fileName ]) c' ->
  BearingReport.generatePDFReport E (Some m) bearing bearings isSingleBearing
  = BearingReport.Saved (o ++ [ Save fileName ])
  /\ last (o ++ [ Save fileName ]) AddPage = Save fileName.
Proof.
  intros Hrun. unfold BearingReport.generatePDFReport.
  unfold runs in Hrun. rewrite Hrun. cbn [val out].
  split; [reflexivity|apply last_last].
Qed.

(** C7 (as the code has it): the bearing report is saved under the name
    [Report_<name>_<scope>_<ISO date>.pdf], where [<name>] is the machine
    name with every character outside [a-zA-Z0-9()-] replaced by an
    underscore (same length, other characters unchanged), and [<scope>]
    is "all_bearings" in whole-machine mode, or without a bearing, and
    otherwise the first 20 characters of the bearing identifier ([_id],
    else [bearingId], else "bearing"). *)
Theorem report_file_name :
  forall (E : Env) (m : Machine) (bearing : option Bearing)
         (bearings : list Bearing) (isSingleBearing : bool),
    wfMachine m = true ->
    wfOptBearing bearing = true ->
    Forall (fun b => wfBearing b = true) bearings ->
    exists doc name scope,
      BearingReport.generatePDFReport E (Some m) bearing bearings
        isSingleBearing = BearingReport.Saved doc
      /\ last doc AddPage
         = Save (Spec.fileNameWith (BearingReport.sanitize name) scope
                   (isoDate E))
      /\ BearingReport.machineNameOf m = VStr name
      /\ (isSingleBearing = false \/ bearing = None -> scope = "all_bearings")
      /\ (forall b, isSingleBearing = true -> bearing = Some b ->
            exists id,
              or_else (or_else (b_id_ b) (b_bearingId b)) (VStr "bearing")
              = VStr id
              /\ scope = String.substring 0 20 id)
      /\ String.length (BearingReport.sanitize name) = String.length name
      /\ (forall i c,
            String.get i name = Some c ->
            String.get i (BearingReport.sanitize name)
            = Some (if BearingReport.fileChar c then c else "_"%char)).
Proof.
  intros E m bearing bearings isSingleBearing Hm Hb Hbs.
  destruct (renderReport_run E m bearing bearings isSingleBearing 0 Hm Hb Hbs)
    as [o [c' [name [scope [Hrun [Hname [Hscope _]]]]]]].
  destruct (saved_report E m bearing bearings isSingleBearing o c' _ Hrun)
    as [Hsaved Hlast].
  exists (o ++ [ Save (Spec.fileNameWith (BearingReport.sanitize name) scope
                         (isoDate E)) ]), name, scope.
  split; [exact Hsaved|]. split; [exact Hlast|]. split; [exact Hname|].
  split.
  { intros [-> | ->]; unfold BearingReport.bearingNameOf in Hscope.
    - destruct bearing; congruence.
    - destruct isSingleBearing; congruence. }
  split.
  { intros b -> ->. cbn [BearingReport.bearingNameOf] in Hscope.
    destruct (wfBearing_id b "bearing" Hb) as [id Hid].
    exists id. split; [exact Hid|].
    rewrite Hid in Hscope. cbn [substring0] in Hscope. congruence. }
  split; [apply sanitize_length|apply sanitize_get].
Qed.

(** The machine "Pump-01/X", all bearings, on 2024-06-01. *)
Lemma report_file_name_witness :
  exists doc,
    BearingReport.generatePDFReport Demo.env (Some Demo.pump) None
      Demo.twoBearings false = BearingReport.Saved doc
    /\ last doc AddPage = Save "Report_Pump-01_X_all_bearings_2024-06-01.pdf".
Proof.
  assert (Hwf : Forall (fun b => wfBearing b = true) Demo.twoBearings)
    by (repeat constructor).
  destruct (report_file_name Demo.env Demo.pump None Demo.twoBearings false
              eq_refl eq_refl Hwf)
    as [doc [name [scope [Hsaved [Hlast [Hname [Hscope _]]]]]]].
  exists doc. split; [exact Hsaved|].
  rewrite Hlast, (Hscope (or_introl eq_refl)).
  assert (name = "Pump-01/X") by (cbv in Hname; congruence).
  subst name. reflexivity.
Defined.

(** C7, as stated, fails on the machine name "Pump-01/X": the slash is
    replaced by an underscore, not removed. *)
Lemma file_name_replaces_not_removes :
  BearingReport.fileNameOf Demo.env (VStr "Pump-01/X") false None
  = Ok "Report_Pump-01_X_all_bearings_2024-06-01.pdf"
  /\ Spec.fileNameWith (Spec.stripUnsafe "Pump-01/X") "all_bearings"
       "2024-06-01"
     = "Report_Pump-01X_all_bearings_2024-06-01.pdf"
  /\ "Report_Pump-01_X_all_bearings_2024-06-01.pdf"
     <> "Report_Pump-01X_all_bearings_2024-06-01.pdf".
Proof.
  split; [reflexivity|]. split; [reflexivity|discriminate].
Qed.

(** C10 (as the code has it): on a machine record and bearings whose
    fields are each a string or absent (undefined, null, empty), the
    generator throws nothing and saves a complete document, which shows
    each detail or its default: the machine name or "Unknown Machine",
    the machine id, customer id and area id or "N/A", the type or
    "OFFLINE". *)
Theorem report_completes_on_missing_fields :
  forall (E : Env) (m : Machine) (bearing : option Bearing)
         (bearings : list Bearing) (isSingleBearing : bool),
    wfMachine m = true ->
    wfOptBearing bearing = true ->
    Forall (fun b => wfBearing b = true) bearings ->
    exists doc fileName,
      BearingReport.generatePDFReport E (Some m) bearing bearings
        isSingleBearing = BearingReport.Saved doc
      /\ last doc AddPage = Save fileName
      /\ BearingReport.fileNameOf E (BearingReport.machineNameOf m)
           isSingleBearing bearing = Ok fileName
      /\ detailsShown m doc
      /\ (truthy (m_name m) = false -> truthy (m_machineName m) = false ->
          shows doc (VStr "Unknown Machine"))
      /\ (truthy (m_customerId m) = false -> shows doc (VStr "N/A"))
      /\ (truthy (m_type m) = false -> shows doc (VStr "OFFLINE")).
Proof.
  intros E m bearing bearings isSingleBearing Hm Hb Hbs.
  destruct (renderReport_run E m bearing bearings isSingleBearing 0 Hm Hb Hbs)
    as [o [c' [name [scope [Hrun [Hname [Hscope Hshown]]]]]]].
  destruct (saved_report E m bearing bearings isSingleBearing o c' _ Hrun)
    as [Hsaved Hlast].
  assert (Hdoc : detailsShown m
                   (o ++ [ Save (Spec.fileNameWith (BearingReport.sanitize name)
                                   scope (isoDate E)) ])).
  { destruct Hshown as [S1 [S2 [S3 [S4 S5]]]].
    repeat split; apply shows_app_l; assumption. }
  do 2 eexists. split; [exact Hsaved|]. split; [exact Hlast|].
  split.
  { unfold BearingReport.fileNameOf. rewrite Hscope, Hname. reflexivity. }
  split; [exact Hdoc|].
  destruct Hdoc as [S1 [_ [S3 [_ S5]]]].
  split; [|split].
  - intros H1 H2. unfold BearingReport.machineNameOf in S1.
    rewrite (or_else_falsy _ _ H1), (or_else_falsy _ _ H2) in S1. exact S1.
  - intros H. rewrite (or_else_falsy _ _ H) in S3. exact S3.
  - intros H. rewrite (or_else_falsy _ _ H) in S5. exact S5.
Qed.

(** A record that holds only an id, without bearings. *)
Lemma report_completes_on_missing_fields_witness :
  exists doc,
    BearingReport.generatePDFReport Demo.env (Some Demo.machineOnlyId) None []
      false = BearingReport.Saved doc
    /\ last doc AddPage
       = Save "Report_Unknown_Machine_all_bearings_2024-06-01.pdf"
    /\ shows doc (VStr "Unknown Machine")
    /\ shows doc (VStr "N/A")
    /\ shows doc (VStr "OFFLINE").
Proof.
  destruct (report_completes_on_missing_fields Demo.env Demo.machineOnlyId
              None [] false eq_refl eq_refl (Forall_nil _))
    as [doc [fileName [Hsaved [Hlast [Hname [_ [S1 [S2 S3]]]]]]]].
  exists doc. split; [exact Hsaved|].
  split; [rewrite Hlast; cbv in Hname; congruence|].
  split; [exact (S1 eq_refl eq_refl)|].
  split; [exact (S2 eq_refl)|exact (S3 eq_refl)].
Defined.

(** C10, as stated, fails on a record whose status is the number 3:
    [toLowerCase] is not a function of a number, the error is caught,
    the alert is shown and no document is saved. *)
Lemma numeric_status_fails :
  BearingReport.generatePDFReport Demo.env
    (Some (Demo.machineWith (VStr "Pump-01/X") (VNum 3))) None [] false
  = BearingReport.Alerted (TypeError "toLowerCase is not a function") [].
Proof. reflexivity. Qed.

End FileName.

(** ** Canvas spectrum chart *)

Section CanvasChart.

Local Open Scope float_scope.

(** The canvas chart of the modal places a sample by the formulas of the
    specification, with the frequency scale at least 1000 Hz and the
    amplitude scale at least 0.5: a series of zero amplitudes is scaled
    by 0.5, not by 1. *)
Lemma modal_place_formula (data : list FFTModal.sample)
    (left top chartWidth chartHeight : float) (p : FFTModal.sample) :
  FFTModal.place data left top chartWidth chartHeight p
  = (Spec.screenX left chartWidth (FFTModal.maxFreqOf data)
       (FFTModal.frequency p),
     Spec.screenY top chartHeight (FFTModal.maxAmplitudeOf data)
       (FFTModal.amplitude p))
  /\ FFTModal.maxAmplitudeOf
       [ {| FFTModal.frequency := 0; FFTModal.amplitude := 0 |} ] = 0.5.
Proof. split; reflexivity. Qed.

End CanvasChart.

(** ** Calls of a report run: pages, labels and the save *)

Section CallDiscipline.

Variable p : op -> bool.

Lemma emits_ret {T} (a : T) : emits p (ret a).
Proof. intros c. reflexivity. Qed.

Lemma emits_lift {T} (r : result T) : emits p (lift r).
Proof. intros c. reflexivity. Qed.

Lemma emits_random (E : Env) : emits p (random E).
Proof. intros c. reflexivity. Qed.

Lemma emits_tell (ops : list op) : forallb p ops = true -> emits p (tell ops).
Proof. intros H c. exact H. Qed.

Lemma emits_bind {T U} (m : M T) (f : T -> M U) :
  emits p m -> (forall a, emits p (f a)) -> emits p (bind m f).
Proof.
  intros Hm Hf c. unfold bind. specialize (Hm c).
  destruct (m c) as [[a|e] o c1]; cbn [val out cnt] in *; [|exact Hm].
  rewrite forallb_app, Hm. exact (Hf a c1).
Qed.

Lemma emits_forEachFrom {T St} (f : St -> T -> nat -> M St) (l : list T) :
  (forall s x i, emits p (f s x i)) ->
  forall i s, emits p (forEachFrom i l s f).
Proof.
  intros Hf. induction l as [|x l IH]; intros i s; cbn [forEachFrom].
  - apply emits_ret.
  - apply emits_bind; [apply Hf|]. intros s'. apply IH.
Qed.

Lemma forallb_app_true (a b : list op) :
  forallb p a = true -> forallb p b = true -> forallb p (a ++ b) = true.
Proof. intros Ha Hb. rewrite forallb_app, Ha, Hb. reflexivity. Qed.

Lemma forallb_map_true {T} (f : T -> op) (l : list T) :
  (forall i, p (f i) = true) -> forallb p (map f l) = true.
Proof.
  intros Hf. induction l as [|a l IH]; cbn; [reflexivity|].
  rewrite Hf. exact IH.
Qed.

End CallDiscipline.

(** Splits a sequence of calls into its pieces. *)
Ltac pieces leaf :=
  lazymatch goal with
  | |- forallb _ (_ ++ _) = true =>
      apply forallb_app_true; [pieces leaf | pieces leaf]
  | |- forallb _ (map _ _) = true =>
      apply forallb_map_true; intro; reflexivity
  | |- forallb _ (if ?b then _ else _) = true => destruct b; pieces leaf
  | |- forallb _ match ?l with Some _ => _ | None => _ end = true =>
      destruct l; pieces leaf
  | |- _ => first [leaf | reflexivity]
  end.

(** Walks through a computation, call by call. *)
Ltac walk leaf :=
  lazymatch goal with
  | |- emits _ (bind _ _) =>
      apply emits_bind; [walk leaf | intro; cbv beta; walk leaf]
  | |- emits _ (ret _) => apply emits_ret
  | |- emits _ (lift _) => apply emits_lift
  | |- emits _ (random _) => apply emits_random
  | |- emits _ (tell _) => apply emits_tell; pieces leaf
  | |- emits _ (forEachFrom _ _ _ _) =>
      apply emits_forEachFrom; intros; cbv beta; walk leaf
  | |- emits _ (forEach _ _ _) => unfold forEach; walk leaf
  | |- emits _ (if ?b then _ else _) => destruct b; walk leaf
  | |- _ => leaf
  end.

Section ChartCalls.

Local Open Scope float_scope.

Lemma header_notSave (logo : option string) (machineName : value)
    (w mg : float) :
  forallb notSave (drawPageHeader logo machineName w mg) = true.
Proof. unfold drawPageHeader. pieces fail. Qed.

Lemma header_drawsContent (logo : option string) (machineName : value)
    (w mg : float) :
  forallb drawsContent (drawPageHeader logo machineName w mg) = true.
Proof. unfold drawPageHeader. pieces fail. Qed.

Lemma chart_notSave (d : option (list point)) (x y w h : float)
    (title : string) (c : color) :
  forallb notSave (drawFFTChart d x y w h title c) = true.
Proof.
  unfold drawFFTChart, horizontalGrid, verticalGrid.
  destruct d as [[|a l]|]; unfold polyline; pieces fail.
Qed.

Lemma chart_drawsContent (d : option (list point)) (x y w h : float)
    (title : string) (c : color) :
  forallb drawsContent (drawFFTChart d x y w h title c) = true.
Proof.
  unfold drawFFTChart, horizontalGrid, verticalGrid.
  destruct d as [[|a l]|]; unfold polyline; pieces fail.
Qed.

Lemma generateFFTData_notSave (E : Env) (n : nat) (mult : float) :
  emits notSave (BearingReport.generateFFTData E n mult).
Proof.
  unfold BearingReport.generateFFTData, BearingReport.fftPoint. walk fail.
Qed.

End ChartCalls.

(** The pieces that are not literal sequences of calls. *)
Ltac chart_calls :=
  idtac;
  lazymatch goal with
  | |- forallb notSave (drawPageHeader _ _ _ _) = true => apply header_notSave
  | |- forallb drawsContent (drawPageHeader _ _ _ _) = true =>
      apply header_drawsContent
  | |- forallb notSave (drawFFTChart _ _ _ _ _ _ _) = true =>
      apply chart_notSave
  | |- forallb drawsContent (drawFFTChart _ _ _ _ _ _ _) = true =>
      apply chart_drawsContent
  | |- emits notSave (BearingReport.generateFFTData _ _ _) =>
      apply generateFFTData_notSave
  end.

Section ReportCalls.

Local Open Scope float_scope.

Variable E : Env.

Lemma machineDetails_content (m : Machine) (isSingleBearing : bool)
    (status : string) :
  emits drawsContent (BearingReport.drawMachineDetails E m isSingleBearing status).
Proof.
  unfold BearingReport.drawMachineDetails. cbv zeta. walk chart_calls.
Qed.

Lemma tableHeader_content (bs : list Bearing) (yPos : float) :
  emits drawsContent (BearingReport.drawTableHeader bs yPos).
Proof.
  unfold BearingReport.drawTableHeader. cbv zeta. walk fail.
Qed.

Lemma tableRows_content (bs : list Bearing) (yPos : float) :
  emits drawsContent (BearingReport.drawTableRows E bs yPos).
Proof.
  unfold BearingReport.drawTableRows, BearingReport.drawTableRow. cbv zeta.
  walk fail.
Qed.

Lemma saves_app (a b : list op) : saves (a ++ b) = (saves a + saves b)%nat.
Proof. unfold saves. rewrite filter_app, length_app. reflexivity. Qed.

Lemma notSave_saves (ops : list op) :
  forallb notSave ops = true -> saves ops = 0%nat.
Proof.
  unfold saves. induction ops as [|o ops IH]; cbn; [reflexivity|].
  intros H. apply andb_prop in H. destruct H as [Ho Hops].
  unfold notSave in Ho. destruct (isSave o); [discriminate|]. auto.
Qed.

Lemma drawsContent_notSave (ops : list op) :
  forallb drawsContent ops = true -> forallb notSave ops = true.
Proof.
  induction ops as [|o ops IH]; cbn; [reflexivity|].
  intros H. apply andb_prop in H. destruct H as [Ho Hops].
  rewrite (IH Hops), andb_true_r. destruct o; try reflexivity. discriminate.
Qed.

Lemma emits_content_notSave {T} (m : M T) :
  emits drawsContent m -> emits notSave m.
Proof. intros H c. apply drawsContent_notSave, H. Qed.

Lemma chartPages_notSave (machineName : value) (bs : list Bearing)
    (st : BearingReport.cursor) :
  emits notSave (BearingReport.drawChartPages E machineName bs st).
Proof.
  unfold BearingReport.drawChartPages, BearingReport.drawBearingCharts,
    BearingReport.drawChartPanel.
  cbv zeta. walk chart_calls.
Qed.

End ReportCalls.

Section SaveDiscipline.

Local Open Scope float_scope.

Variable E : Env.

Lemma savesLast_bind {T U} (m : M T) (f : T -> M U) :
  emits notSave m -> (forall a, savesLast (f a)) -> savesLast (bind m f).
Proof.
  intros Hm Hf c. unfold bind.
  pose proof (notSave_saves _ (Hm c)) as Hq.
  destruct (m c) as [[a|e] o c1]; cbn [val out cnt] in *; [|exact Hq].
  specialize (Hf a c1).
  destruct (f a c1) as [[b|e] o' c2]; cbn [val out cnt] in *.
  - destruct Hf as [o2 [fileName [-> Ho2]]].
    exists (o ++ o2), fileName. split; [apply app_assoc|].
    rewrite saves_app, Hq, Ho2. reflexivity.
  - rewrite saves_app, Hq, Hf. reflexivity.
Qed.

Lemma savesLast_save (name : result string) :
  savesLast (fileName <- lift name ;; tell [ Save fileName ]).
Proof.
  intros c. destruct name as [fileName|e]; cbn.
  - exists [], fileName. split; reflexivity.
  - reflexivity.
Qed.

Lemma renderReport_savesLast (m : Machine) (bearing : option Bearing)
    (bearings : list Bearing) (isSingleBearing : bool) :
  savesLast (BearingReport.renderReport E m bearing bearings isSingleBearing).
Proof.
  unfold BearingReport.renderReport. cbv zeta.
  apply savesLast_bind; [apply emits_lift|intros status].
  apply savesLast_bind;
    [apply emits_content_notSave, machineDetails_content|intros y1].
  apply savesLast_bind;
    [apply emits_content_notSave, tableHeader_content|intros y2].
  apply savesLast_bind;
    [apply emits_content_notSave, tableRows_content|intros y3].
  apply savesLast_bind; [apply emits_tell; reflexivity|intros _].
  apply savesLast_bind; [apply chartPages_notSave|intros _].
  apply savesLast_save.
Qed.

(** X1: whatever the machine, the bearings and the environment, a click
    on the button saves the document at most once: a run that completes
    makes [pdf.save] its last call and no other; a run that fails has
    saved nothing; without a machine nothing happens. *)
Theorem report_saves_once_at_end :
  forall (machine : option Machine) (bearing : option Bearing)
         (bearings : list Bearing) (isSingleBearing : bool),
    match BearingReport.generatePDFReport E machine bearing bearings
            isSingleBearing with
    | BearingReport.Skipped => machine = None
    | BearingReport.Saved doc =>
        exists o fileName, doc = o ++ [ Save fileName ] /\ saves o = 0%nat
    | BearingReport.Alerted _ partial => saves partial = 0%nat
    end.
Proof.
  intros [m|] bearing bearings isSingleBearing; [|reflexivity].
  unfold BearingReport.generatePDFReport.
  pose proof (renderReport_savesLast m bearing bearings isSingleBearing 0%nat)
    as H.
  destruct (val (BearingReport.renderReport E m bearing bearings
                   isSingleBearing 0%nat)); exact H.
Qed.

(** X2: a machine whose status ([statusName], else [status]) is present
    but is not a string makes the report fail at its first step: the
    alert is shown and nothing was drawn. *)
Theorem report_fails_before_drawing :
  forall (m : Machine) (bearing : option Bearing) (bearings : list Bearing)
         (isSingleBearing : bool),
    truthy (or_else (m_statusName m) (m_status m)) = true ->
    (forall s, or_else (m_statusName m) (m_status m) <> VStr s) ->
    BearingReport.generatePDFReport E (Some m) bearing bearings isSingleBearing
    = BearingReport.Alerted (TypeError "toLowerCase is not a function") [].
Proof.
  intros m bearing bearings isSingleBearing Ht Hs.
  unfold BearingReport.generatePDFReport, BearingReport.renderReport,
    BearingReport.statusOf.
  rewrite (or_else_truthy _ (VStr "normal") Ht).
  destruct (or_else (m_statusName m) (m_status m)) as [| |s| |] eqn:Hv;
    try reflexivity.
  exfalso. exact (Hs s eq_refl).
Qed.

End SaveDiscipline.

Lemma report_fails_before_drawing_witness :
  BearingReport.generatePDFReport Demo.env
    (Some (Demo.machineWith (VStr "Fan") (VBool true))) None Demo.twoBearings
    false
  = BearingReport.Alerted (TypeError "toLowerCase is not a function") [].
Proof.
  apply (report_fails_before_drawing Demo.env
           (Demo.machineWith (VStr "Fan") (VBool true)) None Demo.twoBearings
           false).
  - reflexivity.
  - intros s. discriminate.
Defined.

Section ReportLayout.

Local Open Scope float_scope.

Variable E : Env.

Lemma content_pagesAdded (ops : list op) :
  forallb drawsContent ops = true -> pagesAdded ops = 0%nat.
Proof.
  unfold pagesAdded. induction ops as [|o ops IH]; cbn; [reflexivity|].
  intros H. apply andb_prop in H. destruct H as [Ho Hops].
  destruct o; try (apply IH; assumption). discriminate.
Qed.

Lemma content_pageLabels (ops : list op) :
  forallb drawsContent ops = true -> pageLabels ops = [].
Proof.
  unfold pageLabels. induction ops as [|o ops IH]; cbn [flat_map forallb];
    [reflexivity|].
  intros H. apply andb_prop in H. destruct H as [Ho Hops].
  rewrite (IH Hops), app_nil_r.
  unfold drawsContent in Ho.
  destruct o; try reflexivity; destruct (pageLabelOf _); try reflexivity;
    discriminate.
Qed.

Lemma pageLabels_app (a b : list op) :
  pageLabels (a ++ b) = pageLabels a ++ pageLabels b.
Proof. apply flat_map_app. Qed.

(** The label of page [k]. *)
Lemma pageLabels_footer (k : nat) (w h mg : float) :
  pageLabels (drawPageFooter k w h mg) = [ "Page: " ++ nat_to_string k ]%string.
Proof.
  unfold pageLabels, drawPageFooter. cbn.
  destruct (nat_to_string k); reflexivity.
Qed.

Lemma pageLabels_bearingPage (machineName : value) (pn c : nat)
    (p1 : Bearing * axis) (rest : list (Bearing * axis)) :
  (List.length rest <= 1)%nat ->
  pageLabels (Layout.bearingPage E machineName pn c (p1 :: rest))
  = [ "Page: " ++ nat_to_string pn ]%string.
Proof.
  intros Hrest.
  destruct rest as [|p2 [|p3 rest]]; [| |cbn in Hrest; lia];
    unfold Layout.bearingPage, Layout.bearingPageHead, Layout.bearingPanel;
    rewrite !pageLabels_app, pageLabels_footer,
      !(content_pageLabels _ (chart_drawsContent _ _ _ _ _ _ _)),
      (content_pageLabels _ (header_drawsContent _ _ _ _));
    reflexivity.
Qed.

Lemma pageLabels_bearing_pages (machineName : value)
    (l : list (Bearing * axis)) :
  forall pn c,
    pageLabels (Layout.pagesDrawing (Layout.bearingPage E machineName) pn c
                  (pairUp l))
    = map (fun k => "Page: " ++ nat_to_string k)%string
          (seq pn (List.length (pairUp l))).
Proof.
  induction l as [|a|a b l IH] using pair_ind; intros pn c; [reflexivity| |];
    cbn [pairUp Layout.pagesDrawing List.length seq map];
    rewrite pageLabels_app, pageLabels_bearingPage by (cbn; lia).
  - reflexivity.
  - rewrite IH. reflexivity.
Qed.

(** A run on well-formed records: the details and the table header, the
    table rows, the footer of page 1, the gallery page by page, and the
    save. *)
Lemma renderReport_layout (m : Machine) (bearing : option Bearing)
    (bearings : list Bearing) (isSingleBearing : bool) (c : nat) :
  wfMachine m = true ->
  wfOptBearing bearing = true ->
  Forall (fun b => wfBearing b = true) bearings ->
  exists front rows c3 c' name fileName,
    runs (BearingReport.renderReport E m bearing bearings isSingleBearing) c tt
         (front ++ rows
          ++ drawPageFooter 1 (pageWidth E) (pageHeight E) BearingReport.margin
          ++ Layout.pagesDrawing (Layout.bearingPage E (VStr name)) 2 c3
               (pairUp (panels (BearingReport.bearingsToReportOf
                                  isSingleBearing bearing bearings)))
          ++ [ Save fileName ]) c'
    /\ BearingReport.machineNameOf m = VStr name
    /\ forallb drawsContent front = true
    /\ forallb drawsContent rows = true
    /\ rowsDrawn rows
       = List.length (BearingReport.bearingsToReportOf isSingleBearing bearing
                        bearings).
Proof.
  intros Hm Hb Hbs.
  destruct (wfMachine_name m Hm) as [name Hname].
  destruct (wfMachine_status m Hm) as [status Hstatus].
  destruct (wf_bearingName isSingleBearing bearing Hb) as [scope Hscope].
  pose proof (wf_bearingsToReport isSingleBearing bearing bearings Hb Hbs)
    as Hwf.
  set (bs := BearingReport.bearingsToReportOf isSingleBearing bearing bearings)
    in *.
  destruct (machineDetails_run E m isSingleBearing status c)
    as [y1 [o1 [R1 _]]].
  destruct (tableHeader_run bs y1 c) as [y2 [o2 R2]].
  assert (R3 : exists y3 o3 c3,
             runs (BearingReport.drawTableRows E bs y2) c y3 o3 c3
             /\ rowsDrawn o3 = List.length bs).
  { destruct (forEachFrom_rows 1 (BearingReport.drawTableRow E) bs)
      with (i := 0%nat) (s := y2) (c := c) as [y' [o [c' [Hrun Hrows]]]].
    - intros s x i c0 Hin. rewrite Forall_forall in Hwf.
      destruct (bearing_row_run E x i s c0 (Hwf x Hin)) as [o' [R K]].
      eauto.
    - exists y', o, c'. split; [exact Hrun|]. rewrite Hrows. lia. }
  destruct R3 as [y3 [o3 [c3 [R3 K3]]]].
  assert (R4 : exists st,
             runs (BearingReport.drawChartPages E (VStr name) bs
                     {| BearingReport.chartIndex := 0%nat;
                        BearingReport.pageNum := (1 + 1)%nat;
                        BearingReport.yPos := y3 |}) c3 st
                  (Layout.pagesDrawing (Layout.bearingPage E (VStr name)) 2 c3
                     (pairUp (panels bs)))
                  (c3 + 200 * List.length (panels bs))%nat).
  { unfold runs. rewrite bearing_drawChartPages_flat by assumption.
    apply (bearing_gallery_flat E (VStr name) (List.length bs * 3)%nat
             (panels bs) 0%nat
             {| BearingReport.chartIndex := 0%nat;
                BearingReport.pageNum := (1 + 1)%nat;
                BearingReport.yPos := y3 |} c3).
    - apply Forall_forall. intros [b ax] Hin.
      unfold panels in Hin. apply in_flat_map in Hin.
      destruct Hin as [b' [Hb' Hin]].
      apply in_map_iff in Hin. destruct Hin as [ax' [Heq _]].
      inversion Heq; subst. cbn [fst].
      rewrite Forall_forall in Hwf. auto.
    - reflexivity.
    - cbn [BearingReport.chartIndex]. rewrite panels_length. lia. }
  destruct R4 as [st R4].
  exists (o1 ++ o2), o3, c3, (c3 + 200 * List.length (panels bs))%nat, name,
    (Spec.fileNameWith (BearingReport.sanitize name) scope (isoDate E)).
  split; [|split; [assumption|split; [|split; [|exact K3]]]].
  - unfold BearingReport.renderReport. rewrite Hstatus. cbv zeta. fold bs.
    unfold BearingReport.fileNameOf. rewrite Hscope, Hname.
    cbn [BearingReport.replaceUnsafe].
    eapply runs_conv; [run_all|reflexivity| |reflexivity].
    unfold Spec.fileNameWith.
    cbn [app]. rewrite <- !app_assoc. reflexivity.
  - pose proof (machineDetails_content E m isSingleBearing status c) as C1.
    pose proof (tableHeader_content bs y1 c) as C2.
    unfold runs in R1, R2. rewrite R1 in C1. rewrite R2 in C2.
    cbn [out] in C1, C2.
    rewrite forallb_app, C1, C2. reflexivity.
  - pose proof (tableRows_content E bs y2 c) as C3.
    unfold runs in R3. rewrite R3 in C3. exact C3.
Qed.

(** X3: the bearing report of a machine and of bearings whose fields are
    strings or absent has 1 + ceil(3 B / 2) pages, B being the number of
    bearings reported: the one bearing of single-bearing mode, all the
    bearings otherwise.  The table never breaks the page: its B rows all
    stand on page 1, before the footer "Page: 1", however many they are. *)
Theorem report_page_count :
  forall (m : Machine) (bearing : option Bearing) (bearings : list Bearing)
         (isSingleBearing : bool),
    wfMachine m = true ->
    wfOptBearing bearing = true ->
    Forall (fun b => wfBearing b = true) bearings ->
    let bs := BearingReport.bearingsToReportOf isSingleBearing bearing bearings
    in
    exists doc front rows rest,
      BearingReport.generatePDFReport E (Some m) bearing bearings
        isSingleBearing = BearingReport.Saved doc
      /\ pagesAdded doc = ((3 * List.length bs + 1) / 2)%nat
      /\ doc = front ++ rows
               ++ drawPageFooter 1 (pageWidth E) (pageHeight E)
                    BearingReport.margin
               ++ rest
      /\ pagesAdded front = 0%nat
      /\ pagesAdded rows = 0%nat
      /\ rowsDrawn rows = List.length bs
      /\ (forall b, isSingleBearing = true -> bearing = Some b -> bs = [b])
      /\ (isSingleBearing = false \/ bearing = None -> bs = bearings).
Proof.
  intros m bearing bearings isSingleBearing Hm Hb Hbs bs.
  destruct (renderReport_layout m bearing bearings isSingleBearing 0 Hm Hb Hbs)
    as [front [rows [c3 [c' [name [fileName [Hrun [_ [Hf [Hr Hk]]]]]]]]]].
  fold bs in Hrun, Hk.
  exists (front ++ rows
          ++ drawPageFooter 1 (pageWidth E) (pageHeight E) BearingReport.margin
          ++ Layout.pagesDrawing (Layout.bearingPage E (VStr name)) 2 c3
               (pairUp (panels bs))
          ++ [ Save fileName ]), front, rows,
    (Layout.pagesDrawing (Layout.bearingPage E (VStr name)) 2 c3
       (pairUp (panels bs))
     ++ [ Save fileName ]).
  split.
  { unfold BearingReport.generatePDFReport. unfold runs in Hrun.
    rewrite Hrun. reflexivity. }
  split.
  { rewrite !pagesAdded_app, (content_pagesAdded _ Hf),
      (content_pagesAdded _ Hr), pagesAdded_bearing_pages, pairUp_length,
      panels_length.
    cbn [pagesAdded drawPageFooter filter isAddPage List.length Nat.add].
    lia. }
  split; [reflexivity|].
  split; [apply content_pagesAdded; exact Hf|].
  split; [apply content_pagesAdded; exact Hr|].
  split; [exact Hk|].
  split.
  - intros b -> ->. reflexivity.
  - intros [-> | ->]; subst bs; unfold BearingReport.bearingsToReportOf.
    + reflexivity.
    + destruct isSingleBearing; reflexivity.
Qed.

(** X4: the pages of such a report are numbered 1, 2, ..., P in order,
    P = 1 + ceil(3 B / 2): the page labels of the document are "Page: 1"
    to "Page: P", one per page. *)
Theorem report_page_labels :
  forall (m : Machine) (bearing : option Bearing) (bearings : list Bearing)
         (isSingleBearing : bool),
    wfMachine m = true ->
    wfOptBearing bearing = true ->
    Forall (fun b => wfBearing b = true) bearings ->
    exists doc,
      BearingReport.generatePDFReport E (Some m) bearing bearings
        isSingleBearing = BearingReport.Saved doc
      /\ pageLabels doc
         = map (fun k => "Page: " ++ nat_to_string k)%string
               (seq 1 (1 + pagesAdded doc))
      /\ pagesAdded doc
         = ((3 * List.length (BearingReport.bearingsToReportOf isSingleBearing
                                bearing bearings) + 1) / 2)%nat.
Proof.
  intros m bearing bearings isSingleBearing Hm Hb Hbs.
  destruct (renderReport_layout m bearing bearings isSingleBearing 0 Hm Hb Hbs)
    as [front [rows [c3 [c' [name [fileName [Hrun [_ [Hf [Hr Hk]]]]]]]]]].
  exists (front ++ rows
          ++ drawPageFooter 1 (pageWidth E) (pageHeight E) BearingReport.margin
          ++ Layout.pagesDrawing (Layout.bearingPage E (VStr name)) 2 c3
               (pairUp (panels (BearingReport.bearingsToReportOf
                                  isSingleBearing bearing bearings)))
          ++ [ Save fileName ]).
  split.
  { unfold BearingReport.generatePDFReport. unfold runs in Hrun.
    rewrite Hrun. reflexivity. }
  assert (Hp : forall rest,
             pagesAdded (front ++ rows
                         ++ drawPageFooter 1 (pageWidth E) (pageHeight E)
                              BearingReport.margin
                         ++ Layout.pagesDrawing
                              (Layout.bearingPage E (VStr name)) 2 c3
                              (pairUp (panels (BearingReport.bearingsToReportOf
                                                 isSingleBearing bearing
                                                 bearings)))
                         ++ [ Save rest ])
             = List.length (pairUp (panels (BearingReport.bearingsToReportOf
                                              isSingleBearing bearing bearings)))).
  { intros rest.
    rewrite !pagesAdded_app, (content_pagesAdded _ Hf),
      (content_pagesAdded _ Hr), pagesAdded_bearing_pages.
    cbn [pagesAdded drawPageFooter filter isAddPage List.length Nat.add].
    lia. }
  split.
  - rewrite Hp.
    rewrite !pageLabels_app, (content_pageLabels _ Hf),
      (content_pageLabels _ Hr), pageLabels_footer, pageLabels_bearing_pages.
    cbn [app pageLabels flat_map pageLabelOf Nat.add seq map].
    rewrite app_nil_r. reflexivity.
  - rewrite Hp, pairUp_length, panels_length. reflexivity.
Qed.

End ReportLayout.

Lemma report_page_count_witness :
  exists doc,
    BearingReport.generatePDFReport Demo.env (Some Demo.pump) None
      Demo.twoBearings false = BearingReport.Saved doc
    /\ pagesAdded doc = 3%nat.
Proof.
  assert (Hwf : Forall (fun b => wfBearing b = true) Demo.twoBearings)
    by (repeat constructor).
  destruct (report_page_count Demo.env Demo.pump None Demo.twoBearings false
              eq_refl eq_refl Hwf)
    as [doc [front [rows [rest [Hsaved [Hpages _]]]]]].
  exists doc. split; [exact Hsaved|exact Hpages].
Defined.

Lemma report_page_labels_witness :
  exists doc,
    BearingReport.generatePDFReport Demo.env (Some Demo.pump)
      (Some Demo.bearingBare) Demo.twoBearings true = BearingReport.Saved doc
    /\ pageLabels doc = [ "Page: 1"; "Page: 2"; "Page: 3" ].
Proof.
  assert (Hwf : Forall (fun b => wfBearing b = true) Demo.twoBearings)
    by (repeat constructor).
  destruct (report_page_labels Demo.env Demo.pump (Some Demo.bearingBare)
              Demo.twoBearings true eq_refl eq_refl Hwf)
    as [doc [Hsaved [Hlabels Hpages]]].
  exists doc. split; [exact Hsaved|].
  rewrite Hlabels, Hpages. reflexivity.
Defined.

(** ** Headings of the gallery of the bearing report *)

Section GalleryHeadings.

Local Open Scope float_scope.

Variable E : Env.
Variable machineName : value.

Lemma headings_app (a b : list op) :
  Headings.headings (a ++ b) = Headings.headings a ++ Headings.headings b.
Proof. apply flat_map_app. Qed.

Lemma headings_header (logo : option string) (w mg : float) :
  Headings.headings (drawPageHeader logo machineName w mg) = [].
Proof.
  unfold drawPageHeader. destruct (truthy machineName), logo; reflexivity.
Qed.

Lemma headings_map_line {T} (f : T -> op) (l : list T) :
  (forall i, Headings.headingOf (f i) = None) ->
  Headings.headings (map f l) = [].
Proof.
  intros Hf. induction l as [|a l IH]; [reflexivity|].
  cbn [map Headings.headings flat_map]. rewrite Hf. exact IH.
Qed.

Lemma headings_chart (d : option (list point)) (x y w h : float)
    (axisLabel : string) (c : color) :
  Headings.headings
    (drawFFTChart d x y w h
       ("FFT Spectrum - Velocity > (" ++ axisLabel ++ "-Axis)") c) = [].
Proof.
  unfold drawFFTChart, horizontalGrid, verticalGrid.
  rewrite !headings_app.
  rewrite !headings_map_line by (intros i; reflexivity).
  assert (Hd : Headings.headings
                 match d with
                 | Some ((_ :: _) as data) => polyline data x y w h c
                 | _ => []
                 end = []).
  { destruct d as [[|p l]|]; try reflexivity.
    unfold polyline. rewrite headings_app.
    rewrite headings_map_line by (intros i; reflexivity). reflexivity. }
  rewrite Hd. reflexivity.
Qed.

Lemma headings_footer (k : nat) (w h mg : float) :
  Headings.headings (drawPageFooter k w h mg) = [].
Proof. reflexivity. Qed.

Lemma headings_panel (p : Bearing * axis) (c : nat) (y : float) :
  Headings.headings (Layout.bearingPanel E p c y) = [].
Proof.
  unfold Layout.bearingPanel. rewrite headings_app, headings_chart.
  reflexivity.
Qed.

Lemma headings_bearingPage (pn c : nat) (p1 : Bearing * axis)
    (rest : list (Bearing * axis)) :
  (List.length rest <= 1)%nat ->
  Headings.headings (Layout.bearingPage E machineName pn c (p1 :: rest))
  = [ "Bearing: " ++ Layout.labelOf (fst p1) ]%string.
Proof.
  intros Hrest.
  destruct rest as [|p2 [|p3 rest]]; [| |cbn in Hrest; lia];
    unfold Layout.bearingPage, Layout.bearingPageHead;
    rewrite !headings_app, !headings_panel, headings_footer, headings_header;
    cbn; destruct (Layout.labelOf (fst p1)); reflexivity.
Qed.

Lemma headings_bearing_pages (l : list (Bearing * axis)) :
  forall pn c,
    Headings.headings
      (Layout.pagesDrawing (Layout.bearingPage E machineName) pn c (pairUp l))
    = flat_map Headings.headingFor (pairUp l).
Proof.
  induction l as [|a|a b l IH] using pair_ind; intros pn c; [reflexivity| |];
    cbn [pairUp Layout.pagesDrawing flat_map];
    rewrite headings_app, headings_bearingPage by (cbn; lia).
  - reflexivity.
  - rewrite IH. reflexivity.
Qed.

(** X5: the heading of a gallery page of the bearing report names the
    bearing of the first panel of the page, also for the second panel.
    Bearings take three panels each and pages two, so of every two
    bearings the second has its H-axis spectrum on a page headed by the
    first: the pages of the bearings b0 and b1 are headed b0, b0, b1,
    the second of them showing the A-axis of b0 and the H-axis of b1. *)
Theorem gallery_headings :
  forall (bearings : list Bearing) (pn : nat) (y : float) (c : nat),
    Forall (fun b => wfBearing b = true) bearings ->
    Headings.headings
      (out (BearingReport.drawChartPages E machineName bearings
              {| BearingReport.chartIndex := 0%nat;
                 BearingReport.pageNum := pn;
                 BearingReport.yPos := y |} c))
    = flat_map Headings.headingFor (pairUp (panels bearings))
    /\ (forall b0 b1 rest,
          bearings = b0 :: b1 :: rest ->
          pairUp (panels bearings)
          = [ (b0, AxisH); (b0, AxisV) ]
            :: [ (b0, AxisA); (b1, AxisH) ]
            :: [ (b1, AxisV); (b1, AxisA) ]
            :: pairUp (panels rest)
          /\ flat_map Headings.headingFor (pairUp (panels bearings))
             = ("Bearing: " ++ Layout.labelOf b0)%string
               :: ("Bearing: " ++ Layout.labelOf b0)%string
               :: ("Bearing: " ++ Layout.labelOf b1)%string
               :: flat_map Headings.headingFor (pairUp (panels rest))).
Proof.
  intros bearings pn y c Hwf.
  split.
  - rewrite bearing_drawChartPages_flat by assumption.
    destruct (bearing_gallery_flat E machineName (List.length bearings * 3)%nat
                (panels bearings) 0%nat
                {| BearingReport.chartIndex := 0%nat;
                   BearingReport.pageNum := pn;
                   BearingReport.yPos := y |} c) as [st Hrun].
    + apply Forall_forall. intros [b ax] Hin.
      unfold panels in Hin. apply in_flat_map in Hin.
      destruct Hin as [b' [Hb' Hin]].
      apply in_map_iff in Hin. destruct Hin as [ax' [Heq _]].
      inversion Heq; subst. cbn [fst].
      rewrite Forall_forall in Hwf. auto.
    + reflexivity.
    + cbn [BearingReport.chartIndex]. rewrite panels_length. lia.
    + unfold runs in Hrun. rewrite Hrun. cbn [out].
      apply headings_bearing_pages.
  - intros b0 b1 rest ->. split; reflexivity.
Qed.

End GalleryHeadings.

Lemma gallery_headings_witness :
  Headings.headings
    (out (BearingReport.drawChartPages Demo.env (VStr "Pump-01/X")
            Demo.twoBearings Demo.galleryStart 0%nat))
  = [ "Bearing: B1"; "Bearing: B1"; "Bearing: B2" ].
Proof.
  assert (Hwf : Forall (fun b => wfBearing b = true) Demo.twoBearings)
    by (repeat constructor).
  destruct (gallery_headings Demo.env (VStr "Pump-01/X") Demo.twoBearings 2%nat
              111%float 0%nat Hwf) as [H _].
  exact H.
Defined.

(** ** Velocity zones, threshold charts and the canvas chart *)

Section FloatOrder.

Local Open Scope float_scope.

Lemma SFcompare_refl (x : spec_float) :
  x <> S754_nan -> SFcompare x x = Some Eq.
Proof.
  destruct x as [s|s| |s m e]; intros H; simpl;
    try reflexivity; try congruence.
  - destruct s; reflexivity.
  - rewrite Z.compare_refl, Pos.compare_cont_refl. destruct s; reflexivity.
Qed.

Lemma is_nan_Prim2SF (v : float) :
  is_nan v = true -> Prim2SF v = S754_nan.
Proof.
  unfold is_nan. rewrite FloatAxioms.eqb_spec. unfold SFeqb. intros H.
  destruct (Prim2SF v) as [s|s| |s m e]; [ | |reflexivity| ];
    match type of H with
    | context [SFcompare ?x ?x] =>
        rewrite (SFcompare_refl x) in H by discriminate
    end; discriminate.
Qed.

Lemma not_nan_Prim2SF (v : float) :
  is_nan v = false -> Prim2SF v <> S754_nan.
Proof.
  unfold is_nan. rewrite FloatAxioms.eqb_spec. unfold SFeqb. intros H Hv.
  rewrite Hv in H. discriminate.
Qed.

Lemma SFcompare_some (x y : spec_float) :
  x <> S754_nan -> y <> S754_nan -> exists c, SFcompare x y = Some c.
Proof.
  destruct x, y; intros Hx Hy; simpl; try congruence; eexists; reflexivity.
Qed.

Lemma SFcompare_none_l (x y : spec_float) :
  SFcompare x y <> None -> x <> S754_nan.
Proof. intros H ->. apply H. reflexivity. Qed.

Lemma SFcompare_none_r (x y : spec_float) :
  SFcompare x y <> None -> y <> S754_nan.
Proof. intros H ->. apply H. destruct x; reflexivity. Qed.

(** A comparison with [NaN] is false. *)
Lemma ltb_nan_r (c v : float) : is_nan v = true -> (c <? v) = false.
Proof.
  intros H. rewrite FloatAxioms.ltb_spec, (is_nan_Prim2SF v H). unfold SFltb.
  destruct (Prim2SF c); reflexivity.
Qed.

Lemma leb_nan_l (v c : float) : is_nan v = true -> (v <=? c) = false.
Proof.
  intros H. rewrite FloatAxioms.leb_spec, (is_nan_Prim2SF v H). reflexivity.
Qed.

Lemma leb_refl (v : float) : is_nan v = false -> (v <=? v) = true.
Proof.
  intros H. rewrite FloatAxioms.leb_spec. unfold SFleb.
  rewrite SFcompare_refl by (apply not_nan_Prim2SF; exact H). reflexivity.
Qed.

Lemma leb_is_nan (a b : float) :
  (a <=? b) = true -> is_nan a = false /\ is_nan b = false.
Proof.
  rewrite FloatAxioms.leb_spec. unfold SFleb. intros H.
  split.
  - destruct (is_nan a) eqn:Ha; [|reflexivity].
    rewrite (is_nan_Prim2SF a Ha) in H. discriminate.
  - destruct (is_nan b) eqn:Hb; [|reflexivity].
    rewrite (is_nan_Prim2SF b Hb) in H.
    destruct (Prim2SF a); discriminate.
Qed.

(** On numbers, [a < b] fails exactly when [b <= a]. *)
Lemma ltb_false_leb (a b : float) :
  is_nan a = false -> is_nan b = false -> (a <? b) = false -> (b <=? a) = true.
Proof.
  intros Ha Hb. rewrite FloatAxioms.ltb_spec, FloatAxioms.leb_spec. unfold SFltb, SFleb.
  rewrite (SFcompare_antisym (Prim2SF a) (Prim2SF b)).
  destruct (SFcompare_some (Prim2SF a) (Prim2SF b)) as [c ->];
    try (apply not_nan_Prim2SF; assumption).
  destruct c; simpl; congruence.
Qed.

Lemma leb_false_ltb (a b : float) :
  is_nan a = false -> is_nan b = false -> (a <=? b) = false -> (b <? a) = true.
Proof.
  intros Ha Hb. rewrite FloatAxioms.ltb_spec, FloatAxioms.leb_spec. unfold SFltb, SFleb.
  rewrite (SFcompare_antisym (Prim2SF a) (Prim2SF b)).
  destruct (SFcompare_some (Prim2SF a) (Prim2SF b)) as [c ->];
    try (apply not_nan_Prim2SF; assumption).
  destruct c; simpl; congruence.
Qed.

Lemma ltb_leb (a b : float) : (a <? b) = true -> (a <=? b) = true.
Proof.
  rewrite FloatAxioms.ltb_spec, FloatAxioms.leb_spec. unfold SFltb, SFleb.
  destruct (SFcompare (Prim2SF a) (Prim2SF b)) as [[]|]; congruence.
Qed.

(** Numbers that compare equal compare alike with a third. *)
Lemma SFcompare_eq_l (x y z : spec_float) :
  SFcompare x y = Some Eq -> SFcompare x z = SFcompare y z.
Proof.
  destruct x as [sx|sx| |sx mx ex], y as [sy|sy| |sy my ey]; simpl;
    try discriminate; try reflexivity;
    try (destruct sx; discriminate); try (destruct sy; discriminate).
  - destruct sx, sy; try discriminate; reflexivity.
  - intros H.
    assert (Hs : sx = sy /\ ex = ey /\ mx = my).
    { destruct sx, sy; try discriminate;
        destruct (Z.compare_spec ex ey) as [He|He|He]; try discriminate;
        (split; [reflexivity|split; [exact He|]]);
        apply Pos.compare_eq; unfold Pos.compare;
        destruct (Pos.compare_cont Eq mx my); simpl in H;
        try discriminate; reflexivity. }
    destruct Hs as [-> [-> ->]]. reflexivity.
Qed.

Lemma leb_trans (a b c : float) :
  (a <=? b) = true -> (b <=? c) = true -> (a <=? c) = true.
Proof.
  rewrite !FloatAxioms.leb_spec. unfold SFleb. intros H1 H2.
  destruct (SFcompare (Prim2SF a) (Prim2SF b)) as [[]|] eqn:Hab;
    try discriminate.
  - rewrite (SFcompare_eq_l _ _ _ Hab). exact H2.
  - rewrite (SFcompare_lt_le_trans _ _ _ Hab); [reflexivity|].
    destruct (SFcompare (Prim2SF b) (Prim2SF c)) as [[]|];
      try discriminate; auto.
Qed.

End FloatOrder.

Section VelocityZones.

Local Open Scope float_scope.

(** X6: a velocity text that does not parse as a number ([parseFloat]
    gives [NaN]) is coloured green, like the lowest readings: every
    comparison with [NaN] is false. *)
Theorem getVelocityColor_unparsed_is_green :
  forall (E : Env) (vel : value),
    is_nan (parseFloat E (ToString E vel)) = true ->
    getVelocityColor E vel = (16, 185, 129)%Z.
Proof.
  intros E vel H. unfold getVelocityColor.
  rewrite !(ltb_nan_r _ _ H). reflexivity.
Qed.

Lemma getVelocityColor_unparsed_is_green_witness :
  getVelocityColor (Demo.envReading nan) (VStr "n/a") = (16, 185, 129)%Z.
Proof.
  apply (getVelocityColor_unparsed_is_green (Demo.envReading nan) (VStr "n/a")).
  reflexivity.
Defined.

(** X7: in the threshold chart of the three-page report the colour of
    a cell never gets less severe as the velocity grows, whatever the
    thresholds of the group: green, yellow, orange, red in this order. *)
Theorem zoneOf_monotone :
  forall (g : ThresholdChart.group) (v w : float),
    (v <=? w) = true ->
    (ThresholdChart.rank (ThresholdChart.zoneOf g v)
     <= ThresholdChart.rank (ThresholdChart.zoneOf g w))%nat.
Proof.
  intros g v w Hvw. unfold ThresholdChart.zoneOf.
  assert (Hle : forall t, (w <=? t) = true -> (v <=? t) = true)
    by (intros t; apply leb_trans; exact Hvw).
  destruct (w <=? ThresholdChart.threshold g 0) eqn:W0.
  { rewrite (Hle _ W0). cbn. lia. }
  destruct (w <=? ThresholdChart.threshold g 1) eqn:W1.
  { rewrite (Hle _ W1).
    destruct (v <=? ThresholdChart.threshold g 0); cbn; lia. }
  destruct (w <=? ThresholdChart.threshold g 2) eqn:W2.
  { rewrite (Hle _ W2).
    destruct (v <=? ThresholdChart.threshold g 0),
             (v <=? ThresholdChart.threshold g 1); cbn; lia. }
  destruct (v <=? ThresholdChart.threshold g 0),
           (v <=? ThresholdChart.threshold g 1),
           (v <=? ThresholdChart.threshold g 2); cbn; lia.
Qed.

Lemma zoneOf_monotone_witness :
  (ThresholdChart.rank (ThresholdChart.zoneOf (ThresholdChart.groupAt 2) 3%float)
   <= ThresholdChart.rank
        (ThresholdChart.zoneOf (ThresholdChart.groupAt 2) 8%float))%nat.
Proof.
  apply (zoneOf_monotone (ThresholdChart.groupAt 2) 3 8). reflexivity.
Defined.



End VelocityZones.

Section ThresholdCharts.

Local Open Scope float_scope.

Lemma below_forallb (n : nat) (P : nat -> bool) :
  forallb P (seq 0 n) = true -> forall k, (k < n)%nat -> P k = true.
Proof.
  intros H k Hk. rewrite forallb_forall in H. apply H.
  apply in_seq. lia.
Qed.

(** X9: the two threshold charts label their rows alike, 11 mm/s at
    the top and 0.71 mm/s at the bottom, and colour them in opposite
    directions.  In the three-page report the colour of a column never
    gets more severe from a row to a lower one, and the top row is red
    or orange; in the machine vibration report ([ChartsSection.jsx])
    the colour of a column never gets less severe from a row to a lower
    one, and the top row, 11 mm/s, is green in all eight columns. *)
Theorem threshold_charts_orientation :
  ThresholdTable.velocityLevels = ThresholdChart.velocityLevels
  /\ (forall g r1 r2 : nat,
        (g < 4)%nat -> (r1 <= r2)%nat -> (r2 < 8)%nat ->
        (ThresholdChart.rank
           (ThresholdChart.zoneOf (ThresholdChart.groupAt g)
              (ThresholdChart.levelAt r2))
         <= ThresholdChart.rank
              (ThresholdChart.zoneOf (ThresholdChart.groupAt g)
                 (ThresholdChart.levelAt r1)))%nat)
  /\ (forall g : nat,
        (g < 4)%nat ->
        (2 <= ThresholdChart.rank
                (ThresholdChart.zoneOf (ThresholdChart.groupAt g)
                   (ThresholdChart.levelAt 0)))%nat)
  /\ (forall col r1 r2 : nat,
        (col < 8)%nat -> (r1 <= r2)%nat -> (r2 < 8)%nat ->
        (ThresholdTable.rankOfColor (ThresholdTable.cellColor col r1)
         <= ThresholdTable.rankOfColor (ThresholdTable.cellColor col r2))%nat)
  /\ (forall col row : nat,
        (col < 8)%nat -> (row < 8)%nat ->
        exists z,
          ThresholdTable.zoneOfColor (ThresholdTable.cellColor col row) = Some z)
  /\ (forall col : nat,
        (col < 8)%nat ->
        ThresholdTable.cellColor col 0
        = ThresholdChart.colors ThresholdChart.Green).
Proof.
  split; [reflexivity|].
  split.
  { intros g r1 r2 Hg H12 H2.
    assert (H : forallb
                  (fun g =>
                     forallb
                       (fun r2 =>
                          forallb
                            (fun r1 =>
                               (ThresholdChart.rank
                                  (ThresholdChart.zoneOf
                                     (ThresholdChart.groupAt g)
                                     (ThresholdChart.levelAt r2))
                                <=? ThresholdChart.rank
                                      (ThresholdChart.zoneOf
                                         (ThresholdChart.groupAt g)
                                         (ThresholdChart.levelAt r1)))%nat)
                            (seq 0 (S r2)))
                       (seq 0 8))
                  (seq 0 4) = true) by (vm_compute; reflexivity).
    pose proof (below_forallb _ _ H g Hg) as Hrow. cbv beta in Hrow.
    pose proof (below_forallb _ _ Hrow r2 H2) as Hr. cbv beta in Hr.
    apply Nat.leb_le.
    exact (below_forallb _ _ Hr r1 ltac:(lia)). }
  split.
  { intros g Hg.
    assert (H : forallb
                  (fun g =>
                     (2 <=? ThresholdChart.rank
                              (ThresholdChart.zoneOf (ThresholdChart.groupAt g)
                                 (ThresholdChart.levelAt 0)))%nat)
                  (seq 0 4) = true) by (vm_compute; reflexivity).
    apply Nat.leb_le. exact (below_forallb _ _ H g Hg). }
  split.
  { intros col r1 r2 Hc H12 H2.
    assert (H : forallb
                  (fun col =>
                     forallb
                       (fun r2 =>
                          forallb
                            (fun r1 =>
                               (ThresholdTable.rankOfColor
                                  (ThresholdTable.cellColor col r1)
                                <=? ThresholdTable.rankOfColor
                                      (ThresholdTable.cellColor col r2))%nat)
                            (seq 0 (S r2)))
                       (seq 0 8))
                  (seq 0 8) = true) by (vm_compute; reflexivity).
    pose proof (below_forallb _ _ H col Hc) as Hrow. cbv beta in Hrow.
    pose proof (below_forallb _ _ Hrow r2 H2) as Hr. cbv beta in Hr.
    apply Nat.leb_le.
    exact (below_forallb _ _ Hr r1 ltac:(lia)). }
  split.
  { intros col row Hc Hr.
    assert (H : forallb
                  (fun col =>
                     forallb
                       (fun row =>
                          match ThresholdTable.zoneOfColor
                                  (ThresholdTable.cellColor col row) with
                          | Some _ => true
                          | None => false
                          end)
                       (seq 0 8))
                  (seq 0 8) = true) by (vm_compute; reflexivity).
    pose proof (below_forallb _ _ H col Hc) as Hrow. cbv beta in Hrow.
    pose proof (below_forallb _ _ Hrow row Hr) as Hz. cbv beta in Hz.
    destruct (ThresholdTable.zoneOfColor (ThresholdTable.cellColor col row))
      as [z|]; [exists z; reflexivity|discriminate]. }
  intros col Hc.
  do 8 (destruct col as [|col]; [reflexivity|]). lia.
Qed.

End ThresholdCharts.

Section ModalScales.

Local Open Scope float_scope.

Lemma max2_not_nan (a b : float) :
  is_nan a = false -> is_nan b = false -> is_nan (max2 a b) = false.
Proof.
  intros Ha Hb. unfold max2. rewrite Ha, Hb. cbn [orb].
  destruct (a <? b); assumption.
Qed.

Lemma fold_max2_not_nan (l : list float) :
  Forall (fun x => is_nan x = false) l ->
  forall acc, is_nan acc = false -> is_nan (fold_left max2 l acc) = false.
Proof.
  induction 1 as [|x l Hx Hl IH]; intros acc Hacc; cbn [fold_left];
    [exact Hacc|].
  apply IH. apply max2_not_nan; assumption.
Qed.

(** [Math.max(...numbers, k)] is a number, and at least [k]. *)
Lemma Math_max_floor (l : list float) (k : float) :
  Forall (fun x => is_nan x = false) l -> is_nan k = false ->
  (k <=? Math_max (l ++ [k])) = true.
Proof.
  intros Hl Hk. unfold Math_max. rewrite fold_left_app. cbn [fold_left].
  pose proof (fold_max2_not_nan l Hl neg_infinity eq_refl) as Hr.
  set (r := fold_left max2 l neg_infinity) in *.
  unfold max2. rewrite Hr, Hk. cbn [orb].
  destruct (r <? k) eqn:Hlt.
  - apply leb_refl. exact Hk.
  - apply ltb_false_leb; assumption.
Qed.

Lemma or_zero_not_nan (n : float) : is_nan (FFTModal.or_zero n) = false.
Proof.
  unfold FFTModal.or_zero, truthy.
  destruct (n =? 0); cbn [orb negb]; [reflexivity|].
  destruct (is_nan n) eqn:Hn; cbn [negb]; [reflexivity|exact Hn].
Qed.

Lemma above_positive_nonzero (k x : float) :
  (0 <? k) = true -> (k <=? x) = true -> (x =? 0) = false.
Proof.
  intros Hk Hx. pose proof (ltb_leb_trans 0 k x Hk Hx) as H.
  rewrite FloatAxioms.ltb_spec in H. rewrite FloatAxioms.eqb_spec.
  unfold SFltb in H. unfold SFeqb.
  rewrite (SFcompare_antisym (Prim2SF 0) (Prim2SF x)).
  destruct (SFcompare (Prim2SF 0) (Prim2SF x)) as [[]|]; try discriminate.
  reflexivity.
Qed.

(** X10: whatever the samples hold (zeros, [NaN], missing fields), the
    canvas chart scales frequencies by a number that is at least 1000
    and amplitudes by a number that is at least 0.5: neither scale is 0
    or [NaN], so no sample is placed by a division by zero. *)
Theorem modal_scales_floor :
  forall data : list FFTModal.sample,
    (1000 <=? FFTModal.maxFreqOf data) = true
    /\ (0.5 <=? FFTModal.maxAmplitudeOf data) = true
    /\ (FFTModal.maxFreqOf data =? 0) = false
    /\ (FFTModal.maxAmplitudeOf data =? 0) = false
    /\ is_nan (FFTModal.maxFreqOf data) = false
    /\ is_nan (FFTModal.maxAmplitudeOf data) = false.
Proof.
  intros data.
  assert (HF : (1000 <=? FFTModal.maxFreqOf data) = true).
  { unfold FFTModal.maxFreqOf. apply Math_max_floor; [|reflexivity].
    apply Forall_forall. intros x Hx. apply in_map_iff in Hx.
    destruct Hx as [d [<- _]]. apply or_zero_not_nan. }
  assert (HA : (0.5 <=? FFTModal.maxAmplitudeOf data) = true).
  { unfold FFTModal.maxAmplitudeOf. apply Math_max_floor; [|reflexivity].
    apply Forall_forall. intros x Hx. apply in_map_iff in Hx.
    destruct Hx as [d [<- _]]. apply or_zero_not_nan. }
  split; [exact HF|]. split; [exact HA|].
  split; [exact (above_positive_nonzero 1000 _ eq_refl HF)|].
  split; [exact (above_positive_nonzero 0.5 _ eq_refl HA)|].
  split; [apply (leb_is_nan _ _ HF)|apply (leb_is_nan _ _ HA)].
Qed.

End ModalScales.

Section ModalSamples.

Local Open Scope float_scope.

Variable E : Env.

Lemma modal_samples_from :
  forall (len k : nat) (acc : list FFTModal.sample) (c j : nat),
    forEachFrom j (seq k len) acc
      (fun data i _ =>
         r <- random E ;; ret (data ++ [ ModalData.mockSample i r ])) c
    = {| val := Ok (acc ++ map (fun i => ModalData.mockSample i
                                            (rand E (c + (i - k))))
                               (seq k len));
         out := [];
         cnt := (c + len)%nat |}.
Proof.
  induction len as [|len IH]; intros k acc c j.
  - cbn. rewrite app_nil_r, Nat.add_0_r. reflexivity.
  - cbn [seq forEachFrom]. unfold bind at 1.
    cbn [bind random ret val out cnt].
    rewrite IH. cbn [val out cnt app map].
    rewrite <- app_assoc. cbn [app].
    replace (k - k)%nat with 0%nat by lia. rewrite Nat.add_0_r.
    f_equal; [|lia]. do 3 f_equal.
    apply map_ext_in. intros i Hi. apply in_seq in Hi.
    do 2 f_equal. lia.
Qed.


End ModalSamples.

Section Classification.

(** X12: [getStatusSeverity] throws exactly on a status that is truthy
    and not a string (a non-zero number, [true]); on every other value,
    strings of any kind and the falsy values, it returns a severity. *)
Theorem getStatusSeverity_throws_iff :
  forall v : value,
    (getStatusSeverity v = Throw (TypeError "toLowerCase is not a function")
     <-> truthy v = true /\ (forall s, v <> VStr s))
    /\ ((exists sev, getStatusSeverity v = Ok sev)
        <-> truthy v = false \/ (exists s, v = VStr s)).
Proof.
  intros v. unfold getStatusSeverity, or_else.
  destruct v as [| |s|n|b]; cbn [truthy toLowerCase].
  - split; split; try (intros [H _]; discriminate); try discriminate; eauto.
  - split; split; try (intros [H _]; discriminate); try discriminate; eauto.
  - destruct (negb (String.eqb s "")); cbn [toLowerCase]; split; split;
      try discriminate; eauto;
      intros [_ H]; exfalso; exact (H s eq_refl).
  - destruct (negb ((n =? 0)%float || is_nan n)); cbn [toLowerCase]; split;
      split; try discriminate; eauto;
      try (intros [H _]; discriminate);
      try (intros _; split; [reflexivity|intros s; discriminate]);
      try (intros [e H]; discriminate);
      try (intros [H|[s H]]; discriminate).
  - destruct b; cbn [toLowerCase]; split; split; try discriminate; eauto;
      try (intros [H _]; discriminate);
      try (intros _; split; [reflexivity|intros s; discriminate]);
      try (intros [e H]; discriminate);
      try (intros [H|[s H]]; discriminate).
Qed.

End Classification.

Section SafeNames.

Lemma fileChar_underscore : BearingReport.fileChar "_"%char = false.
Proof. reflexivity. Qed.

(** X13: the sanitized machine name of the file name is made of letters,
    digits, parentheses, hyphens and underscores only; sanitizing is
    idempotent, and leaves a name made of the safe characters as it
    is. *)
Theorem sanitize_safe_idempotent :
  forall s : string,
    allChars nameChar (BearingReport.sanitize s) = true
    /\ BearingReport.sanitize (BearingReport.sanitize s)
       = BearingReport.sanitize s
    /\ (allChars BearingReport.fileChar s = true ->
        BearingReport.sanitize s = s).
Proof.
  intros s. unfold BearingReport.sanitize.
  induction s as [|c s [IH1 [IH2 IH3]]]; [repeat split|].
  cbn [map_chars allChars].
  split; [|split].
  - rewrite IH1, andb_true_r. unfold nameChar.
    destruct (BearingReport.fileChar c) eqn:Hc; [rewrite Hc|]; reflexivity.
  - rewrite IH2. f_equal.
    destruct (BearingReport.fileChar c) eqn:Hc; [rewrite Hc|]; reflexivity.
  - intros H. apply andb_prop in H. destruct H as [Hc Hs].
    rewrite Hc, (IH3 Hs). reflexivity.
Qed.

End SafeNames.

(** ** The machine reports: generated data and file names *)

Section MockGallery.

Local Open Scope float_scope.

Variable E : Env.
Variable m : Machine.

#[local] Hint Resolve machine_series_run : runs.

Lemma mockBearing_fields (name : string) (c : nat) :
  exists b,
    runs (MachineReport.mockBearing E m name) c b [] (c + 612)%nat
    /\ MachineReport.bearingName b = name
    /\ MachineReport.date b = or_else (m_date m) (VStr (isoDate E)).
Proof.
  eexists. split; [|split].
  - unfold MachineReport.mockBearing, MachineReport.mockMetric.
    eapply runs_conv; [run_all|reflexivity|reflexivity|lia].
  - reflexivity.
  - reflexivity.
Qed.

Lemma mockBearings_fields (l : list string) :
  forall (acc : list MachineReport.bearingData) (i c : nat),
    Forall (fun b => MachineReport.date b
                     = or_else (m_date m) (VStr (isoDate E))) acc ->
    exists bd,
      runs (forEachFrom i l acc
              (fun acc bearingName _ =>
                 b <- MachineReport.mockBearing E m bearingName ;;
                 ret (acc ++ [b]))) c bd [] (c + 612 * List.length l)%nat
      /\ map MachineReport.bearingName bd
         = map MachineReport.bearingName acc ++ l
      /\ Forall (fun b => MachineReport.date b
                          = or_else (m_date m) (VStr (isoDate E))) bd.
Proof.
  induction l as [|name l IH]; intros acc i c Hacc.
  - exists acc. split; [|split; [rewrite app_nil_r; reflexivity|exact Hacc]].
    cbn [forEachFrom List.length]. rewrite Nat.mul_0_r, Nat.add_0_r.
    apply runs_ret.
  - destruct (mockBearing_fields name c) as [b [Hb [Hname Hdate]]].
    destruct (IH (acc ++ [b]) (S i) (c + 612)%nat) as [bd [Hrun [Hnames Hdates]]].
    { apply Forall_app. split; [exact Hacc|]. constructor; [exact Hdate|].
      constructor. }
    exists bd. split; [|split; [|exact Hdates]].
    + cbn [forEachFrom].
      eapply runs_conv;
        [eapply runs_bind;
         [eapply runs_bind; [exact Hb|apply runs_ret]|exact Hrun]
        |reflexivity|reflexivity|cbn [List.length]; lia].
    + rewrite Hnames, map_app, <- app_assoc. cbn [map app]. rewrite Hname.
      reflexivity.
Qed.

(** X14: whatever the machine and the environment, the machine vibration
    report is drawn from generated data: four bearings, "Motor DE",
    "Motor NDE", "Pump DE" and "Pump NDE", dated by the machine's date
    or else today, for which 2448 random numbers are drawn; its chart
    gallery never fails and always has 6 pages. *)
Theorem machine_report_gallery :
  forall (c pn : nat) (y : float),
    exists bd,
      runs (MachineReport.generateMockBearingData E m) c bd [] (c + 2448)%nat
      /\ map MachineReport.bearingName bd
         = [ "Motor DE"; "Motor NDE"; "Pump DE"; "Pump NDE" ]%string
      /\ Forall (fun b => MachineReport.date b
                          = or_else (m_date m) (VStr (isoDate E))) bd
      /\ (exists st,
            val (MachineReport.drawChartPages E m bd
                   {| MachineReport.chartIndex := 0%nat;
                      MachineReport.pageNum := pn;
                      MachineReport.yPos := y |} (c + 2448)%nat) = Ok st)
      /\ pagesAdded
           (out (MachineReport.drawChartPages E m bd
                   {| MachineReport.chartIndex := 0%nat;
                      MachineReport.pageNum := pn;
                      MachineReport.yPos := y |} (c + 2448)%nat)) = 6%nat.
Proof.
  intros c pn y.
  destruct (mockBearings_fields MachineReport.mockBearingNames [] 0 c
              (Forall_nil _)) as [bd [Hrun [Hnames Hdates]]].
  exists bd.
  assert (Hlen : List.length bd = 4%nat).
  { rewrite <- (length_map MachineReport.bearingName), Hnames. reflexivity. }
  split; [exact Hrun|]. split; [exact Hnames|]. split; [exact Hdates|].
  destruct (machine_gallery_flat E m (List.length bd * 3)%nat (panels bd) 0%nat
              {| MachineReport.chartIndex := 0%nat;
                 MachineReport.pageNum := pn;
                 MachineReport.yPos := y |} (c + 2448)%nat)
    as [st Hst].
  { reflexivity. }
  { cbn [MachineReport.chartIndex]. rewrite panels_length. lia. }
  unfold MachineReport.drawChartPages, forEach.
  rewrite (forEach_axes_flat
             (fun st b ax =>
                MachineReport.drawChartPanel E m b (List.length bd * 3) st ax)
             bd 0%nat 0%nat).
  rewrite Hst. cbn [val out].
  split; [eauto|].
  rewrite pagesAdded_machine_pages, pairUp_length, panels_length, Hlen.
  reflexivity.
Qed.

End MockGallery.

Section MachineReportNames.

Lemma sanitizeStrict_absorbs (s : string) :
  ReportNames.sanitizeStrict (BearingReport.sanitize s)
  = ReportNames.sanitizeStrict s.
Proof.
  unfold ReportNames.sanitizeStrict, BearingReport.sanitize.
  induction s as [|c s IH]; [reflexivity|].
  cbn [map_chars]. rewrite IH. f_equal.
  assert (Hf : ReportNames.alnum c = true -> BearingReport.fileChar c = true).
  { unfold BearingReport.fileChar, ReportNames.alnum. intros ->. reflexivity. }
  destruct (ReportNames.alnum c) eqn:Ha.
  - rewrite (Hf eq_refl), Ha. reflexivity.
  - destruct (BearingReport.fileChar c); [rewrite Ha|]; reflexivity.
Qed.

(** X15: the file names of the two machine reports.  Both name the file
    after [machineName], else [machineId], else "Machine" (never after
    [name], which the page header falls back to), with the unsafe
    characters replaced by underscores; the three-page report also
    replaces parentheses and hyphens, so its name is the sanitized form
    of the other one. *)
Theorem machine_report_file_names :
  forall (E : Env) (m : Machine),
    stringOrFalsy (m_machineName m) = true ->
    stringOrFalsy (m_machineId m) = true ->
    exists name,
      ReportNames.nameOf m = VStr name
      /\ ReportNames.vibrationReportName E m
         = Ok ("Report_" ++ BearingReport.sanitize name ++ "_" ++ isoDate E
               ++ ".pdf")%string
      /\ ReportNames.threePageReportName E m
         = Ok ("Report_"
               ++ ReportNames.sanitizeStrict (BearingReport.sanitize name)
               ++ "_" ++ isoDate E ++ ".pdf")%string
      /\ (truthy (m_machineName m) = true -> m_machineName m = VStr name)
      /\ (truthy (m_machineName m) = false -> truthy (m_machineId m) = true ->
          m_machineId m = VStr name)
      /\ (truthy (m_machineName m) = false -> truthy (m_machineId m) = false ->
          name = "Machine").
Proof.
  intros E m Hn Hi.
  destruct (or_else_string (or_else (m_machineName m) (m_machineId m))
              (VStr "Machine")) as [name Hname];
    [apply or_else_stringOrFalsy; assumption|eauto|].
  exists name. split; [exact Hname|].
  unfold ReportNames.vibrationReportName, ReportNames.threePageReportName,
    ReportNames.nameOf.
  rewrite Hname. cbn [BearingReport.replaceUnsafe].
  rewrite sanitizeStrict_absorbs.
  split; [reflexivity|]. split; [reflexivity|].
  split; [|split].
  - intros Ht. rewrite (or_else_truthy _ _ Ht) in Hname.
    rewrite (or_else_truthy _ _ Ht) in Hname. exact Hname.
  - intros Hf Ht. rewrite (or_else_falsy _ _ Hf) in Hname.
    rewrite (or_else_truthy _ _ Ht) in Hname. exact Hname.
  - intros Hf1 Hf2. rewrite (or_else_falsy _ _ Hf1) in Hname.
    rewrite (or_else_falsy _ _ Hf2) in Hname. congruence.
Qed.

Lemma machine_report_file_names_witness :
  ReportNames.vibrationReportName Demo.env
    (Demo.machineWith (VStr "Fan (A)") VUndefined)
  = Ok "Report_M1_2024-06-01.pdf"
  /\ ReportNames.threePageReportName Demo.env
       (Demo.machineWith (VStr "Fan (A)") VUndefined)
     = Ok "Report_M1_2024-06-01.pdf".
Proof.
  destruct (machine_report_file_names Demo.env
              (Demo.machineWith (VStr "Fan (A)") VUndefined) eq_refl eq_refl)
    as [name [Hname [Hv [Ht _]]]].
  assert (name = "M1") by (cbv in Hname; congruence). subst name.
  split; [rewrite Hv|rewrite Ht]; reflexivity.
Defined.

End MachineReportNames.

(** ** The spectrum shown on a failed fetch, and the customer series *)

Section DetailMock.

Local Open Scope float_scope.

Variable E : Env.

Lemma detail_samples_from :
  forall (len k : nat) (acc : list FFTModal.sample) (c j : nat),
    forEachFrom j (seq k len) acc
      (fun data i _ =>
         r <- random E ;; ret (data ++ [ DetailPage.mockSample i r ])) c
    = {| val := Ok (acc ++ map (fun i => DetailPage.mockSample i
                                            (rand E (c + (i - k))))
                               (seq k len));
         out := [];
         cnt := (c + len)%nat |}.
Proof.
  induction len as [|len IH]; intros k acc c j.
  - cbn. rewrite app_nil_r, Nat.add_0_r. reflexivity.
  - cbn [seq forEachFrom]. unfold bind at 1.
    cbn [bind random ret val out cnt].
    rewrite IH. cbn [val out cnt app map].
    rewrite <- app_assoc. cbn [app].
    replace (k - k)%nat with 0%nat by lia. rewrite Nat.add_0_r.
    f_equal; [|lia]. do 3 f_equal.
    apply map_ext_in. intros i Hi. apply in_seq in Hi.
    do 2 f_equal. lia.
Qed.

(** X16: when the fetch of a bearing's spectrum fails, the chart shows
    the 200 samples [MachineDetail] generates (peaks at 50, 100 and
    150 Hz), as they are: the chart's own generator (which adds a peak
    at 180 Hz) is not run and draws no random number. *)
Theorem fetch_failure_spectrum :
  forall c : nat,
    exists data,
      runs (DetailPage.generateMockFFTData E) c
           (ModalData.PropObject (ModalData.FieldArray data)) [] (c + 200)%nat
      /\ data = map (fun i => DetailPage.mockSample i (rand E (c + i)))
                    (seq 0 200)
      /\ (forall c', runs (ModalData.chartData E
                             (ModalData.PropObject (ModalData.FieldArray data)))
                          c' data [] c')
      /\ (forall r,
            FFTModal.amplitude (DetailPage.mockSample 36 r) = r * 0.02
            /\ FFTModal.amplitude (ModalData.mockSample 36 r) = r * 0.02 + 0.05).
Proof.
  intros c.
  exists (map (fun i => DetailPage.mockSample i (rand E (c + i))) (seq 0 200)).
  split; [|split; [reflexivity|split]].
  - unfold DetailPage.generateMockFFTData, forEach, runs, bind.
    rewrite detail_samples_from. cbn [val out cnt app ret].
    rewrite (map_ext (fun i => DetailPage.mockSample i (rand E (c + (i - 0))))
                     (fun i => DetailPage.mockSample i (rand E (c + i))))
      by (intros i; rewrite Nat.sub_0_r; reflexivity).
    reflexivity.
  - intros c'. unfold ModalData.chartData. cbv zeta.
    cbn [ModalData.selectData].
    rewrite length_map, length_seq. cbn [Nat.eqb]. apply runs_ret.
  - intros r. split; reflexivity.
Qed.

End DetailMock.

Section CustomerSeries.

Lemma addKey_nodup (keys : list string) (key : string) :
  NoDup keys -> NoDup (TrendCharts.addKey keys key).
Proof.
  intros H. unfold TrendCharts.addKey.
  destruct (negb (String.eqb key "date")); [|exact H].
  destruct (existsb (String.eqb key) keys) eqn:Hex; [exact H|].
  apply NoDup_app; [exact H|constructor; [intros []|constructor]|].
  intros k Hk [->|[]].
  assert (existsb (String.eqb k) keys = true).
  { apply existsb_exists. exists k. split; [exact Hk|apply String.eqb_refl]. }
  congruence.
Qed.

Lemma addKey_in (keys : list string) (key k : string) :
  In k (TrendCharts.addKey keys key)
  <-> In k keys \/ (k = key /\ key <> "date").
Proof.
  unfold TrendCharts.addKey.
  destruct (String.eqb_spec key "date") as [->|Hd]; cbn [negb].
  - split; [auto|]. intros [H|[_ H]]; [exact H|contradiction].
  - destruct (existsb (String.eqb key) keys) eqn:Hex.
    + split; [auto|]. intros [H|[-> _]]; [exact H|].
      apply existsb_exists in Hex. destruct Hex as [x [Hx Hkx]].
      apply String.eqb_eq in Hkx. subst x. exact Hx.
    + rewrite in_app_iff. cbn [In]. split.
      * intros [H|[<-|[]]]; auto.
      * intros [H|[-> _]]; auto.
Qed.

Lemma addKeys_spec (ks : list string) :
  forall keys,
    NoDup keys ->
    NoDup (fold_left TrendCharts.addKey ks keys)
    /\ (forall k, In k (fold_left TrendCharts.addKey ks keys)
                  <-> In k keys \/ (In k ks /\ k <> "date")).
Proof.
  induction ks as [|key ks IH]; intros keys Hnd; cbn [fold_left].
  - split; [exact Hnd|]. intros k. cbn [In]. tauto.
  - destruct (IH _ (addKey_nodup keys key Hnd)) as [H1 H2].
    split; [exact H1|]. intros k. rewrite H2, addKey_in. cbn [In].
    split.
    + intros [[H|[-> H]]|[H Hd]]; auto.
    + intros [H|[[<-|H] Hd]]; auto.
Qed.

Lemma items_spec (items : list TrendCharts.item) :
  forall keys,
    NoDup keys ->
    NoDup (fold_left (fun keys it => fold_left TrendCharts.addKey (map fst it) keys)
                     items keys)
    /\ (forall k,
          In k (fold_left (fun keys it =>
                             fold_left TrendCharts.addKey (map fst it) keys)
                          items keys)
          <-> In k keys
              \/ ((exists it, In it items /\ In k (map fst it)) /\ k <> "date")).
Proof.
  induction items as [|it items IH]; intros keys Hnd; cbn [fold_left].
  - split; [exact Hnd|]. intros k. split; [auto|].
    intros [H|[[it [[] _]] _]]. exact H.
  - destruct (addKeys_spec (map fst it) keys Hnd) as [N1 K1].
    destruct (IH _ N1) as [N2 K2].
    split; [exact N2|]. intros k. rewrite K2, K1. split.
    + intros [[H|[H Hd]]|[[it' [Hin Hk]] Hd]]; auto.
      * right. split; [|exact Hd]. exists it. split; [left; reflexivity|exact H].
      * right. split; [|exact Hd]. exists it'. split; [right; exact Hin|exact Hk].
    + intros [H|[[it' [[<-|Hin] Hk]] Hd]]; auto.
      right. split; [|exact Hd]. exists it'. auto.
Qed.

Lemma string_length_append (s t : string) :
  String.length (s ++ t)%string = (String.length s + String.length t)%nat.
Proof.
  induction s as [|a s IH]; [reflexivity|].
  cbn [String.append String.length]. rewrite IH. reflexivity.
Qed.

Lemma substring0_length (n : nat) (s : string) :
  (String.length (String.substring 0 n s) <= n)%nat.
Proof.
  revert s. induction n as [|n IHn]; intros [|a s]; cbn; try lia.
  specialize (IHn s). lia.
Qed.

(** X17: the customer series of the trend chart.  [customerKeys] lists
    each key of the items other than "date" once, and nothing else; the
    colour of a series is always one of the ten of the palette, taken in
    turn; and a legend label has at most 12 characters: a longer
    identifier is cut to its first 8 characters and "...". *)
Theorem customer_series :
  forall (data : option (list TrendCharts.item)),
    NoDup (TrendCharts.customerKeys data)
    /\ (forall k,
          In k (TrendCharts.customerKeys data)
          <-> (exists items it,
                 data = Some items /\ In it items /\ In k (map fst it))
              /\ k <> "date")
    /\ (forall index,
          exists color,
            TrendCharts.colorOf index = Some color
            /\ TrendCharts.colorOf (index + 10) = Some color)
    /\ (forall value,
          (String.length (TrendCharts.legendLabel value) <= 12)%nat
          /\ ((String.length value <= 12)%nat ->
              TrendCharts.legendLabel value = value)
          /\ ((12 < String.length value)%nat ->
              TrendCharts.legendLabel value
              = (String.substring 0 8 value ++ "...")%string)).
Proof.
  intros data.
  assert (Hkeys : NoDup (TrendCharts.customerKeys data)
                  /\ (forall k,
                        In k (TrendCharts.customerKeys data)
                        <-> (exists items it,
                               data = Some items /\ In it items
                               /\ In k (map fst it))
                            /\ k <> "date")).
  { destruct data as [[|it items]|]; cbn [TrendCharts.customerKeys].
    - split; [constructor|]. intros k. split; [intros []|].
      intros [[items [it [H [Hin _]]]] _]. inversion H; subst. destruct Hin.
    - destruct (items_spec (it :: items) [] (NoDup_nil _)) as [N K].
      split; [exact N|]. intros k. rewrite K. split.
      + intros [[]|[[it' [Hin Hk]] Hd]]. split; [|exact Hd].
        exists (it :: items), it'. auto.
      + intros [[items' [it' [Heq [Hin Hk]]]] Hd]. right.
        inversion Heq; subst. split; [|exact Hd]. exists it'. auto.
    - split; [constructor|]. intros k. split; [intros []|].
      intros [[items [it [H _]]] _]. discriminate. }
  destruct Hkeys as [N K].
  split; [exact N|]. split; [exact K|]. split.
  - intros index. unfold TrendCharts.colorOf.
    change (List.length TrendCharts.CUSTOMER_COLORS) with 10%nat.
    replace ((index + 10) mod 10)%nat with (index mod 10)%nat
      by (rewrite <- (Nat.Div0.add_mod_idemp_r index 10 10);
          rewrite Nat.Div0.mod_same, Nat.add_0_r; reflexivity).
    pose proof (Nat.mod_upper_bound index 10 ltac:(lia)) as Hlt.
    destruct (nth_error TrendCharts.CUSTOMER_COLORS (index mod 10)) as [c|] eqn:Hc.
    + exists c. split; reflexivity.
    + apply nth_error_None in Hc.
      change (List.length TrendCharts.CUSTOMER_COLORS) with 10%nat in Hc. lia.
  - intros value. unfold TrendCharts.legendLabel.
    destruct (12 <? String.length value)%nat eqn:Hlen.
    + apply Nat.ltb_lt in Hlen. split; [|split; [lia|reflexivity]].
      rewrite string_length_append.
      pose proof (substring0_length 8 value). cbn [String.length]. lia.
    + apply Nat.ltb_ge in Hlen. split; [exact Hlen|]. split; [reflexivity|lia].
Qed.

End CustomerSeries.

(** ** Pages of the machine table *)

Section TablePagination.

Local Open Scope Z_scope.

Lemma chunks_concat {A} :
  forall (k : nat) (l : list A),
    (List.length l <= 10 * k)%nat ->
    List.concat (map (fun p => firstn 10 (skipn (10 * p) l)) (seq 0 k)) = l.
Proof.
  induction k as [|k IH]; intros l Hl.
  - destruct l; [reflexivity|cbn in Hl; lia].
  - cbn [seq map List.concat]. rewrite <- seq_shift, map_map.
    rewrite (map_ext (fun p => firstn 10 (skipn (10 * S p) l))
                     (fun p => firstn 10 (skipn (10 * p) (skipn 10 l)))).
    + rewrite IH by (rewrite length_skipn; lia).
      replace (10 * 0)%nat with 0%nat by lia. cbn [skipn].
      apply firstn_skipn.
    + intros p. rewrite skipn_skipn. do 2 f_equal. lia.
Qed.

Lemma currentData_in_range {A} (l : list A) (page : Z) :
  1 <= page ->
  Pager.currentData l page
  = firstn 10 (skipn (10 * Z.to_nat (page - 1)) l).
Proof.
  intros Hp. unfold Pager.currentData, Pager.slice, Pager.endIndex,
    Pager.startIndex, Pager.ROWS_PER_PAGE.
  cbv zeta. set (n := List.length l).
  destruct ((page - 1) * 10 <? 0) eqn:H1; [apply Z.ltb_lt in H1; lia|].
  destruct ((page - 1) * 10 + 10 <? 0) eqn:H2; [apply Z.ltb_lt in H2; lia|].
  destruct (Z.le_gt_cases ((page - 1) * 10) (Z.of_nat n)) as [Hin|Hout].
  - rewrite (Z.min_l _ _ Hin).
    replace (Z.to_nat ((page - 1) * 10)) with (10 * Z.to_nat (page - 1))%nat
      by lia.
    destruct (Z.le_gt_cases ((page - 1) * 10 + 10) (Z.of_nat n)) as [Hfull|Hpart].
    + rewrite (Z.min_l _ _ Hfull). f_equal. lia.
    + rewrite Z.min_r by lia.
      rewrite !firstn_all2; [reflexivity| |];
        rewrite length_skipn; fold n; lia.
  - rewrite !Z.min_r by lia.
    rewrite Z.sub_diag. cbn [Z.to_nat firstn].
    rewrite skipn_all2 by (fold n; lia).
    reflexivity.
Qed.

(** X18: the pages of the machine table partition the filtered rows:
    put end to end, in order, the pages 1 to [totalPages] give back the
    filtered rows; every page has at most 10 rows, every page before the
    last one exactly 10, the last one at least 1; a page after the last
    one is empty. *)
Theorem table_pages_partition :
  forall (A : Type) (filteredData : list A),
    let total := Pager.totalPages (List.length filteredData) in
    List.concat (map (fun p => Pager.currentData filteredData (Z.of_nat p))
                (seq 1 (Z.to_nat total)))
    = filteredData
    /\ (forall page,
          1 <= page <= total ->
          (1 <= List.length (Pager.currentData filteredData page) <= 10)%nat)
    /\ (forall page,
          1 <= page < total ->
          List.length (Pager.currentData filteredData page) = 10%nat)
    /\ (forall page,
          total < page -> Pager.currentData filteredData page = [])
    /\ (total = 0 <-> filteredData = []).
Proof.
  intros A l total.
  assert (Htot : 10 * total - 9 <= Z.of_nat (List.length l) <= 10 * total).
  { subst total. unfold Pager.totalPages, Pager.ROWS_PER_PAGE.
    pose proof (Z.div_mod (Z.of_nat (List.length l) + (10 - 1)) 10 ltac:(lia)).
    pose proof (Z.mod_pos_bound (Z.of_nat (List.length l) + (10 - 1)) 10
                  ltac:(lia)).
    lia. }
  assert (Hlen : forall page,
             1 <= page ->
             List.length (Pager.currentData l page)
             = Nat.min 10 (List.length l - 10 * Z.to_nat (page - 1))).
  { intros page Hp. rewrite currentData_in_range by exact Hp.
    rewrite length_firstn, length_skipn. reflexivity. }
  split; [|split; [|split; [|split]]].
  - rewrite <- seq_shift, map_map.
    rewrite (map_ext (fun p => Pager.currentData l (Z.of_nat (S p)))
                     (fun p => firstn 10 (skipn (10 * p) l))).
    + apply chunks_concat. lia.
    + intros p. rewrite currentData_in_range by lia.
      do 3 f_equal. lia.
  - intros page Hp. rewrite Hlen by lia. lia.
  - intros page Hp. rewrite Hlen by lia. lia.
  - intros page Hp. rewrite currentData_in_range by lia.
    rewrite skipn_all2 by lia. reflexivity.
  - split.
    + intros H0. destruct l; [reflexivity|]. cbn [List.length] in Htot. lia.
    + intros ->. reflexivity.
Qed.

(** X19: the page number stays valid.  From a page between 1 and
    [totalPages] (page 1 when there is no row), each control that is
    enabled, Previous, Next or a page button, leads to a page between 1
    and [totalPages]; with no row no control is enabled.  There are
    min(totalPages, 5) page buttons; they show consecutive valid pages,
    the current page among them. *)
Theorem pager_stays_in_range :
  forall (len : nat) (currentPage : Z) (a : Pager.action),
    let totalPages := Pager.totalPages len in
    1 <= currentPage <= Z.max totalPages 1 ->
    Pager.enabled totalPages currentPage a = true ->
    1 <= Pager.click totalPages currentPage a <= totalPages
    /\ List.length (Pager.pageButtons totalPages currentPage)
       = Z.to_nat (Z.min totalPages 5)
    /\ (forall i,
          (i < List.length (Pager.pageButtons totalPages currentPage))%nat ->
          1 <= Pager.pageNum totalPages currentPage i <= totalPages
          /\ Pager.pageNum totalPages currentPage (S i)
             = Pager.pageNum totalPages currentPage i + 1)
    /\ In currentPage (Pager.pageButtons totalPages currentPage).
Proof.
  intros len page a total Hp Hen.
  assert (H0 : 0 <= total).
  { subst total. unfold Pager.totalPages, Pager.ROWS_PER_PAGE.
    apply Z.div_pos; lia. }
  assert (Hlen : List.length (Pager.pageButtons total page)
                 = Z.to_nat (Z.min total 5)).
  { unfold Pager.pageButtons. rewrite length_map, length_seq. reflexivity. }
  assert (H1 : 1 <= total).
  { destruct (Z.eq_dec total 0) as [Hz|Hz]; [|lia].
    exfalso. rewrite Hz in *. assert (page = 1) by lia. subst page.
    destruct a as [| |i]; cbn in Hen; discriminate. }
  clearbody total.
  assert (Hp' : 1 <= page <= total) by lia. clear Hp.
  assert (Hnum : forall i,
             (i < Z.to_nat (Z.min total 5))%nat ->
             1 <= Pager.pageNum total page i <= total
             /\ Pager.pageNum total page (S i) = Pager.pageNum total page i + 1).
  { intros i Hi. unfold Pager.pageNum.
    destruct (total <=? 5) eqn:H5;
      [apply Z.leb_le in H5|apply Z.leb_gt in H5].
    { lia. }
    destruct (page <=? 3) eqn:H3;
      [apply Z.leb_le in H3|apply Z.leb_gt in H3].
    { lia. }
    destruct (page >=? total - 2) eqn:H2;
      [apply Z.geb_le in H2|rewrite Z.geb_leb in H2; apply Z.leb_gt in H2];
      lia. }
  split; [|split; [exact Hlen|split]].
  - destruct a as [| |i]; cbn [Pager.click Pager.enabled] in *.
    + unfold Pager.handlePrevPage. lia.
    + unfold Pager.handleNextPage.
      apply negb_true_iff, orb_false_iff in Hen. destruct Hen as [Hne _].
      apply Z.eqb_neq in Hne. lia.
    + apply Nat.ltb_lt in Hen. rewrite Hlen in Hen. apply Hnum. exact Hen.
  - intros i Hi. rewrite Hlen in Hi. apply Hnum. exact Hi.
  - unfold Pager.pageButtons. apply in_map_iff. unfold Pager.pageNum.
    destruct (total <=? 5) eqn:H5;
      [apply Z.leb_le in H5|apply Z.leb_gt in H5].
    { exists (Z.to_nat (page - 1)). split; [lia|apply in_seq; lia]. }
    destruct (page <=? 3) eqn:H3;
      [apply Z.leb_le in H3|apply Z.leb_gt in H3].
    { exists (Z.to_nat (page - 1)). split; [lia|apply in_seq; lia]. }
    destruct (page >=? total - 2) eqn:H2;
      [apply Z.geb_le in H2|rewrite Z.geb_leb in H2; apply Z.leb_gt in H2].
    + exists (Z.to_nat (page - (total - 4))). split; [lia|apply in_seq; lia].
    + exists 2%nat. split; [lia|apply in_seq; lia].
Qed.

(** 64 rows, on the last of 7 pages: the first button leads to page 3. *)
Lemma pager_stays_in_range_witness :
  Pager.click (Pager.totalPages 64) 7 (Pager.Button 0) = 3
  /\ Pager.pageButtons (Pager.totalPages 64) 7 = [3; 4; 5; 6; 7]
  /\ 1 <= Pager.click (Pager.totalPages 64) 7 (Pager.Button 0)
     <= Pager.totalPages 64.
Proof.
  destruct (pager_stays_in_range 64 7 (Pager.Button 0)) as [H _].
  - cbv. split; discriminate.
  - reflexivity.
  - split; [reflexivity|]. split; [reflexivity|exact H].
Defined.

End TablePagination.

(** ** The dashboard: KPI cards, filter options and the status filter *)

Section Kpi.

Import Dashboard.

Lemma wfStatus_label (fallback : string) (m : RawMachine) :
  wfStatus m = true ->
  exists s, or_else (or_else (r_statusName m) (r_status m)) (VStr fallback)
            = VStr s.
Proof.
  unfold wfStatus. intros H. apply andb_prop in H. destruct H as [H1 H2].
  apply or_else_string; [|eauto].
  apply or_else_stringOrFalsy; assumption.
Qed.

Lemma wfStatus_statusLabel (m : RawMachine) :
  wfStatus m = true -> statusLabel "" m = Ok (labelOf m).
Proof.
  intros H. unfold labelOf, statusLabel.
  destruct (wfStatus_label "" m H) as [s ->]. reflexivity.
Qed.

(** The counters after the loop: each one advanced by the number of
    machines with its label. *)
Lemma tallyAll_counts (machines : list RawMachine) :
  Forall (fun m => wfStatus m = true) machines ->
  forall k0,
    exists k,
      tallyAll machines k0 = Ok k
      /\ totalMachines k = totalMachines k0
      /\ normal k
         = (normal k0 + List.length (filter (labelIs "normal") machines))%nat
      /\ satisfactory k
         = (satisfactory k0
            + List.length (filter (labelIs "satisfactory") machines))%nat
      /\ alert k
         = (alert k0 + List.length (filter (labelIs "alert") machines))%nat
      /\ unacceptable k
         = (unacceptable k0
            + List.length (filter (fun m => labelIs "unacceptable" m
                                            || labelIs "unsatisfactory" m)
                             machines))%nat.
Proof.
  induction 1 as [|m machines Hm Hrest IH]; intros k0.
  - exists k0. cbn. repeat split; lia.
  - cbn [tallyAll filter]. rewrite (wfStatus_statusLabel m Hm). cbn [rbind].
    destruct (IH (tally k0 (labelOf m))) as [k [Hk [Ht [Hn [Hs [Ha Hu]]]]]].
    exists k. split; [exact Hk|].
    rewrite Ht, Hn, Hs, Ha, Hu. clear Hk Ht Hn Hs Ha Hu IH.
    unfold tally, labelIs.
    destruct (String.eqb_spec (labelOf m) "normal") as [->|N1];
      [cbn; repeat split; lia|].
    destruct (String.eqb_spec (labelOf m) "satisfactory") as [->|N2];
      [cbn; repeat split; lia|].
    destruct (String.eqb_spec (labelOf m) "alert") as [->|N3];
      [cbn; repeat split; lia|].
    destruct (String.eqb_spec (labelOf m) "unacceptable") as [->|N4];
      [cbn; repeat split; lia|].
    destruct (String.eqb_spec (labelOf m) "unsatisfactory") as [E5|N5];
      cbn; repeat split; lia.
Qed.

(** The labels split the machines five ways. *)
Lemma labels_partition (machines : list RawMachine) :
  (List.length (filter (labelIs "normal") machines)
   + List.length (filter (labelIs "satisfactory") machines)
   + List.length (filter (labelIs "alert") machines)
   + List.length (filter (fun m => labelIs "unacceptable" m
                                   || labelIs "unsatisfactory" m) machines)
   + List.length (filter unrecognised machines))%nat
  = List.length machines.
Proof.
  induction machines as [|m machines IH]; [reflexivity|].
  cbn [filter List.length]. unfold unrecognised, labelIs in *.
  destruct (String.eqb_spec (labelOf m) "normal") as [->|N1];
    [cbn in *; lia|].
  destruct (String.eqb_spec (labelOf m) "satisfactory") as [->|N2];
    [cbn in *; lia|].
  destruct (String.eqb_spec (labelOf m) "alert") as [->|N3];
    [cbn in *; lia|].
  destruct (String.eqb_spec (labelOf m) "unacceptable") as [->|N4];
    [cbn in *; lia|].
  destruct (String.eqb_spec (labelOf m) "unsatisfactory") as [E5|N5];
    cbn in *; lia.
Qed.

Lemma countSeverity_labels (machines : list RawMachine) :
  countSeverity SevB machines
  = List.length (filter (labelIs "satisfactory") machines)
  /\ countSeverity SevC machines
     = List.length (filter (labelIs "alert") machines)
  /\ countSeverity SevD machines
     = List.length (filter (fun m => labelIs "unacceptable" m
                                     || labelIs "unsatisfactory" m) machines)
  /\ countSeverity SevA machines
     = (List.length (filter (labelIs "normal") machines)
        + List.length (filter unrecognised machines))%nat.
Proof.
  unfold countSeverity.
  induction machines as [|m machines [IB [IC [ID IA]]]];
    [repeat split; reflexivity|].
  cbn [filter]. unfold unrecognised, labelIs, severityOf in *.
  destruct (String.eqb_spec (labelOf m) "normal") as [->|N1];
    [cbn in *; repeat split; lia|].
  destruct (String.eqb_spec (labelOf m) "satisfactory") as [->|N2];
    [cbn in *; repeat split; lia|].
  destruct (String.eqb_spec (labelOf m) "alert") as [->|N3];
    [cbn in *; repeat split; lia|].
  destruct (String.eqb_spec (labelOf m) "unacceptable") as [->|N4];
    [cbn in *; repeat split; lia|].
  destruct (String.eqb_spec (labelOf m) "unsatisfactory") as [E5|N5];
    cbn in *; repeat split; lia.
Qed.

(** X20: on machines whose status is a string or absent, the KPI
    counts every machine once in the total and at most once in a
    status card.  The cards Satisfactory, Alert and Unacceptable hold
    the machines that the classifier of the reports
    ([getStatusSeverity]) puts at levels 2, 3 and 4; the card Normal
    holds only the machines labelled "normal": the machines without a
    status or with an unknown label, which the classifier puts at
    level 1, are in no card, so the four cards add up to the total less
    those machines. *)
Theorem kpi_cards_and_severity :
  forall machines : list RawMachine,
    Forall (fun m => wfStatus m = true) machines ->
    exists k,
      calculateKpiFromMachines machines = Ok k
      /\ totalMachines k = List.length machines
      /\ satisfactory k = countSeverity SevB machines
      /\ alert k = countSeverity SevC machines
      /\ unacceptable k = countSeverity SevD machines
      /\ (normal k + List.length (filter unrecognised machines))%nat
         = countSeverity SevA machines
      /\ (normal k + satisfactory k + alert k + unacceptable k
          + List.length (filter unrecognised machines))%nat
         = List.length machines.
Proof.
  intros machines Hwf. unfold calculateKpiFromMachines.
  destruct (tallyAll_counts machines Hwf
              {| totalMachines := List.length machines; normal := 0;
                 satisfactory := 0; alert := 0; unacceptable := 0 |})
    as [k [Hk [Ht [Hn [Hs [Ha Hu]]]]]].
  cbn [totalMachines normal satisfactory alert unacceptable Nat.add] in *.
  destruct (countSeverity_labels machines) as [HB [HC [HD HA]]].
  pose proof (labels_partition machines) as Hp.
  exists k. split; [exact Hk|]. split; [exact Ht|].
  rewrite Hn, Hs, Ha, Hu, HB, HC, HD, HA.
  repeat split; lia.
Qed.

End Kpi.

Section FilterOptions.

Import Dashboard.

Lemma float_eqb_sym (a b : float) : (a =? b)%float = (b =? a)%float.
Proof.
  rewrite !FloatAxioms.eqb_spec. unfold SFeqb.
  rewrite (SFcompare_antisym (Prim2SF a) (Prim2SF b)).
  destruct (SFcompare (Prim2SF a) (Prim2SF b)) as [[]|]; reflexivity.
Qed.

Lemma sameValueZero_sym (a b : value) :
  sameValueZero a b = sameValueZero b a.
Proof.
  destruct a, b; cbn; try reflexivity.
  - apply String.eqb_sym.
  - rewrite float_eqb_sym, (andb_comm (is_nan n)). reflexivity.
  - destruct b, b0; reflexivity.
Qed.

Lemma sameValueZero_string (s : string) (v : value) :
  sameValueZero (VStr s) v = true -> v = VStr s.
Proof.
  destruct v; cbn; try discriminate.
  intros H. apply String.eqb_eq in H. congruence.
Qed.

Section Field.

Variable field : RawMachine -> value.


Lemma setAdd_distinct (s : list value) (v : value) :
  ForallOrdPairs (fun a b => sameValueZero a b = false) s ->
  ForallOrdPairs (fun a b => sameValueZero a b = false) (setAdd s v).
Proof.
  unfold setAdd. destruct (existsb (sameValueZero v) s) eqn:Hex;
    [auto|].
  intros H. induction H as [|a l Ha Hl IH].
  - cbn. constructor; constructor.
  - cbn [app]. cbn [existsb] in Hex. apply orb_false_iff in Hex.
    destruct Hex as [Hva Hex].
    constructor; [|apply IH; exact Hex].
    apply Forall_app. split; [exact Ha|].
    constructor; [|constructor].
    rewrite sameValueZero_sym. exact Hva.
Qed.

Lemma addOption_distinct (s : list value) (v : value) :
  ForallOrdPairs (fun a b => sameValueZero a b = false) s ->
  ForallOrdPairs (fun a b => sameValueZero a b = false) (addOption s v).
Proof.
  unfold addOption.
  destruct (truthy v && negb (strictEq v (VStr "N/A"))); [|auto].
  apply setAdd_distinct.
Qed.

Lemma options_distinct (machines : list RawMachine) :
  forall s0,
    ForallOrdPairs (fun a b => sameValueZero a b = false) s0 ->
    ForallOrdPairs (fun a b => sameValueZero a b = false) (collect field machines s0).
Proof.
  induction machines as [|m machines IH]; intros s0 H; [exact H|].
  cbn [collect fold_left]. apply IH, addOption_distinct, H.
Qed.

Lemma addOption_prefix (s : list value) (v : value) :
  exists more, addOption s v = s ++ more.
Proof.
  unfold addOption, setAdd.
  destruct (truthy v && negb (strictEq v (VStr "N/A")));
    [destruct (existsb (sameValueZero v) s)|];
    first [exists []; rewrite app_nil_r; reflexivity
          | exists [v]; reflexivity].
Qed.

Lemma options_prefix (machines : list RawMachine) :
  forall s0, exists more, collect field machines s0 = s0 ++ more.
Proof.
  induction machines as [|m machines IH]; intros s0.
  - exists []. rewrite app_nil_r. reflexivity.
  - cbn [collect fold_left]. destruct (addOption_prefix s0 (field m)) as [m1 ->].
    destruct (IH (s0 ++ m1)) as [m2 H2]. unfold collect in H2. rewrite H2.
    exists (m1 ++ m2). rewrite app_assoc. reflexivity.
Qed.

Lemma addOption_has (s : list value) (v : value) :
  truthy v = true -> strictEq v (VStr "N/A") = false ->
  existsb (sameValueZero v) (addOption s v) = true.
Proof.
  intros Ht Hn. unfold addOption, setAdd. rewrite Ht, Hn. cbn [andb negb].
  destruct (existsb (sameValueZero v) s) eqn:Hex; [exact Hex|].
  rewrite existsb_app, Hex. cbn.
  rewrite orb_false_r.
  destruct v; cbn in *; try discriminate.
  - apply String.eqb_refl.
  - apply negb_true_iff, orb_false_iff in Ht. destruct Ht as [_ Hnan].
    unfold is_nan in Hnan. apply negb_false_iff in Hnan. rewrite Hnan.
    reflexivity.
  - destruct b; [reflexivity|discriminate].
Qed.

Lemma options_keep (machines : list RawMachine) (v : value) :
  forall s0,
    existsb (sameValueZero v) s0 = true ->
    existsb (sameValueZero v) (collect field machines s0) = true.
Proof.
  intros s0 H. destruct (options_prefix machines s0) as [more ->].
  rewrite existsb_app, H. reflexivity.
Qed.

Lemma options_has (machines : list RawMachine) (m : RawMachine) :
  In m machines ->
  truthy (field m) = true -> strictEq (field m) (VStr "N/A") = false ->
  forall s0, existsb (sameValueZero (field m)) (collect field machines s0) = true.
Proof.
  induction machines as [|m' machines IH]; intros Hin Ht Hn s0;
    [contradiction|].
  cbn [collect fold_left]. destruct Hin as [->|Hin].
  - apply options_keep, addOption_has; assumption.
  - apply IH; assumption.
Qed.

Lemma addOption_from (s : list value) (v a : value) :
  In a (addOption s v) ->
  In a s \/ (a = v /\ truthy v = true /\ strictEq v (VStr "N/A") = false).
Proof.
  unfold addOption, setAdd.
  destruct (truthy v) eqn:Ht; cbn [andb]; [|auto].
  destruct (strictEq v (VStr "N/A")) eqn:Hn; cbn [negb]; [auto|].
  destruct (existsb (sameValueZero v) s); [auto|].
  intros H. apply in_app_or in H. destruct H as [H|[H|[]]]; auto.
Qed.

Lemma options_from (machines : list RawMachine) (a : value) :
  forall s0,
    In a (collect field machines s0) ->
    In a s0
    \/ exists m, In m machines /\ field m = a /\ truthy a = true
                 /\ strictEq a (VStr "N/A") = false.
Proof.
  induction machines as [|m machines IH]; intros s0 H; [left; exact H|].
  cbn [collect fold_left] in H. apply IH in H.
  destruct H as [H|[m' [Hin Hm']]].
  - apply addOption_from in H. destruct H as [H|[-> [Ht Hn]]]; [auto|].
    right. exists m. split; [left; reflexivity|auto].
  - right. exists m'. split; [right; exact Hin|exact Hm'].
Qed.

(** The options of one field. *)
Lemma options_spec (machines : list RawMachine) :
  let opts := collect field machines [VStr "All"] in
  hd_error opts = Some (VStr "All")
  /\ ForallOrdPairs (fun a b => sameValueZero a b = false) opts
  /\ ~ In (VStr "N/A") opts
  /\ (forall m, In m machines -> truthy (field m) = true ->
                strictEq (field m) (VStr "N/A") = false ->
                existsb (sameValueZero (field m)) opts = true)
  /\ (forall a, In a opts ->
                a = VStr "All"
                \/ exists m, In m machines /\ field m = a /\ truthy a = true).
Proof.
  intros opts. subst opts.
  split; [|split; [|split; [|split]]].
  - destruct (options_prefix machines [VStr "All"]) as [more ->]. reflexivity.
  - apply options_distinct. constructor; constructor.
  - intros H. apply options_from in H.
    destruct H as [[H|[]]|[m [_ [_ [_ Hn]]]]]; [discriminate|].
    discriminate Hn.
  - intros m Hin Ht Hn. apply options_has; assumption.
  - intros a H. apply options_from in H.
    destruct H as [[H|[]]|[m [Hin [Hf [Ht _]]]]]; [left; congruence|].
    right. exists m. auto.
Qed.

End Field.

(** X21: the options offered by the filter bars.  The list of areas
    and the list of customers each start with "All", hold no value
    twice, never hold "N/A" and hold nothing but "All" and identifiers
    read from the machines; every identifier of a machine that is
    present and is not "N/A" is in its list. *)
Theorem filter_options :
  forall machines : list RawMachine,
    (hd_error (areaOptions machines) = Some (VStr "All")
     /\ ForallOrdPairs (fun a b => sameValueZero a b = false)
          (areaOptions machines)
     /\ ~ In (VStr "N/A") (areaOptions machines)
     /\ (forall m, In m machines -> truthy (r_areaId m) = true ->
                   strictEq (r_areaId m) (VStr "N/A") = false ->
                   existsb (sameValueZero (r_areaId m)) (areaOptions machines)
                   = true)
     /\ (forall a, In a (areaOptions machines) ->
                   a = VStr "All"
                   \/ exists m, In m machines /\ r_areaId m = a
                                /\ truthy a = true))
    /\ (hd_error (customerOptions machines) = Some (VStr "All")
        /\ ForallOrdPairs (fun a b => sameValueZero a b = false)
             (customerOptions machines)
        /\ ~ In (VStr "N/A") (customerOptions machines)
        /\ (forall m, In m machines -> truthy (r_customerId m) = true ->
                      strictEq (r_customerId m) (VStr "N/A") = false ->
                      existsb (sameValueZero (r_customerId m))
                        (customerOptions machines) = true)
        /\ (forall a, In a (customerOptions machines) ->
                      a = VStr "All"
                      \/ exists m, In m machines /\ r_customerId m = a
                                   /\ truthy a = true)).
Proof.
  intros machines. split.
  - exact (options_spec r_areaId machines).
  - exact (options_spec r_customerId machines).
Qed.

End FilterOptions.

Section StatusFilter.

Import Dashboard.

Variable B : Builtins.

(** The label of the row of a machine. *)
Lemma transform_status (m : RawMachine) (index : nat) :
  wfRaw m = true ->
  exists row s,
    transform m index = Ok row
    /\ or_else (or_else (r_statusName m) (r_status m)) (VStr "normal") = VStr s
    /\ status row = VStr (lowerCase s).
Proof.
  unfold wfRaw. intros H. apply andb_prop in H. destruct H as [Hs Hd].
  destruct (wfStatus_label "normal" m Hs) as [s Hlabel].
  unfold transform, statusLabel. rewrite Hlabel. cbn [toLowerCase rbind].
  destruct (truthy (r_dataUpdatedTime m)) eqn:Ht.
  - destruct (truthy_string _ Hd Ht) as [d ->]. cbn [splitT0 rbind].
    eexists _, s. split; [reflexivity|]. split; reflexivity.
  - cbn [rbind]. eexists _, s. split; [reflexivity|]. split; reflexivity.
Qed.

(** Under a status filter alone, a row is kept exactly when its label
    and the selected one are the same once in lower case, with
    "unsatisfactory" read as "unacceptable". *)
Lemma keeps_statusOnly (label s : string) (row : Row) :
  label <> "" -> label <> "All" ->
  status row = VStr s ->
  keeps B (statusOnly label) row
  = Ok (String.eqb (normalise (lowerCase s)) (normalise (lowerCase label))).
Proof.
  intros Hne Hall Hs. unfold keeps, lowered, statusOnly, excludes.
  cbn [f_areaId f_status f_customerId f_fromDate f_toDate f_searchQuery
       f_searchField].
  rewrite Hs.
  assert (Ht : truthy (VStr label) = true).
  { cbn. destruct (String.eqb_spec label ""); [contradiction|reflexivity]. }
  rewrite (or_else_truthy (VStr label) _ Ht).
  assert (Hnall : strictEq (VStr label) (VStr "All") = false).
  { cbn. destruct (String.eqb_spec label "All"); [contradiction|reflexivity]. }
  rewrite Ht, Hnall.
  unfold or_else. cbn [truthy].
  destruct (negb (String.eqb s "")) eqn:Hse; cbn [toLowerCase rbind].
  - cbn [strictEq String.eqb Ascii.eqb Bool.eqb negb andb searchKeeps truthy
         f_searchQuery].
    destruct (String.eqb (normalise (lowerCase s)) (normalise (lowerCase label)));
      reflexivity.
  - apply negb_false_iff, String.eqb_eq in Hse. subst s.
    cbn [strictEq String.eqb Ascii.eqb Bool.eqb negb andb searchKeeps truthy
         f_searchQuery lowerCase map_chars].
    destruct (String.eqb (normalise "") (normalise (lowerCase label)));
      reflexivity.
Qed.

(** The rows of the machines and how many of them a status filter
    keeps. *)
Lemma filtered_count (label : string) (token : string -> bool) :
  label <> "" -> label <> "All" ->
  (forall s, String.eqb (normalise (lowerCase s)) (normalise (lowerCase label))
             = token (lowerCase s)) ->
  forall (machines : list RawMachine) (index : nat),
    Forall (fun m => wfRaw m = true) machines ->
    exists rows shown,
      transformFrom index machines = Ok rows
      /\ List.length rows = List.length machines
      /\ filteredData B (statusOnly label) rows = Ok shown
      /\ List.length shown
         = List.length
             (filter (fun m => match statusLabel "normal" m with
                               | Ok s => token s
                               | Throw _ => false
                               end) machines).
Proof.
  intros Hne Hall Htoken machines.
  induction machines as [|m machines IH]; intros index Hwf.
  - exists [], []. repeat split; reflexivity.
  - pose proof (Forall_inv Hwf) as Hm.
    destruct (transform_status m index Hm) as [row [s [Hrow [Hlabel Hstatus]]]].
    destruct (IH (S index) (Forall_inv_tail Hwf))
      as [rows [shown [Hrows [Hlen [Hshown Hcount]]]]].
    cbn [transformFrom filter]. rewrite Hrow, Hrows. cbn [rbind].
    eexists _, _. split; [reflexivity|].
    split; [cbn [List.length]; rewrite Hlen; reflexivity|].
    cbn [filteredData].
    rewrite (keeps_statusOnly label (lowerCase s) row Hne Hall Hstatus), Hshown.
    cbn [rbind]. split; [reflexivity|].
    unfold statusLabel. rewrite Hlabel. cbn [toLowerCase].
    rewrite lowerCase_idem, Htoken.
    destruct (token (lowerCase s)); cbn [List.length]; rewrite Hcount;
      reflexivity.
Qed.

Lemma transformFrom_statuses :
  forall (machines : list RawMachine) (index : nat) (rows : list Row),
    transformFrom index machines = Ok rows ->
    Forall (fun row => exists s, status row = VStr s) rows.
Proof.
  induction machines as [|m machines IH]; intros index rows H.
  - cbn in H. inversion H. constructor.
  - cbn [transformFrom] in H.
    destruct (transform m index) as [row|e] eqn:Hrow; [|discriminate].
    cbn [rbind] in H.
    destruct (transformFrom (S index) machines) as [rest|e] eqn:Hrest;
      [|discriminate].
    cbn [rbind] in H. inversion H; subst. constructor.
    + unfold transform in Hrow.
      destruct (statusLabel "normal" m) as [s|e]; [|discriminate].
      cbn [rbind] in Hrow.
      destruct (if truthy (r_dataUpdatedTime m)
                then rbind (splitT0 (r_dataUpdatedTime m))
                       (fun d => Ok (VStr d))
                else Ok (VStr "N/A")) as [d|e]; [|discriminate].
      cbn [rbind] in Hrow. inversion Hrow. exists s. reflexivity.
    + exact (IH (S index) rest Hrest).
Qed.

Lemma filteredData_ext (f g : Filters) (rows : list Row) :
  Forall (fun row => keeps B f row = keeps B g row) rows ->
  filteredData B f rows = filteredData B g rows.
Proof.
  induction 1 as [|row rows Hrow Hrows IH]; [reflexivity|].
  cbn [filteredData]. rewrite Hrow, IH. reflexivity.
Qed.

(** The machines a status filter keeps, counted by the labels the KPI
    reads: a machine without a status has the label "normal" in the
    table and none in the KPI. *)
Lemma shown_by_label (token : string -> bool) (machines : list RawMachine) :
  Forall (fun m => wfRaw m = true) machines ->
  List.length
    (filter (fun m => match statusLabel "normal" m with
                      | Ok s => token s
                      | Throw _ => false
                      end) machines)
  = (List.length (filter (fun m => token (labelOf m) && negb (noStatus m))
                    machines)
     + List.length (filter (fun m => token "normal" && noStatus m) machines))%nat.
Proof.
  induction 1 as [|m machines Hm Hrest IH]; [reflexivity|].
  cbn [filter]. unfold labelOf, statusLabel, noStatus in *.
  unfold wfRaw in Hm. apply andb_prop in Hm. destruct Hm as [Hs _].
  destruct (truthy (or_else (r_statusName m) (r_status m))) eqn:Ht.
  - rewrite !(or_else_truthy _ _ Ht).
    destruct (wfStatus_label "" m Hs) as [s Hlabel].
    rewrite (or_else_truthy _ _ Ht) in Hlabel. rewrite Hlabel.
    cbn [toLowerCase negb]. rewrite andb_true_r, andb_false_r.
    destruct (token (lowerCase s)); cbn [List.length]; lia.
  - rewrite !(or_else_falsy _ _ Ht). cbn [toLowerCase negb].
    change (lowerCase "normal") with "normal".
    rewrite andb_false_r, andb_true_r.
    destruct (token "normal"); cbn [List.length]; lia.
Qed.

Lemma filter_length_ext {T} (p q : T -> bool) (l : list T) :
  (forall x, p x = q x) -> List.length (filter p l) = List.length (filter q l).
Proof. intros H. rewrite (filter_ext p q H). reflexivity. Qed.

Lemma filter_none {T} (p : T -> bool) (l : list T) :
  (forall x, p x = false) -> List.length (filter p l) = 0%nat.
Proof.
  intros H. induction l as [|x l IH]; [reflexivity|].
  cbn [filter]. rewrite H. exact IH.
Qed.

(** A machine without a status has the empty label. *)
Lemma noStatus_label (m : RawMachine) : noStatus m = true -> labelOf m = "".
Proof.
  unfold noStatus, labelOf, statusLabel. intros H.
  apply negb_true_iff in H. rewrite (or_else_falsy _ _ H). reflexivity.
Qed.

Lemma count_with_status (token : string) (machines : list RawMachine) :
  token <> "" ->
  List.length (filter (fun m => String.eqb (labelOf m) token
                                && negb (noStatus m)) machines)
  = List.length (filter (labelIs token) machines).
Proof.
  intros Hne. apply filter_length_ext. intros m. unfold labelIs.
  destruct (noStatus m) eqn:Hn; cbn [negb];
    [|apply andb_true_r].
  rewrite (noStatus_label m Hn), andb_false_r.
  symmetry. apply String.eqb_neq. congruence.
Qed.


End StatusFilter.

Section DashboardExamples.

Lemma kpi_cards_and_severity_witness :
  exists k,
    Dashboard.calculateKpiFromMachines Samples.fleet = Ok k
    /\ Dashboard.totalMachines k = 4%nat
    /\ Dashboard.normal k = 0%nat
    /\ Dashboard.alert k = 1%nat
    /\ Dashboard.unacceptable k = 1%nat.
Proof.
  assert (Hwf : Forall (fun m => Dashboard.wfStatus m = true) Samples.fleet)
    by (repeat constructor).
  destruct (kpi_cards_and_severity Samples.fleet Hwf)
    as [k [Hk [Ht [_ [Ha [Hu [Hn _]]]]]]].
  exists k. split; [exact Hk|]. split; [exact Ht|].
  split; [|split; [exact Ha|exact Hu]].
  change (Dashboard.countSeverity SevA Samples.fleet) with 2%nat in Hn.
  change (List.length (filter Dashboard.unrecognised Samples.fleet))
    with 2%nat in Hn.
  lia.
Defined.


End DashboardExamples.

(** ** The request for the machines *)

Section Request.

Lemma appendUnlessAll_in (key k : string) (v w : value) :
  In (k, w) (Api.appendUnlessAll key v)
  <-> k = key /\ w = v /\ truthy v = true
      /\ Dashboard.strictEq v (VStr "All") = false.
Proof.
  unfold Api.appendUnlessAll.
  destruct (truthy v) eqn:Ht; cbn [andb].
  - destruct (Dashboard.strictEq v (VStr "All")) eqn:Ha; cbn [negb In].
    + split; [intros []|]. intros [_ [_ [_ H]]]. discriminate.
    + split.
      * intros [H|[]]. inversion H. auto.
      * intros [-> [-> _]]. left. reflexivity.
  - cbn [In]. split; [intros []|]. intros [_ [_ [H _]]]. discriminate.
Qed.

(** X23: what the machine page sends to the API.  The request carries
    the two dates when they are set, and the customer, the area and the
    status when they are set and are not 'All', under the keys
    [date_from], [date_to], [customerId], [areaId], [status] in this
    order, each at most once; an 'All', an empty filter, the search
    text and the search field are never sent: the search only filters
    the rows already fetched.  With nothing to send the endpoint is
    "/machines". *)
Theorem request_parameters :
  forall (toString : list (string * value) -> string)
         (filters : Dashboard.Filters),
    let params := Api.fetchMachinesParams (Api.apiFilters filters) in
    (forall k v, In (k, v) params -> truthy v = true)
    /\ (forall v, In ("date_from", v) params
                  <-> v = Dashboard.f_fromDate filters /\ truthy v = true)
    /\ (forall v, In ("date_to", v) params
                  <-> v = Dashboard.f_toDate filters /\ truthy v = true)
    /\ (forall v, In ("customerId", v) params
                  <-> v = Dashboard.f_customerId filters /\ truthy v = true
                      /\ Dashboard.strictEq v (VStr "All") = false)
    /\ (forall v, In ("areaId", v) params
                  <-> v = Dashboard.f_areaId filters /\ truthy v = true
                      /\ Dashboard.strictEq v (VStr "All") = false)
    /\ (forall v, In ("status", v) params
                  <-> v = Dashboard.f_status filters /\ truthy v = true
                      /\ Dashboard.strictEq v (VStr "All") = false)
    /\ Api.inOrder [ "date_from"; "date_to"; "customerId"; "areaId"; "status" ]
                   (map fst params) = true
    /\ (toString [] = "" -> params = [] ->
        Api.endpoint toString (Api.apiFilters filters) = "/machines").
Proof.
  intros toString filters params. subst params.
  unfold Api.fetchMachinesParams, Api.apiFilters.
  cbn [Api.q_date_from Api.q_fromDate Api.q_date_to Api.q_toDate
       Api.q_customerId Api.q_areaId Api.q_status Api.q_machineType truthy].
  set (from := Dashboard.f_fromDate filters).
  set (to := Dashboard.f_toDate filters).
  set (cust := Dashboard.f_customerId filters).
  set (area := Dashboard.f_areaId filters).
  set (st := Dashboard.f_status filters).
  assert (Hor : forall v, truthy (or_else v VUndefined) = truthy v).
  { intros v. unfold or_else. destruct (truthy v) eqn:H; [exact H|reflexivity]. }
  assert (Hval : forall v, truthy v = true -> or_else v VUndefined = v)
    by (intros v; apply or_else_truthy).
  rewrite !Hor.
  assert (Hpick : forall key v,
             Api.appendUnlessAll key
               (if truthy v && negb (Dashboard.strictEq v (VStr "All"))
                then v else VUndefined)
             = Api.appendUnlessAll key v).
  { intros key v. unfold Api.appendUnlessAll.
    destruct (truthy v && negb (Dashboard.strictEq v (VStr "All"))) eqn:H;
      [rewrite H|]; reflexivity. }
  rewrite !Hpick. rewrite app_nil_r.
  split.
  { intros k v H. rewrite !in_app_iff in H.
    destruct H as [H|[H|[H|[H|H]]]].
    - destruct (truthy from) eqn:Ht; [|destruct H].
      destruct H as [H|[]]. inversion H; subst. rewrite Hor. exact Ht.
    - destruct (truthy to) eqn:Ht; [|destruct H].
      destruct H as [H|[]]. inversion H; subst. rewrite Hor. exact Ht.
    - apply appendUnlessAll_in in H. destruct H as [_ [-> [H _]]]. exact H.
    - apply appendUnlessAll_in in H. destruct H as [_ [-> [H _]]]. exact H.
    - apply appendUnlessAll_in in H. destruct H as [_ [-> [H _]]]. exact H. }
  split.
  { intros v. rewrite !in_app_iff, !appendUnlessAll_in. split.
    - intros [H|[H|[H|[H|H]]]];
        try (destruct H as [H _]; discriminate H).
      + destruct (truthy from) eqn:Ht; [|destruct H].
        destruct H as [H|[]]. inversion H. rewrite (Hval _ Ht). auto.
      + destruct (truthy to); [|destruct H].
        destruct H as [H|[]]. discriminate H.
    - intros [-> Ht]. left. rewrite Ht. left. rewrite (Hval _ Ht). reflexivity. }
  split.
  { intros v. rewrite !in_app_iff, !appendUnlessAll_in. split.
    - intros [H|[H|[H|[H|H]]]];
        try (destruct H as [H _]; discriminate H).
      + destruct (truthy from); [|destruct H].
        destruct H as [H|[]]. discriminate H.
      + destruct (truthy to) eqn:Ht; [|destruct H].
        destruct H as [H|[]]. inversion H. rewrite (Hval _ Ht). auto.
    - intros [-> Ht]. right. left. rewrite Ht. left. rewrite (Hval _ Ht).
      reflexivity. }
  split.
  { intros v. rewrite !in_app_iff, !appendUnlessAll_in. split.
    - intros [H|[H|[H|[H|H]]]];
        try (destruct H as [H _]; discriminate H).
      + destruct (truthy from); [|destruct H].
        destruct H as [H|[]]. discriminate H.
      + destruct (truthy to); [|destruct H].
        destruct H as [H|[]]. discriminate H.
      + destruct H as [_ [-> H]]. auto.
    - intros [-> H]. right. right. left. auto. }
  split.
  { intros v. rewrite !in_app_iff, !appendUnlessAll_in. split.
    - intros [H|[H|[H|[H|H]]]];
        try (destruct H as [H _]; discriminate H).
      + destruct (truthy from); [|destruct H].
        destruct H as [H|[]]. discriminate H.
      + destruct (truthy to); [|destruct H].
        destruct H as [H|[]]. discriminate H.
      + destruct H as [_ [-> H]]. auto.
    - intros [-> H]. right. right. right. left. auto. }
  split.
  { intros v. rewrite !in_app_iff, !appendUnlessAll_in. split.
    - intros [H|[H|[H|[H|H]]]];
        try (destruct H as [H _]; discriminate H).
      + destruct (truthy from); [|destruct H].
        destruct H as [H|[]]. discriminate H.
      + destruct (truthy to); [|destruct H].
        destruct H as [H|[]]. discriminate H.
      + destruct H as [_ [-> H]]. auto.
    - intros [-> H]. right. right. right. right. auto. }
  split.
  { unfold Api.appendUnlessAll.
    destruct (truthy from), (truthy to),
      (truthy cust && negb (Dashboard.strictEq cust (VStr "All"))),
      (truthy area && negb (Dashboard.strictEq area (VStr "All"))),
      (truthy st && negb (Dashboard.strictEq st (VStr "All")));
      reflexivity. }
  intros Hempty Hnil. unfold Api.endpoint, Api.fetchMachinesParams, Api.apiFilters.
  cbn [Api.q_date_from Api.q_fromDate Api.q_date_to Api.q_toDate
       Api.q_customerId Api.q_areaId Api.q_status Api.q_machineType truthy].
  cbv zeta. fold from to cust area st.
  rewrite !Hor, !Hpick, app_nil_r, Hnil, Hempty. reflexivity.
Qed.

End Request.
